(** * go_vmware_api: a shallow embedding of [main.go]

    The program is a one-shot monitoring probe.  It validates its flags,
    normalises the endpoint, opens a management session, enumerates hosts or
    datastores, derives a (total, free) pair and prints a summary.

    Conventions of the embedding:
    - Go [string] is [String.string] (a sequence of bytes);
    - Go [int] and the fixed-width integer fields of the vSphere bindings
      are [Z], their ranges written out where a statement depends on them;
    - Go [float64] is IEEE-754 binary64, modelled by [spec_float] with
      precision 53 and maximal exponent 1024;
    - a Go pointer is an [option], [None] for nil, and reading through nil
      is a panic;
    - printing, process exit, panics and the calls into the management
      session are events and endings of a trace, threaded by a small
      writer/exit monad;
    - the libraries the program calls without looking inside ([pflag], the
      URL functions, the management session, the order of [range] over a
      map) are the fields of a [World]. *)

From Stdlib Require Import ZArith QArith Qpower Bool Ascii String List Lia Permutation.
From Stdlib Require Import DecimalString.
From Stdlib Require Import Floats.SpecFloat.
Import ListNotations.

Local Open Scope string_scope.
Local Open Scope Z_scope.

(** ** float64 *)

Module F64.

Definition prec : Z := 53.
Definition emax : Z := 1024.

Definition float64 := spec_float.

(** [float64(n)] for an integer [n]: conversion rounds to nearest-even. *)
Definition of_Z (n : Z) : float64 := binary_normalize prec emax n 0 false.

Definition mul : float64 -> float64 -> float64 := SFmul prec emax.
Definition sub : float64 -> float64 -> float64 := SFsub prec emax.
Definition div : float64 -> float64 -> float64 := SFdiv prec emax.

(** The zero value of a [float64] variable. *)
Definition zero : float64 := S754_zero false.

Definition is_finite (x : float64) : bool :=
  match x with
  | S754_zero _ | S754_finite _ _ _ => true
  | _ => false
  end.

(** The rational number a finite float stands for (0 for the others). *)
Definition to_Q (x : float64) : Q :=
  match x with
  | S754_finite s m e => inject_Z (cond_Zopp s (Zpos m)) * (2 ^ e)%Q
  | _ => 0%Q
  end.

(** The number of binary digits of a positive integer. *)
Definition digits (k : positive) : Z := Zpos (digits2_pos k).

(** The normal float of value [+/- k * 2^j], for [k] of at most 53 digits:
    the mantissa is [k] shifted up to exactly 53 digits. *)
Definition canon (s : bool) (k : positive) (j : Z) : float64 :=
  let a := prec - digits k in
  S754_finite s (Z.to_pos (Zpos k * 2 ^ a)) (j - a).

(** [k] fits the mantissa and the exponent of [canon s k j] is in range. *)
Definition canon_ok (k : positive) (j : Z) : Prop :=
  digits k <= prec
  /\ 3 - emax - prec <= j + digits k - prec <= emax - prec.

Definition is_zero (x : float64) : bool :=
  match x with
  | S754_zero _ => true
  | _ => false
  end.

(** [x] is the float of value [n * 2^j], with nothing lost. *)
Definition repr (x : float64) (n j : Z) : Prop :=
  if n =? 0 then is_zero x = true
  else canon_ok (Z.to_pos (Z.abs n)) j
       /\ x = canon (n <? 0) (Z.to_pos (Z.abs n)) j.

(** [x] is a number, and that number is [q]. *)
Definition exact (x : float64) (q : Q) : Prop :=
  is_finite x = true /\ to_Q x == q.

(** A shift register with nothing shifted out yet. *)
Definition exact_rec (z : Z) : shr_record :=
  {| shr_m := z; shr_r := false; shr_s := false |}.

End F64.

(** ** Formatting ([fmt], [strconv]) *)

Module Fmt.

(** Decimal rendering of an integer, as [%d] and [%v] print it. *)
Definition itoa (n : Z) : string := NilZero.string_of_int (Z.to_int n).

Fixpoint zeros (n : nat) : string :=
  match n with
  | O => EmptyString
  | S k => String "0" (zeros k)
  end.

(** [s] left-padded with zeros to width [w]. *)
Definition pad_left (w : nat) (s : string) : string :=
  zeros (w - String.length s) ++ s.

(** [n / d] rounded to the nearest integer, ties to even ([0 <= n], [0 < d]). *)
Definition round_half_even (n d : Z) : Z :=
  let q := n / d in
  match (2 * (n mod d) ?= d) with
  | Lt => q
  | Gt => q + 1
  | Eq => if Z.even q then q else q + 1
  end.

(** [|m * 2^e| * 10^p], correctly rounded to an integer. *)
Definition scaled (p : nat) (m : positive) (e : Z) : Z :=
  if 0 <=? e then Zpos m * 2 ^ e * 10 ^ Z.of_nat p
  else round_half_even (Zpos m * 10 ^ Z.of_nat p) (2 ^ (- e)).

(** The digits of [n / 10^p] with [p] decimals, signed. *)
Definition fixed (p : nat) (neg : bool) (n : Z) : string :=
  (if neg then "-" else EmptyString)
    ++ itoa (n / 10 ^ Z.of_nat p)
    ++ match p with
       | O => EmptyString
       | S _ => "." ++ pad_left p (itoa (n mod 10 ^ Z.of_nat p))
       end.

(** [%.<p>f] applied to a [float64]. *)
Definition float_f (p : nat) (x : F64.float64) : string :=
  match x with
  | S754_nan => "NaN"
  | S754_infinity false => "+Inf"
  | S754_infinity true => "-Inf"
  | S754_zero s => fixed p s 0
  | S754_finite s m e => fixed p s (scaled p m e)
  end.

(** [%v] applied to a [bool]. *)
Definition bool_v (b : bool) : string := if b then "true" else "false".

(** [%v] applied to a [[]string]. *)
Definition strings_v (l : list string) : string :=
  "[" ++ String.concat " " l ++ "]".

Definition nl : string := String (ascii_of_nat 10) EmptyString.

(** The text [fmt.Println] writes for already rendered operands. *)
Definition println (args : list string) : string :=
  String.concat " " args ++ nl.

End Fmt.

(** ** Regular expressions ([regexp]) *)

Module Regexp.

Inductive regex : Type :=
| NoMatch
| EmptyMatch
| Literal (c : ascii)
| AnyCharNotNL
| AnyChar
| Concat (r1 r2 : regex)
| Alternate (r1 r2 : regex)
| Star (r : regex)
| Plus (r : regex).

(** A parsed pattern: the body and whether it is anchored by [^] and [$]
    (no flags: the anchors are those of the whole text). *)
Record pattern : Type := mkPattern
  { begin_text : bool; body : regex; end_text : bool }.

Definition newline : ascii := ascii_of_nat 10.

Fixpoint nullable (r : regex) : bool :=
  match r with
  | NoMatch => false
  | EmptyMatch => true
  | Literal _ => false
  | AnyCharNotNL => false
  | AnyChar => false
  | Concat r1 r2 => nullable r1 && nullable r2
  | Alternate r1 r2 => nullable r1 || nullable r2
  | Star _ => true
  | Plus r => nullable r
  end.

Fixpoint deriv (c : ascii) (r : regex) : regex :=
  match r with
  | NoMatch => NoMatch
  | EmptyMatch => NoMatch
  | Literal a => if Ascii.eqb a c then EmptyMatch else NoMatch
  | AnyCharNotNL => if Ascii.eqb c newline then NoMatch else EmptyMatch
  | AnyChar => EmptyMatch
  | Concat r1 r2 =>
      let d := Concat (deriv c r1) r2 in
      if nullable r1 then Alternate d (deriv c r2) else d
  | Alternate r1 r2 => Alternate (deriv c r1) (deriv c r2)
  | Star r => Concat (deriv c r) (Star r)
  | Plus r => Concat (deriv c r) (Star r)
  end.

Fixpoint no_newline (s : string) : bool :=
  match s with
  | EmptyString => true
  | String c s' => negb (Ascii.eqb c newline) && no_newline s'
  end.

(** Does the whole of [s] match [r]? *)
Fixpoint full_match (r : regex) (s : string) : bool :=
  match s with
  | EmptyString => nullable r
  | String c s' => full_match (deriv c r) s'
  end.

(** [regexp.MatchString]: does [s] contain a match of the pattern? *)
Definition MatchString (p : pattern) (s : string) : bool :=
  let r1 := if begin_text p then body p else Concat (Star AnyChar) (body p) in
  let r2 := if end_text p then r1 else Concat r1 (Star AnyChar) in
  full_match r2 s.

(** The words of a regular expression. *)
Inductive lang : regex -> string -> Prop :=
| L_Empty : lang EmptyMatch EmptyString
| L_Literal c : lang (Literal c) (String c EmptyString)
| L_NotNL c : c <> newline -> lang AnyCharNotNL (String c EmptyString)
| L_Any c : lang AnyChar (String c EmptyString)
| L_Concat r1 r2 s1 s2 :
    lang r1 s1 -> lang r2 s2 -> lang (Concat r1 r2) (s1 ++ s2)
| L_AltL r1 r2 s : lang r1 s -> lang (Alternate r1 r2) s
| L_AltR r1 r2 s : lang r2 s -> lang (Alternate r1 r2) s
| L_StarNil r : lang (Star r) EmptyString
| L_StarCons r s1 s2 :
    lang r s1 -> lang (Star r) s2 -> lang (Star r) (s1 ++ s2)
| L_Plus r s1 s2 :
    lang r s1 -> lang (Star r) s2 -> lang (Plus r) (s1 ++ s2).

End Regexp.

(** ** The process: output, exit and the management session *)

(** What the process does to the outside, in order. *)
Inductive event : Type :=
| Stdout (text : string)                  (* fmt.Print*, in full *)
| Stderr (text : string)                  (* the message of log.Fatal *)
| Usage                                   (* pflag.Usage() *)
| NewClient (url : string)                (* govmomi.NewClient *)
| CreateContainerView (kinds : list string)
| Retrieve (kinds props : list string)
| Destroy.                                (* v.Destroy, deferred *)

Inductive termination : Type :=
| Exited (code : Z)
| Panicked.

(** A computation writes events and either yields a value or ends the
    process. *)
Definition M (A : Type) : Type := (list event * (A + termination))%type.

Definition ret {A} (a : A) : M A := ([], inl a).

Definition bind {A B} (m : M A) (f : A -> M B) : M B :=
  match m with
  | (t, inl a) => let (t', r) := f a in ((t ++ t')%list, r)
  | (t, inr h) => (t, inr h)
  end.

Notation "x <- m ;; k" := (bind m (fun x => k))
  (at level 61, m at next level, right associativity).
Notation "m ;; k" := (bind m (fun _ => k))
  (at level 61, right associativity).

Definition emit (e : event) : M unit := ([e], inl tt).

(** [os.Exit(code)]: deferred calls do not run. *)
Definition os_Exit {A} (code : Z) : M A := ([], inr (Exited code)).

(** [log.Fatal(err)]: the message goes to standard error, then [os.Exit(1)]. *)
Definition log_Fatal {A} (err : string) : M A :=
  emit (Stderr err) ;; os_Exit 1.

(** A nil dereference. *)
Definition panic {A} : M A := ([], inr Panicked).

(** Reading through a pointer: [None] is the nil pointer. *)
Definition deref {A} (p : option A) : M A :=
  match p with
  | Some a => ret a
  | None => panic
  end.

(** [defer d] in front of [body]: [d] runs when [body] returns or panics,
    not when it exits the process. *)
Definition defer {A} (d : event) (body : M A) : M A :=
  match body with
  | (t, inl a) => ((t ++ [d])%list, inl a)
  | (t, inr Panicked) => ((t ++ [d])%list, inr Panicked)
  | (t, inr (Exited c)) => (t, inr (Exited c))
  end.

Definition Println (args : list string) : M unit :=
  emit (Stdout (Fmt.println args)).

Definition Printf (text : string) : M unit := emit (Stdout text).

(** ** Data *)

(** The flag variables of the package, after [pflag.Parse]. *)
Record Options : Type := mkOptions
  { hostname : string;
    username : string;
    password : string;
    command : string;
    datastore : string;
    warning : Z;
    critical : Z }.

(** The flags as given on the command line: [None] for a flag that was not
    supplied. *)
Record Args : Type := mkArgs
  { arg_hostname : option string;
    arg_username : option string;
    arg_password : option string;
    arg_command : option string;
    arg_datastore : option string;
    arg_warning : option Z;
    arg_critical : option Z }.

(** What [pflag.Parse] makes of the arguments of the process.  The flag set
    is pflag's [CommandLine], made with [ExitOnError]: when it does not
    accept the arguments it ends the process itself, with code 2 for an
    unknown or malformed flag and with code 0 for [--help]; what it prints
    on the way is its own. *)
Inductive parse_result : Type :=
| Parsed (a : Args)
| BadFlag (printed : list event)
| HelpRequested (printed : list event).

Definition or_default {A} (d : A) (o : option A) : A :=
  match o with
  | Some a => a
  | None => d
  end.

(** [init] registers the flags with their defaults; a [pflag.Parse] that
    returns has stored the supplied values. *)
Definition parse (a : Args) : Options :=
  {| hostname := or_default EmptyString (arg_hostname a);
     username := or_default EmptyString (arg_username a);
     password := or_default EmptyString (arg_password a);
     command := or_default EmptyString (arg_command a);
     datastore := or_default EmptyString (arg_datastore a);
     warning := or_default 85 (arg_warning a);
     critical := or_default 90 (arg_critical a) |}.

Record statistics : Type := mkStatistics
  { total : F64.float64;
    free : F64.float64 }.

Record resource : Type := mkResource
  { name : string;
    stats : statistics }.

(** [&resource{}] *)
Definition resource_zero : resource :=
  {| name := EmptyString; stats := {| total := F64.zero; free := F64.zero |} |}.

(** The managed objects, with the fields the program reads.  Their
    declarations belong to the vSphere bindings: [CpuMhz] and the two usage
    counters are [int32], [NumCpuCores] is [int16], the byte counts are
    [int64].  The summaries are structs, but [Hardware] is a pointer
    ([*HostHardwareSummary]) and may be nil. *)
Record HostHardwareSummary : Type :=
  { MemorySize : Z; CpuMhz : Z; NumCpuCores : Z }.

Record HostListSummaryQuickStats : Type :=
  { OverallCpuUsage : Z; OverallMemoryUsage : Z }.

Record HostListSummary : Type :=
  { Hardware : option HostHardwareSummary;
    QuickStats : HostListSummaryQuickStats }.

Record HostSystem : Type :=
  { hs_Name : string; hs_Summary : HostListSummary }.

Record DatastoreSummary : Type :=
  { dss_Name : string; Capacity : Z; FreeSpace : Z }.

Record Datastore : Type :=
  { ds_Name : string; ds_Summary : DatastoreSummary }.

Definition int16 (n : Z) : Prop := - 2 ^ 15 <= n < 2 ^ 15.
Definition int32 (n : Z) : Prop := - 2 ^ 31 <= n < 2 ^ 31.
Definition int64 (n : Z) : Prop := - 2 ^ 63 <= n < 2 ^ 63.

Definition hardware_typed (hw : HostHardwareSummary) : Prop :=
  int64 (MemorySize hw) /\ int32 (CpuMhz hw) /\ int16 (NumCpuCores hw).

Definition host_typed (h : HostSystem) : Prop :=
  match Hardware (hs_Summary h) with
  | Some hw => hardware_typed hw
  | None => True
  end
  /\ int32 (OverallCpuUsage (QuickStats (hs_Summary h)))
  /\ int32 (OverallMemoryUsage (QuickStats (hs_Summary h))).

Definition datastore_typed (d : Datastore) : Prop :=
  int64 (Capacity (ds_Summary d)) /\ int64 (FreeSpace (ds_Summary d)).

(** The management session and the library services the program calls
    without looking inside: flag parsing, URL handling and the iteration
    order of a map. *)
Record World : Type := mkWorld
  { pflag_Parse : list string -> parse_result;
    URL : Type;
    Client : Type;
    View : Type;
    url_Parse : string -> option URL;
    url_UserPassword : URL -> string -> string -> URL;
    url_String : URL -> string;
    govmomi_NewClient : URL -> string + Client;
    view_CreateContainerView : Client -> list string -> string + View;
    view_Retrieve_hosts : View -> list string -> list string -> string + list HostSystem;
    view_Retrieve_datastores : View -> list string -> list string -> string + list Datastore;
    range_order : list (string * string) -> list (string * string);
    range_order_perm : forall m, Permutation (range_order m) m }.

(** ** The functions of [main.go] *)

(** [r.free / r.total * 100] *)
Definition percent (r : resource) : F64.float64 :=
  F64.mul (F64.div (free (stats r)) (total (stats r))) (F64.of_Z 100).

(** [(r *resource) freePer] *)
Definition freePer (r : resource) : string :=
  Fmt.float_f 2 (percent r).

Fixpoint lookup (k : string) (m : list (string * string)) : option string :=
  match m with
  | [] => None
  | (k', v) :: m' => if String.eqb k k' then Some v else lookup k m'
  end.

(** [getKeys]: the keys in the order [range] happens to visit them. *)
Definition getKeys (w : World) (k : list (string * string)) : list string :=
  map fst (range_order w k).

(** The pattern of [urlCheck], [^.*://.*$]. *)
Definition url_pattern : Regexp.pattern :=
  let dots := Regexp.Star Regexp.AnyCharNotNL in
  Regexp.mkPattern true
    (Regexp.Concat dots
       (Regexp.Concat (Regexp.Literal ":")
          (Regexp.Concat (Regexp.Literal "/")
             (Regexp.Concat (Regexp.Literal "/") dots))))
    true.

(** The value [urlCheck] returns. *)
Definition urlCheck_value (h : string) : string :=
  if negb (Regexp.MatchString url_pattern h)
  then "https://" ++ h ++ "/sdk"
  else h.

(** [urlCheck]: it also prints the outcome of the match. *)
Definition urlCheck (h : string) : M string :=
  let matched := Regexp.MatchString url_pattern h in
  Println [Fmt.bool_v matched] ;;
  ret (urlCheck_value h).

Definition datastoreStats (ds : Datastore) : resource :=
  {| name := dss_Name (ds_Summary ds);
     stats :=
       {| total := F64.of_Z (Capacity (ds_Summary ds));
          free := F64.of_Z (FreeSpace (ds_Summary ds)) |} |}.

(** [cpuStats]: [host.Summary.Hardware] is read through the pointer, so a
    host without a hardware summary is a nil dereference. *)
Definition cpuStats (host : HostSystem) : M resource :=
  hw <- deref (Hardware (hs_Summary host)) ;;
  let qs := QuickStats (hs_Summary host) in
  ret {| name := hs_Name host;
         stats :=
           {| total := F64.mul (F64.of_Z (CpuMhz hw)) (F64.of_Z (NumCpuCores hw));
              free :=
                F64.sub
                  (F64.mul (F64.of_Z (CpuMhz hw)) (F64.of_Z (NumCpuCores hw)))
                  (F64.of_Z (OverallCpuUsage qs)) |} |}.

Definition memStats (host : HostSystem) : M resource :=
  hw <- deref (Hardware (hs_Summary host)) ;;
  let qs := QuickStats (hs_Summary host) in
  let mb := F64.div (F64.div (F64.of_Z (MemorySize hw)) (F64.of_Z 1024))
                    (F64.of_Z 1024) in
  ret {| name := hs_Name host;
         stats :=
           {| total := mb;
              free := F64.sub mb (F64.of_Z (OverallMemoryUsage qs)) |} |}.

Definition checkRequiredOptions (o : Options) : option string :=
  if String.eqb (hostname o) EmptyString then Some "Hostname is required"
  else if warning o =? 0 then Some "Must supply the warning percentage"
  else if critical o =? 0 then Some "Must supply the critical percentage"
  else if String.eqb (username o) EmptyString then Some "Must supply the username"
  else if String.eqb (password o) EmptyString then Some "Must supply the password"
  else if String.eqb (command o) EmptyString then Some "Must supply the command"
  else None.

Definition commandChoices : list (string * string) :=
  [("MEM", "HostSystem"); ("CPU", "HostSystem"); ("VMFS", "Datastore")].

(** The loop over the datastores: it stops at the first whose [Name] is the
    target. *)
Fixpoint scan_datastores (target : string) (ds : list Datastore) (e : resource)
  : M resource :=
  match ds with
  | [] => ret e
  | host :: rest =>
      Println [ds_Name host] ;;
      if String.eqb target (ds_Name host)
      then ret (datastoreStats host)
      else scan_datastores target rest e
  end.

(** The [switch command] in the loop over the hosts. *)
Definition host_switch (cmd : string) (e : resource) (host : HostSystem)
  : M resource :=
  if String.eqb cmd "CPU" then cpuStats host
  else if String.eqb cmd "MEM" then memStats host
  else ret e.

(** The loop over the hosts: every host overwrites [e]. *)
Fixpoint scan_hosts (cmd : string) (hss : list HostSystem) (e : resource)
  : M resource :=
  match hss with
  | [] => ret e
  | host :: rest =>
      Println [hs_Name host] ;;
      e <- host_switch cmd e host ;;
      scan_hosts cmd rest e
  end.

(** The part of [main] that picks the resource, from [e := &resource{}] to
    the end of the [if]. *)
Definition select (w : World) (o : Options) (kind : string) (v : View w)
  : M resource :=
  let e := resource_zero in
  if String.eqb (command o) "VMFS" then
    emit (Retrieve [kind] ["name"; "summary"]) ;;
    match view_Retrieve_datastores w v [kind] ["name"; "summary"] with
    | inl err => log_Fatal err
    | inr ds =>
        e <- scan_datastores (datastore o) ds e ;;
        if String.eqb (name e) EmptyString then
          Printf ("No datastore with name " ++ datastore o ++ " found."
                    ++ Fmt.nl) ;;
          os_Exit 1
        else ret e
    end
  else
    emit (Retrieve [kind] ["name"; "summary"]) ;;
    match view_Retrieve_hosts w v [kind] ["name"; "summary"] with
    | inl err => log_Fatal err
    | inr hss => scan_hosts (command o) hss e
    end.

(** The two closing print statements. *)
Definition summary_line (e : resource) : string :=
  "total  " ++ Fmt.float_f 6 (total (stats e)) ++ " " ++ Fmt.nl
    ++ " free " ++ Fmt.float_f 6 (free (stats e)) ++ " " ++ Fmt.nl
    ++ " remaining " ++ freePer e ++ Fmt.nl.

Definition report (e : resource) : M unit :=
  Println [name e] ;;
  Printf (summary_line e).

(** The line that echoes the parsed options. *)
Definition echo_line (o : Options) : string :=
  Fmt.println [hostname o; username o; password o; command o;
               Fmt.itoa (warning o); Fmt.itoa (critical o); datastore o].

(** From [ctx := context.Background()] to the end of [main]. *)
Definition session (w : World) (o : Options) (kind : string) : M unit :=
  raw <- urlCheck (hostname o) ;;
  match url_Parse w raw with
  | None => panic
  | Some u =>
      let u := url_UserPassword w u (username o) (password o) in
      Println [url_String w u] ;;
      emit (NewClient (url_String w u)) ;;
      match govmomi_NewClient w u with
      | inl err => log_Fatal err
      | inr c =>
          emit (CreateContainerView [kind]) ;;
          match view_CreateContainerView w c [kind] with
          | inl err => log_Fatal err
          | inr v => defer Destroy (e <- select w o kind v ;; report e)
          end
      end
  end.

(** What [main] does once the options are echoed. *)
Definition after_echo (w : World) (o : Options) (kind : string) : M unit :=
  u <- urlCheck (hostname o) ;;
  Println [u] ;;
  session w o kind.

(** [main] from [checkRequiredOptions] on, with the flag variables holding
    [o]. *)
Definition after_parse (w : World) (o : Options) : M unit :=
  match checkRequiredOptions o with
  | Some err => emit Usage ;; log_Fatal err
  | None => ret tt
  end ;;
  match lookup (command o) commandChoices with
  | None =>
      Printf ("valid choices " ++ Fmt.strings_v (getKeys w commandChoices)
                ++ Fmt.nl) ;;
      os_Exit 2
  | Some kind =>
      (if String.eqb (command o) "VMFS" && String.eqb (datastore o) EmptyString then
         Printf ("pass storage name for " ++ command o
                   ++ " option using (-s | --datastore)" ++ Fmt.nl) ;;
         emit Usage ;;
         os_Exit 2
       else ret tt) ;;
      emit (Stdout (echo_line o)) ;;
      after_echo w o kind
  end.

(** [main], on the arguments of the process. *)
Definition main (w : World) (args : list string) : M unit :=
  match pflag_Parse w args with
  | Parsed a => after_parse w (parse a)
  | BadFlag printed => (printed, inr (Exited 2))
  | HelpRequested printed => (printed, inr (Exited 0))
  end.

(** How the operating system sees a computation: its events and how it
    ended (returning from [main] is exit code 0). *)
Definition outcome (m : M unit) : list event * termination :=
  match m with
  | (t, inl _) => (t, Exited 0)
  | (t, inr h) => (t, h)
  end.

(** The process from the moment [pflag.Parse] has returned, the flag
    variables holding [o]. *)
Definition run (w : World) (o : Options) : list event * termination :=
  outcome (after_parse w o).

(** The whole process, on its arguments. *)
Definition process (w : World) (args : list string) : list event * termination :=
  outcome (main w args).

(** What was written to standard output, in order. *)
Fixpoint stdout (t : list event) : list string :=
  match t with
  | [] => []
  | Stdout s :: t' => s :: stdout t'
  | _ :: t' => stdout t'
  end.

(** Is the event a call into the management session? *)
Definition is_network (e : event) : bool :=
  match e with
  | NewClient _ | CreateContainerView _ | Retrieve _ _ | Destroy => true
  | _ => false
  end.

(** ** Vocabulary of the statements *)

(** The pattern the specification quotes, [^.+://.+$]. *)
Definition spec_pattern : Regexp.pattern :=
  let some := Regexp.Plus Regexp.AnyCharNotNL in
  Regexp.mkPattern true
    (Regexp.Concat some
       (Regexp.Concat (Regexp.Literal ":")
          (Regexp.Concat (Regexp.Literal "/")
             (Regexp.Concat (Regexp.Literal "/") some))))
    true.

(** The required fields, in the order the specification lists them. *)
Inductive field : Type :=
| FHostname | FWarning | FCritical | FUsername | FPassword | FCommand.

Definition required_order : list field :=
  [FHostname; FWarning; FCritical; FUsername; FPassword; FCommand].

(** A field counts as missing when its variable holds the zero value. *)
Definition missing (o : Options) (f : field) : bool :=
  match f with
  | FHostname => String.eqb (hostname o) EmptyString
  | FWarning => warning o =? 0
  | FCritical => critical o =? 0
  | FUsername => String.eqb (username o) EmptyString
  | FPassword => String.eqb (password o) EmptyString
  | FCommand => String.eqb (command o) EmptyString
  end.

(** The error that names a missing field. *)
Definition error_of (f : field) : string :=
  match f with
  | FHostname => "Hostname is required"
  | FWarning => "Must supply the warning percentage"
  | FCritical => "Must supply the critical percentage"
  | FUsername => "Must supply the username"
  | FPassword => "Must supply the password"
  | FCommand => "Must supply the command"
  end.

(** The same options with other thresholds. *)
Definition with_thresholds (o : Options) (w c : Z) : Options :=
  {| hostname := hostname o; username := username o; password := password o;
     command := command o; datastore := datastore o;
     warning := w; critical := c |}.

(** The line the loops print for an object. *)
Definition host_line (h : HostSystem) : event :=
  Stdout (Fmt.println [hs_Name h]).

Definition datastore_line (d : Datastore) : event :=
  Stdout (Fmt.println [ds_Name d]).

(** The datastores the loop looks at: up to and including the first whose
    [Name] is the target. *)
Fixpoint visited (target : string) (ds : list Datastore) : list Datastore :=
  match ds with
  | [] => []
  | d :: rest =>
      d :: (if String.eqb target (ds_Name d) then [] else visited target rest)
  end.

Definition name_is (target : string) (d : Datastore) : bool :=
  String.eqb target (ds_Name d).

(** The session comes up and hands out the view [v]. *)
Definition session_up (w : World) (o : Options) (kind : string) (v : View w)
  : Prop :=
  exists u c,
    url_Parse w (urlCheck_value (hostname o)) = Some u
    /\ govmomi_NewClient w (url_UserPassword w u (username o) (password o))
       = inr c
    /\ view_CreateContainerView w c [kind] = inr v.

(** The events up to the enumeration. *)
Definition preamble (w : World) (o : Options) (kind : string) : list event :=
  let matched := Fmt.bool_v (Regexp.MatchString url_pattern (hostname o)) in
  let raw := urlCheck_value (hostname o) in
  let shown :=
    match url_Parse w raw with
    | Some u => url_String w (url_UserPassword w u (username o) (password o))
    | None => EmptyString
    end in
  [Stdout (echo_line o);
   Stdout (Fmt.println [matched]); Stdout (Fmt.println [raw]);
   Stdout (Fmt.println [matched]); Stdout (Fmt.println [shown]);
   NewClient shown; CreateContainerView [kind]].

(** The last element of a list, if any. *)
Definition final {A} (l : list A) : option A :=
  match l with
  | [] => None
  | a :: l' => Some (last l' a)
  end.

(** The value a computation yields, [d] when it ends the process. *)
Definition value_or {A} (d : A) (m : M A) : A :=
  match snd m with
  | inl a => a
  | inr _ => d
  end.

(** The metric of the last host, the zero resource for no host. *)
Definition last_host_resource (cmd : string) (hss : list HostSystem)
  : M resource :=
  match final hss with
  | Some h => if String.eqb cmd "CPU" then cpuStats h else memStats h
  | None => ret resource_zero
  end.

(** Does the host come with a hardware summary? *)
Definition has_hardware (h : HostSystem) : bool :=
  match Hardware (hs_Summary h) with
  | Some _ => true
  | None => false
  end.

(** The hosts the loop gets to: up to and including the first without a
    hardware summary. *)
Fixpoint hosts_seen (hss : list HostSystem) : list HostSystem :=
  match hss with
  | [] => []
  | h :: rest => h :: (if has_hardware h then hosts_seen rest else [])
  end.

(** The same flags with another warning threshold. *)
Definition with_arg_warning (a : Args) (x : option Z) : Args :=
  {| arg_hostname := arg_hostname a; arg_username := arg_username a;
     arg_password := arg_password a; arg_command := arg_command a;
     arg_datastore := arg_datastore a;
     arg_warning := x; arg_critical := arg_critical a |}.

(** The decimal digit of a number below ten. *)
Definition digit (k : Z) : ascii := ascii_of_nat (48 + Z.to_nat k).


Definition not_found_line (target : string) : event :=
  Stdout ("No datastore with name " ++ target ++ " found." ++ Fmt.nl).

(** [N] is [m * 2^e * 10^p] rounded to a nearest integer. *)
Definition nearest_scaled (p : nat) (m : positive) (e N : Z) : Prop :=
  (0 <= e /\ N = Zpos m * 2 ^ e * 10 ^ Z.of_nat p)
  \/ (e < 0 /\ Z.abs (2 * (N * 2 ^ (- e) - Zpos m * 10 ^ Z.of_nat p)) <= 2 ^ (- e)).

(** No flag given. *)
Definition no_args : Args :=
  {| arg_hostname := None; arg_username := None; arg_password := None;
     arg_command := None; arg_datastore := None;
     arg_warning := None; arg_critical := None |}.

(** The flags of a complete command line, thresholds left out. *)
Definition example_args : Args :=
  {| arg_hostname := Some "esx1"; arg_username := Some "root";
     arg_password := Some "secret"; arg_command := Some "CPU";
     arg_datastore := None; arg_warning := None; arg_critical := None |}.

(** A flag parser for examples.  It knows [--help] and the short string
    flags, each followed by its value, and refuses everything else. *)
Fixpoint example_pflag (args : list string) (a : Args) : parse_result :=
  match args with
  | [] => Parsed a
  | flag :: rest =>
      if String.eqb flag "--help" then HelpRequested [Usage]
      else
        match rest with
        | [] => BadFlag [Stderr ("flag needs an argument: " ++ flag); Usage]
        | v :: rest' =>
            if String.eqb flag "-h" then
              example_pflag rest'
                {| arg_hostname := Some v; arg_username := arg_username a;
                   arg_password := arg_password a; arg_command := arg_command a;
                   arg_datastore := arg_datastore a;
                   arg_warning := arg_warning a; arg_critical := arg_critical a |}
            else if String.eqb flag "-u" then
              example_pflag rest'
                {| arg_hostname := arg_hostname a; arg_username := Some v;
                   arg_password := arg_password a; arg_command := arg_command a;
                   arg_datastore := arg_datastore a;
                   arg_warning := arg_warning a; arg_critical := arg_critical a |}
            else if String.eqb flag "-p" then
              example_pflag rest'
                {| arg_hostname := arg_hostname a; arg_username := arg_username a;
                   arg_password := Some v; arg_command := arg_command a;
                   arg_datastore := arg_datastore a;
                   arg_warning := arg_warning a; arg_critical := arg_critical a |}
            else if String.eqb flag "-l" then
              example_pflag rest'
                {| arg_hostname := arg_hostname a; arg_username := arg_username a;
                   arg_password := arg_password a; arg_command := Some v;
                   arg_datastore := arg_datastore a;
                   arg_warning := arg_warning a; arg_critical := arg_critical a |}
            else if String.eqb flag "-s" then
              example_pflag rest'
                {| arg_hostname := arg_hostname a; arg_username := arg_username a;
                   arg_password := arg_password a; arg_command := arg_command a;
                   arg_datastore := Some v;
                   arg_warning := arg_warning a; arg_critical := arg_critical a |}
            else BadFlag [Stderr ("unknown flag: " ++ flag); Usage]
        end
  end.

(** A world for examples: URLs are kept as text, the session answers with
    fixed inventories, [range] visits a map in the order it was written. *)
Definition example_world (hss : list HostSystem) (dss : list Datastore) : World :=
  {| pflag_Parse := fun args => example_pflag args no_args;
     URL := string;
     Client := unit;
     View := unit;
     url_Parse := fun s => Some s;
     url_UserPassword := fun u _ _ => u;
     url_String := fun u => u;
     govmomi_NewClient := fun _ => inr tt;
     view_CreateContainerView := fun _ _ => inr tt;
     view_Retrieve_hosts := fun _ _ _ => inr hss;
     view_Retrieve_datastores := fun _ _ _ => inr dss;
     range_order := fun m => m;
     range_order_perm := fun m => Permutation_refl m |}.

Definition example_options (cmd store : string) : Options :=
  {| hostname := "esx1"; username := "root"; password := "secret";
     command := cmd; datastore := store; warning := 85; critical := 90 |}.

Definition example_host (nm : string) (mem mhz cores cpu ram : Z) : HostSystem :=
  {| hs_Name := nm;
     hs_Summary :=
       {| Hardware :=
            Some {| MemorySize := mem; CpuMhz := mhz; NumCpuCores := cores |};
          QuickStats := {| OverallCpuUsage := cpu; OverallMemoryUsage := ram |} |} |}.

Definition example_datastore (nm snm : string) (cap fr : Z) : Datastore :=
  {| ds_Name := nm;
     ds_Summary := {| dss_Name := snm; Capacity := cap; FreeSpace := fr |} |}.

(** A host that comes without a hardware summary. *)
Definition host_bare : HostSystem :=
  {| hs_Name := "esx-bare";
     hs_Summary :=
       {| Hardware := None;
          QuickStats := {| OverallCpuUsage := 0; OverallMemoryUsage := 0 |} |} |}.

(** Inventories for examples. *)
Definition host_a : HostSystem := example_host "esx-a" (2 ^ 34) 2000 4 3000 1000.
Definition host_b : HostSystem := example_host "esx-b" (2 ^ 33) 2400 8 100 7000.
Definition store_a : Datastore := example_datastore "ds1" "ds1" 1000 10.
Definition store_b : Datastore := example_datastore "ds2" "ds2" 2000 500.
Definition store_c : Datastore := example_datastore "ds2" EmptyString 4000 700.
Definition store_d : Datastore := example_datastore "ds2" "ssd-tier" 4000 700.

(** ** Vocabulary of the further properties *)

(** The calls into the management session, in the order they were made. *)
Definition network (t : list event) : list event := filter is_network t.

(** The four calls of a complete session. *)
Definition session_calls (url kind : string) : list event :=
  [NewClient url; CreateContainerView [kind];
   Retrieve [kind] ["name"; "summary"]; Destroy].

(** The URL as the process prints it and hands it to the client. *)
Definition shown_url (w : World) (o : Options) : string :=
  match url_Parse w (urlCheck_value (hostname o)) with
  | Some u => url_String w (url_UserPassword w u (username o) (password o))
  | None => EmptyString
  end.

(** How a run is related to the session: which calls it made and how it
    ended. *)
Definition session_outcome (w : World) (o : Options)
  : list event * termination :=
  (network (fst (run w o)), snd (run w o)).

(** [commandChoices[command]]: the empty string for a missing key. *)
Definition command_kind (o : Options) : string :=
  or_default EmptyString (lookup (command o) commandChoices).

(** The events of a run up to and including the call to [govmomi.NewClient]. *)
Definition until_connect (w : World) (o : Options) : list event :=
  firstn 6 (preamble w o (command_kind o)).

(** [needle] occurs in [hay]. *)
Definition contains (needle hay : string) : Prop :=
  exists a b, hay = a ++ needle ++ b.

Definition with_datastore (o : Options) (s : string) : Options :=
  {| hostname := hostname o; username := username o; password := password o;
     command := command o; datastore := s;
     warning := warning o; critical := critical o |}.

(** A string flag was given, and not as the empty string. *)
Definition given (x : option string) : Prop :=
  exists s, x = Some s /\ s <> EmptyString.

(** [x] is a zero, a finite number or an infinity of sign [s]. *)
Definition has_sign (s : bool) (x : F64.float64) : Prop :=
  match x with
  | S754_zero s' | S754_infinity s' | S754_finite s' _ _ => s' = s
  | S754_nan => False
  end.

(** A world for examples in which chosen steps fail: URLs are kept as
    text, each step answers by its flag. *)
Definition failing_world (parses connects views retrieves : bool) : World :=
  {| pflag_Parse := fun args => example_pflag args no_args;
     URL := string;
     Client := unit;
     View := unit;
     url_Parse := fun s => if parses then Some s else None;
     url_UserPassword := fun u _ _ => u;
     url_String := fun u => u;
     govmomi_NewClient :=
       fun _ => if connects then inr tt else inl "connection refused";
     view_CreateContainerView :=
       fun _ _ => if views then inr tt else inl "no permission";
     view_Retrieve_hosts :=
       fun _ _ _ => if retrieves then inr [host_a] else inl "session expired";
     view_Retrieve_datastores :=
       fun _ _ _ => if retrieves then inr [store_a] else inl "session expired";
     range_order := fun m => m;
     range_order_perm := fun m => Permutation_refl m |}.

Definition host_idle : HostSystem := example_host "esx-idle" (2 ^ 34) 2000 4 0 0.
Definition host_busy : HostSystem := example_host "esx-busy" (2 ^ 34) 2000 4 8000 1000.
Definition host_over : HostSystem := example_host "esx-over" (2 ^ 34) 2000 4 9000 1000.
Definition host_off : HostSystem := example_host "esx-off" (2 ^ 34) 0 4 0 0.
Definition store_full : Datastore := example_datastore "full" "full" 4000 0.

(** * Properties *)

(** ** float64: when nothing is rounded away *)

Module F64Facts.
Import F64.

Lemma digits_bounds p : 2 ^ (digits p - 1) <= Zpos p < 2 ^ digits p.
Proof.
  unfold digits.
  induction p as [p IH | p IH | ]; simpl digits2_pos.
  - rewrite Pos2Z.inj_succ.
    replace (Z.succ (Zpos (digits2_pos p)) - 1) with (Z.succ (Zpos (digits2_pos p) - 1)) by lia.
    rewrite !Z.pow_succ_r by lia. lia.
  - rewrite Pos2Z.inj_succ.
    replace (Z.succ (Zpos (digits2_pos p)) - 1) with (Z.succ (Zpos (digits2_pos p) - 1)) by lia.
    rewrite !Z.pow_succ_r by lia. lia.
  - simpl. lia.
Qed.

Lemma digits_pos p : 1 <= digits p.
Proof. unfold digits. lia. Qed.

Lemma digits_unique p d : 2 ^ (d - 1) <= Zpos p < 2 ^ d -> digits p = d.
Proof.
  intros [Hlo Hhi].
  pose proof (digits_bounds p) as [Blo Bhi].
  pose proof (digits_pos p) as Hp.
  assert (Hd : 0 < d).
  { destruct (Z_lt_le_dec 0 d) as [|Hn]; [assumption|].
    exfalso. destruct (Z.eq_dec d 0) as [->|Hne].
    - simpl in Hhi. lia.
    - rewrite (Z.pow_neg_r 2 d) in Hhi by lia. lia. }
  destruct (Z.lt_trichotomy (digits p) d) as [Hlt | [Heq | Hgt]]; [|assumption|].
  - exfalso.
    assert (2 ^ digits p <= 2 ^ (d - 1)) by (apply Z.pow_le_mono_r; lia).
    lia.
  - exfalso.
    assert (2 ^ d <= 2 ^ (digits p - 1)) by (apply Z.pow_le_mono_r; lia).
    lia.
Qed.

Lemma digits_shift p q n :
  0 <= n -> Zpos p = Zpos q * 2 ^ n -> digits p = digits q + n.
Proof.
  intros Hn Hp. apply digits_unique.
  pose proof (digits_bounds q) as [Blo Bhi].
  pose proof (digits_pos q).
  replace (digits q + n - 1) with (digits q - 1 + n) by lia.
  rewrite !Z.pow_add_r by lia. rewrite Hp.
  assert (0 < 2 ^ n) by (apply Z.pow_pos_nonneg; lia).
  split; [apply Z.mul_le_mono_nonneg_r | apply Z.mul_lt_mono_pos_r]; lia.
Qed.

Lemma digits_mul_lower p q : digits p + digits q - 1 <= digits (p * q).
Proof.
  pose proof (digits_bounds p) as [Plo _].
  pose proof (digits_bounds q) as [Qlo _].
  pose proof (digits_bounds (p * q)) as [_ Rhi].
  pose proof (digits_pos p). pose proof (digits_pos q). pose proof (digits_pos (p*q)).
  destruct (Z_lt_le_dec (digits (p * q)) (digits p + digits q - 1)) as [Hlt|]; [|lia].
  exfalso.
  assert (2 ^ digits (p * q) <= 2 ^ (digits p - 1 + (digits q - 1)))
    by (apply Z.pow_le_mono_r; lia).
  rewrite Z.pow_add_r in H2 by lia.
  rewrite Pos2Z.inj_mul in Rhi.
  assert (2 ^ (digits p - 1) * 2 ^ (digits q - 1) <= Zpos p * Zpos q).
  { apply Z.mul_le_mono_nonneg; try lia; apply Z.pow_nonneg; lia. }
  lia.
Qed.

Lemma shr_1_double z : shr_1 (exact_rec (2 * z)) = exact_rec z.
Proof. destruct z; reflexivity. Qed.

Lemma iter_shr_exact n z :
  iter_pos shr_1 n (exact_rec (z * 2 ^ Zpos n)) = exact_rec z.
Proof.
  revert z. induction n as [n IH | n IH | ]; intros z; cbn [iter_pos].
  - replace (z * 2 ^ Zpos n~1) with (2 * ((z * 2 ^ Zpos n) * 2 ^ Zpos n)).
    + rewrite shr_1_double, IH, IH. reflexivity.
    + rewrite (Pos2Z.inj_xI n), Z.pow_add_r, Z.pow_mul_r by lia.
      change (2 ^ 2) with 4. change (2 ^ 1) with 2.
      replace (4 ^ Zpos n) with (2 ^ Zpos n * 2 ^ Zpos n).
      * ring.
      * rewrite <- Z.pow_mul_l. reflexivity.
  - replace (z * 2 ^ Zpos n~0) with ((z * 2 ^ Zpos n) * 2 ^ Zpos n).
    + rewrite IH, IH. reflexivity.
    + rewrite (Pos2Z.inj_xO n), Z.pow_mul_r by lia.
      change (2 ^ 2) with 4.
      replace (4 ^ Zpos n) with (2 ^ Zpos n * 2 ^ Zpos n).
      * ring.
      * rewrite <- Z.pow_mul_l. reflexivity.
  - change (2 ^ 1) with 2. rewrite Z.mul_comm. apply shr_1_double.
Qed.

Lemma fexp_normal e :
  3 - F64.emax - F64.prec <= e - F64.prec -> fexp F64.prec F64.emax e = e - F64.prec.
Proof. unfold fexp, emin. lia. Qed.

Lemma binary_round_aux_exact s (m q : positive) e n :
  0 <= n -> Zpos m = Zpos q * 2 ^ n ->
  fexp F64.prec F64.emax (digits m + e) = e + n ->
  e + n <= F64.emax - F64.prec ->
  binary_round_aux F64.prec F64.emax s (Zpos m) e loc_Exact = S754_finite s q (e + n).
Proof.
  intros Hn Hm Hf Hr.
  unfold binary_round_aux, shr_fexp.
  change (Zdigits2 (Zpos m)) with (digits m).
  rewrite Hf. replace (e + n - e) with n by lia.
  assert (Hq : fexp F64.prec F64.emax (Zdigits2 (Zpos q) + (e + n)) - (e + n) = 0).
  { change (Zdigits2 (Zpos q)) with (digits q).
    rewrite (digits_shift m q n Hn Hm) in Hf.
    replace (digits q + (e + n)) with (digits q + n + e) by lia. lia. }
  destruct n as [ | n | n ]; [ | | lia ].
  - simpl shr. cbn [shr_record_of_loc shr_m loc_of_shr_record shr_r shr_s round_nearest_even].
    assert (m = q) by lia. subst q.
    rewrite Z.add_0_r in Hq. rewrite Hq. simpl shr.
    cbn [shr_record_of_loc shr_m]. rewrite Z.add_0_r.
    rewrite Z.add_0_r in Hr.
    apply Z.leb_le in Hr. rewrite Hr. reflexivity.
  - cbn [shr shr_record_of_loc]. rewrite Hm.
    change {| shr_m := Zpos q * 2 ^ Zpos n; shr_r := false; shr_s := false |}
      with (exact_rec (Zpos q * 2 ^ Zpos n)).
    rewrite iter_shr_exact.
    cbn [exact_rec shr_m loc_of_shr_record shr_r shr_s round_nearest_even].
    rewrite Hq. cbn [shr shr_record_of_loc shr_m].
    apply Z.leb_le in Hr. rewrite Hr. reflexivity.
Qed.

Lemma iter_xO_Z m d : Zpos (Pos.iter xO m d) = Zpos m * 2 ^ Zpos d.
Proof.
  induction d as [ | d IH ] using Pos.peano_ind.
  - simpl. lia.
  - rewrite Pos.iter_succ, Pos2Z.inj_xO, IH, Pos2Z.inj_succ, Z.pow_succ_r by lia.
    ring.
Qed.

Lemma pow2_pos n : 0 <= n -> 0 < 2 ^ n.
Proof. intros. apply Z.pow_pos_nonneg; lia. Qed.

Lemma canon_mantissa k a :
  0 <= a -> Zpos (Z.to_pos (Zpos k * 2 ^ a)) = Zpos k * 2 ^ a.
Proof.
  intros Ha. apply Z2Pos.id. pose proof (pow2_pos a Ha). lia.
Qed.

Lemma binary_round_canon s m e k t :
  0 <= t -> Zpos m = Zpos k * 2 ^ t -> canon_ok k (e + t) ->
  binary_round F64.prec F64.emax s m e = canon s k (e + t).
Proof.
  intros Ht Hm [Hd [Hlo Hhi]].
  pose proof (digits_shift m k t Ht Hm) as Hdm.
  pose proof (digits_pos k) as Hk1.
  unfold binary_round, canon.
  change (Zpos (digits2_pos m)) with (digits m).
  assert (He' : fexp F64.prec F64.emax (digits m + e) = e + (digits k + t - F64.prec)).
  { rewrite fexp_normal; lia. }
  rewrite He'. unfold shl_align.
  replace (e + (digits k + t - F64.prec) - e) with (digits k + t - F64.prec) by lia.
  destruct (digits k + t - F64.prec) as [ | n | d ] eqn:En.
  - rewrite (binary_round_aux_exact s m (Z.to_pos (Zpos k * 2 ^ (F64.prec - digits k))) e 0).
    + f_equal. lia.
    + lia.
    + rewrite canon_mantissa by lia. rewrite Hm.
      replace (F64.prec - digits k) with t by lia. ring.
    + rewrite He'. reflexivity.
    + lia.
  - rewrite (binary_round_aux_exact s m (Z.to_pos (Zpos k * 2 ^ (F64.prec - digits k))) e (Zpos n)).
    + f_equal. lia.
    + lia.
    + rewrite canon_mantissa by lia. rewrite Hm.
      rewrite <- Z.mul_assoc, <- Z.pow_add_r by lia.
      f_equal. f_equal. lia.
    + rewrite He'. reflexivity.
    + lia.
  - rewrite (binary_round_aux_exact s (Pos.iter xO m d) (Pos.iter xO m d) _ 0).
    + f_equal; [ | lia ].
      apply Pos2Z.inj. rewrite canon_mantissa by lia.
      rewrite iter_xO_Z, Hm, <- Z.mul_assoc, <- Z.pow_add_r by lia.
      f_equal. f_equal. lia.
    + lia.
    + lia.
    + rewrite (digits_shift (Pos.iter xO m d) m (Zpos d)); [ | lia | apply iter_xO_Z ].
      rewrite fexp_normal; lia.
    + lia.
Qed.

Lemma digits_canon k a :
  0 <= a -> digits (Z.to_pos (Zpos k * 2 ^ a)) = digits k + a.
Proof.
  intros Ha. apply digits_shift; [ assumption | apply canon_mantissa; assumption ].
Qed.

Lemma mul_canon s1 k1 j1 s2 k2 j2 :
  canon_ok k1 j1 -> canon_ok k2 j2 -> canon_ok (k1 * k2) (j1 + j2) ->
  F64.mul (canon s1 k1 j1) (canon s2 k2 j2) = canon (xorb s1 s2) (k1 * k2) (j1 + j2).
Proof.
  intros [Hd1 [Hlo1 Hhi1]] [Hd2 [Hlo2 Hhi2]] [Hd [Hlo Hhi]].
  pose proof (digits_mul_lower k1 k2) as Hlow.
  pose proof (digits_pos k1). pose proof (digits_pos k2).
  unfold F64.mul, canon. cbn [SFmul].
  set (a1 := F64.prec - digits k1) in *.
  set (a2 := F64.prec - digits k2) in *.
  set (a := F64.prec - digits (k1 * k2)) in *.
  assert (Ha1 : 0 <= a1) by (unfold a1; lia).
  assert (Ha2 : 0 <= a2) by (unfold a2; lia).
  assert (Ha : 0 <= a) by (unfold a; lia).
  assert (Hn : 0 <= a1 + a2 - a) by (unfold a1, a2, a, F64.prec in *; lia).
  assert (Hm : Zpos (Z.to_pos (Zpos k1 * 2 ^ a1) * Z.to_pos (Zpos k2 * 2 ^ a2))
               = Zpos (Z.to_pos (Zpos (k1 * k2) * 2 ^ a)) * 2 ^ (a1 + a2 - a)).
  { rewrite Pos2Z.inj_mul, !canon_mantissa by assumption.
    rewrite Pos2Z.inj_mul.
    assert (E : 2 ^ a1 * 2 ^ a2 = 2 ^ a * 2 ^ (a1 + a2 - a)).
    { rewrite <- !Z.pow_add_r by assumption. f_equal. lia. }
    transitivity (Zpos k1 * Zpos k2 * (2 ^ a1 * 2 ^ a2)); [ ring | rewrite E; ring ]. }
  rewrite (binary_round_aux_exact _ _ (Z.to_pos (Zpos (k1 * k2) * 2 ^ a)) _ (a1 + a2 - a)).
  - f_equal. lia.
  - assumption.
  - exact Hm.
  - rewrite (digits_shift _ _ _ Hn Hm), digits_canon by assumption.
    rewrite fexp_normal; unfold a1, a2, a in *; lia.
  - unfold a1, a2, a in *; lia.
Qed.

Lemma normalize_canon z e k t :
  0 <= t -> Z.abs z = Zpos k * 2 ^ t -> canon_ok k (e + t) ->
  binary_normalize F64.prec F64.emax z e false = canon (z <? 0) k (e + t).
Proof.
  intros Ht Hz Hok.
  destruct z as [ | m | m ]; cbn [binary_normalize].
  - change (Z.abs 0) with 0 in Hz. pose proof (pow2_pos t Ht).
    assert (0 < Zpos k * 2 ^ t) by (apply Z.mul_pos_pos; lia). lia.
  - apply binary_round_canon; assumption.
  - apply binary_round_canon; assumption.
Qed.

Lemma canon_rescale s k k' j t :
  0 <= t -> Zpos k' = Zpos k * 2 ^ t -> digits k' <= F64.prec ->
  canon s k' (j - t) = canon s k j.
Proof.
  intros Ht Hk Hd.
  pose proof (digits_shift k' k t Ht Hk) as Hdk.
  pose proof (digits_pos k).
  unfold canon. f_equal; [ | lia ].
  rewrite Hk, Hdk, <- Z.mul_assoc, <- Z.pow_add_r by lia.
  do 3 f_equal. lia.
Qed.

Lemma shl_align_fst m e ez :
  ez <= e -> Zpos (fst (shl_align m e ez)) = Zpos m * 2 ^ (e - ez).
Proof.
  intros He. unfold shl_align.
  destruct (ez - e) as [ | d | d ] eqn:E.
  - replace (e - ez) with 0 by lia. simpl. lia.
  - lia.
  - cbn [fst]. rewrite iter_xO_Z. f_equal. f_equal. lia.
Qed.

Lemma digits_lt k : Zpos k < 2 ^ F64.prec -> digits k <= F64.prec.
Proof.
  intros Hk. pose proof (digits_bounds k) as [Hlo _].
  destruct (Z_lt_le_dec F64.prec (digits k)) as [Hlt|]; [ exfalso | assumption ].
  assert (2 ^ F64.prec <= 2 ^ (digits k - 1)) by (apply Z.pow_le_mono_r; unfold F64.prec in *; lia).
  lia.
Qed.

(** Side condition for small scales: any integer below 2^53 fits. *)
Lemma canon_ok_small n j :
  n <> 0 -> Z.abs n < 2 ^ F64.prec -> -1000 <= j <= 900 ->
  canon_ok (Z.to_pos (Z.abs n)) j.
Proof.
  intros Hn Hlt Hj.
  assert (Hid : Zpos (Z.to_pos (Z.abs n)) = Z.abs n) by (apply Z2Pos.id; lia).
  pose proof (digits_pos (Z.to_pos (Z.abs n))).
  assert (digits (Z.to_pos (Z.abs n)) <= F64.prec) by (apply digits_lt; lia).
  unfold canon_ok, F64.prec, F64.emax in *. lia.
Qed.

Lemma repr_of_Z n :
  Z.abs n < 2 ^ F64.prec -> repr (F64.of_Z n) n 0.
Proof.
  intros Hn. unfold repr.
  destruct (Z.eqb_spec n 0) as [-> | Hne]; [ reflexivity | ].
  assert (Hok : canon_ok (Z.to_pos (Z.abs n)) 0) by (apply canon_ok_small; lia).
  split; [ exact Hok | ].
  unfold F64.of_Z.
  rewrite (normalize_canon n 0 (Z.to_pos (Z.abs n)) 0); [ reflexivity | lia | | exact Hok ].
  rewrite Z2Pos.id by lia. simpl. lia.
Qed.

Lemma cond_Zopp_abs n : n <> 0 -> cond_Zopp (n <? 0) (Z.abs n) = n.
Proof.
  intros Hn. destruct (Z.ltb_spec n 0); cbn [cond_Zopp]; lia.
Qed.

Lemma repr_mul x y a b i j :
  repr x a i -> repr y b j ->
  Z.abs (a * b) < 2 ^ F64.prec -> -1000 <= i + j <= 900 ->
  repr (F64.mul x y) (a * b) (i + j).
Proof.
  unfold repr. intros Hx Hy Hab Hij.
  destruct (Z.eqb_spec a 0) as [-> | Ha].
  - rewrite Z.mul_0_l. cbn [Z.eqb].
    destruct x; try discriminate.
    destruct (Z.eqb_spec b 0) as [-> | Hb].
    + destruct y; try discriminate. reflexivity.
    + destruct Hy as [_ ->]. reflexivity.
  - destruct Hx as [Hxok ->].
    destruct (Z.eqb_spec b 0) as [-> | Hb].
    + rewrite Z.mul_0_r. cbn [Z.eqb]. destruct y; try discriminate. reflexivity.
    + destruct Hy as [Hyok ->].
      destruct (Z.eqb_spec (a * b) 0) as [E | Hab0]; [ lia | ].
      assert (Hk : Z.to_pos (Z.abs (a * b)) = (Z.to_pos (Z.abs a) * Z.to_pos (Z.abs b))%positive).
      { rewrite Z.abs_mul. apply Z2Pos.inj_mul; lia. }
      assert (Hok : canon_ok (Z.to_pos (Z.abs (a * b))) (i + j))
        by (apply canon_ok_small; lia).
      split; [ exact Hok | ].
      rewrite Hk in *. rewrite mul_canon by assumption.
      f_equal.
      destruct (Z.ltb_spec a 0), (Z.ltb_spec b 0), (Z.ltb_spec (a * b) 0);
        try reflexivity; nia.
Qed.

Lemma cond_Zopp_mul s u v : cond_Zopp s (u * v) = cond_Zopp s u * v.
Proof. destruct s; cbn [cond_Zopp]; ring. Qed.

Lemma repr_finite x n j : repr x n j -> F64.is_finite x = true.
Proof.
  unfold repr. destruct (n =? 0).
  - destruct x; intros H; try discriminate; reflexivity.
  - intros [_ ->]. reflexivity.
Qed.

Lemma repr_rescale x n j t :
  repr x n j -> 0 <= t -> Z.abs (n * 2 ^ t) < 2 ^ F64.prec ->
  repr x (n * 2 ^ t) (j - t).
Proof.
  unfold repr. intros Hx Ht Hfit.
  pose proof (pow2_pos t Ht) as Hp.
  destruct (Z.eqb_spec n 0) as [-> | Hn].
  - rewrite Z.mul_0_l. exact Hx.
  - destruct Hx as [[Hd Hr] ->].
    destruct (Z.eqb_spec (n * 2 ^ t) 0) as [E | Hne]; [ nia | ].
    assert (Hk : Zpos (Z.to_pos (Z.abs (n * 2 ^ t)))
                 = Zpos (Z.to_pos (Z.abs n)) * 2 ^ t).
    { rewrite !Z2Pos.id by lia. rewrite Z.abs_mul, (Z.abs_eq (2 ^ t)) by lia.
      reflexivity. }
    assert (Hd' : digits (Z.to_pos (Z.abs (n * 2 ^ t))) <= F64.prec).
    { apply digits_lt. rewrite Z2Pos.id by lia. assumption. }
    pose proof (digits_shift _ _ _ Ht Hk) as Hds.
    split.
    + unfold canon_ok. split; [ exact Hd' | lia ].
    + replace (n * 2 ^ t <? 0) with (n <? 0).
      * symmetry. apply canon_rescale; assumption.
      * destruct (Z.ltb_spec n 0), (Z.ltb_spec (n * 2 ^ t) 0); try reflexivity; nia.
Qed.

Lemma sub_finite s1 m1 e1 s2 m2 e2 :
  F64.sub (S754_finite s1 m1 e1) (S754_finite s2 m2 e2) =
  binary_normalize F64.prec F64.emax
    (cond_Zopp s1 (Zpos m1 * 2 ^ (e1 - Z.min e1 e2))
     - cond_Zopp s2 (Zpos m2 * 2 ^ (e2 - Z.min e1 e2)))
    (Z.min e1 e2) false.
Proof.
  unfold F64.sub. cbn [SFsub].
  rewrite !shl_align_fst by lia. reflexivity.
Qed.

Lemma canon_aligned n j ez :
  n <> 0 -> digits (Z.to_pos (Z.abs n)) <= F64.prec ->
  ez <= j - (F64.prec - digits (Z.to_pos (Z.abs n))) ->
  cond_Zopp (n <? 0)
    (Zpos (Z.to_pos (Zpos (Z.to_pos (Z.abs n))
                     * 2 ^ (F64.prec - digits (Z.to_pos (Z.abs n)))))
     * 2 ^ (j - (F64.prec - digits (Z.to_pos (Z.abs n))) - ez))
  = n * 2 ^ (j - ez).
Proof.
  intros Hn Hd He.
  set (a := F64.prec - digits (Z.to_pos (Z.abs n))) in *.
  assert (Ha : 0 <= a) by (unfold a; lia).
  rewrite canon_mantissa by assumption.
  rewrite <- Z.mul_assoc, <- Z.pow_add_r by lia.
  replace (a + (j - a - ez)) with (j - ez) by lia.
  rewrite cond_Zopp_mul, Z2Pos.id, cond_Zopp_abs by lia. reflexivity.
Qed.

Lemma repr_sub x y a b j :
  repr x a j -> repr y b j ->
  Z.abs (a - b) < 2 ^ F64.prec -> -1000 <= j <= 900 ->
  repr (F64.sub x y) (a - b) j.
Proof.
  unfold repr. intros Hx Hy Hfit Hj.
  destruct (Z.eqb_spec a 0) as [-> | Ha]; destruct (Z.eqb_spec b 0) as [-> | Hb].
  - destruct x as [sx | | | ], y as [sy | | | ]; try discriminate.
    destruct sx, sy; reflexivity.
  - destruct x; try discriminate. destruct Hy as [Hok ->].
    destruct (Z.eqb_spec (0 - b) 0) as [E | _]; [ lia | ].
    replace (Z.abs (0 - b)) with (Z.abs b) by lia.
    split; [ exact Hok | ].
    unfold canon, F64.sub. cbn [SFsub]. f_equal.
    destruct (Z.ltb_spec b 0), (Z.ltb_spec (0 - b) 0); try reflexivity; lia.
  - destruct y; try discriminate. destruct Hx as [Hok ->].
    rewrite Z.sub_0_r.
    destruct (Z.eqb_spec a 0) as [E | _]; [ lia | ].
    split; [ exact Hok | reflexivity ].
  - destruct Hx as [[Hda Hra] ->]. destruct Hy as [[Hdb Hrb] ->].
    set (ez := Z.min (j - (F64.prec - digits (Z.to_pos (Z.abs a))))
                     (j - (F64.prec - digits (Z.to_pos (Z.abs b))))).
    assert (Hsub : F64.sub (canon (a <? 0) (Z.to_pos (Z.abs a)) j)
                           (canon (b <? 0) (Z.to_pos (Z.abs b)) j)
                   = binary_normalize F64.prec F64.emax
                       ((a - b) * 2 ^ (j - ez)) ez false).
    { unfold canon. rewrite sub_finite. fold ez.
      rewrite !canon_aligned by (try assumption; unfold ez; lia).
      rewrite <- Z.mul_sub_distr_r. reflexivity. }
    rewrite Hsub. clear Hsub.
    assert (Ht : 0 <= j - ez) by (unfold ez; lia).
    pose proof (pow2_pos _ Ht) as Hp.
    destruct (Z.eqb_spec (a - b) 0) as [E | Hne].
    + rewrite E. reflexivity.
    + assert (Hok : canon_ok (Z.to_pos (Z.abs (a - b))) j)
        by (apply canon_ok_small; assumption).
      split; [ exact Hok | ].
      rewrite (normalize_canon _ ez (Z.to_pos (Z.abs (a - b))) (j - ez)).
      * replace (ez + (j - ez)) with j by lia. f_equal.
        destruct (Z.ltb_spec ((a - b) * 2 ^ (j - ez)) 0), (Z.ltb_spec (a - b) 0);
          try reflexivity; nia.
      * assumption.
      * rewrite Z2Pos.id by lia.
        rewrite Z.abs_mul, (Z.abs_eq (2 ^ (j - ez))) by lia. reflexivity.
      * replace (ez + (j - ez)) with j by lia. exact Hok.
Qed.

Lemma of_Z_1024 : F64.of_Z 1024 = S754_finite false 4503599627370496 (-42).
Proof. reflexivity. Qed.

Lemma div_core_1024 m e :
  digits m = F64.prec -> 3 - F64.emax - F64.prec <= e - 11 ->
  SFdiv_core_binary F64.prec F64.emax (Zpos m) e (Zpos 4503599627370496) (-42)
  = (Zpos m~0, e - 11, loc_Exact).
Proof.
  intros Hd He. unfold SFdiv_core_binary.
  change (Zdigits2 (Zpos m)) with (digits m).
  change (Zdigits2 (Zpos 4503599627370496)) with 53.
  rewrite Hd.
  replace (F64.prec + e - (53 + -42)) with (e + 42) by (unfold F64.prec; lia).
  rewrite fexp_normal by (unfold F64.prec, F64.emax in *; lia).
  replace (Z.min (e + 42 - F64.prec) (e - -42)) with (e - 11)
    by (unfold F64.prec; lia).
  replace (e - -42 - (e - 11)) with 53 by lia.
  rewrite Z.shiftl_mul_pow2 by lia.
  change (2 ^ 53) with (2 * 4503599627370496).
  replace (Zpos m * (2 * 4503599627370496)) with (Zpos m~0 * 4503599627370496) by lia.
  destruct (Z.div_eucl (Zpos m~0 * 4503599627370496) 4503599627370496)
    as [q r] eqn:E.
  assert (Hq : q = Zpos m~0).
  { change q with (fst (q, r)). rewrite <- E.
    change (fst (Z.div_eucl ?a ?b)) with (a / b).
    apply Z.div_mul. lia. }
  assert (Hr : r = 0).
  { change r with (snd (q, r)). rewrite <- E.
    change (snd (Z.div_eucl ?a ?b)) with (a mod b).
    apply Z.mod_mul. lia. }
  subst q r. reflexivity.
Qed.

Lemma repr_div_1024 x n j :
  repr x n j -> -900 <= j <= 900 ->
  repr (F64.div x (F64.of_Z 1024)) n (j - 10).
Proof.
  unfold repr. intros Hx Hj. rewrite of_Z_1024.
  destruct (Z.eqb_spec n 0) as [-> | Hn].
  - destruct x; try discriminate. reflexivity.
  - destruct Hx as [[Hd Hr] ->].
    set (k := Z.to_pos (Z.abs n)) in *.
    pose proof (digits_pos k) as Hk1.
    split.
    + unfold canon_ok in *. split; [ exact Hd | unfold F64.prec, F64.emax in *; lia ].
    + unfold canon, F64.div. cbn [SFdiv].
      set (a := F64.prec - digits k) in *.
      assert (Ha : 0 <= a) by (unfold a; lia).
      rewrite div_core_1024.
      * rewrite xorb_false_r.
        rewrite (binary_round_aux_exact _ _ (Z.to_pos (Zpos k * 2 ^ a)) _ 1).
        -- f_equal. lia.
        -- lia.
        -- rewrite Pos2Z.inj_xO. change (2 ^ 1) with 2. ring.
        -- rewrite (digits_shift _ (Z.to_pos (Zpos k * 2 ^ a)) 1);
             [ | lia | rewrite Pos2Z.inj_xO; change (2 ^ 1) with 2; ring ].
           rewrite digits_canon by assumption.
           rewrite fexp_normal; unfold a, F64.prec, F64.emax in *; lia.
        -- unfold a, F64.prec, F64.emax in *; lia.
      * rewrite digits_canon by assumption. unfold a. lia.
      * unfold a, F64.prec, F64.emax in *; lia.
Qed.

Lemma Qpow2_nonneg a : 0 <= a -> inject_Z (2 ^ a) == (2 ^ a)%Q.
Proof. intros Ha. apply Zpower_Qpower. assumption. Qed.

Lemma repr_to_Q x n j : repr x n j -> F64.to_Q x == inject_Z n * (2 ^ j)%Q.
Proof.
  unfold repr. destruct (Z.eqb_spec n 0) as [-> | Hn].
  - destruct x; intros H; try discriminate. cbn [F64.to_Q]. ring.
  - intros [[Hd Hr] ->]. unfold canon. cbn [F64.to_Q].
    set (a := F64.prec - digits (Z.to_pos (Z.abs n))) in *.
    assert (Ha : 0 <= a) by (unfold a; lia).
    rewrite canon_mantissa by assumption.
    rewrite cond_Zopp_mul, Z2Pos.id, cond_Zopp_abs by lia.
    rewrite inject_Z_mult, Qpow2_nonneg by assumption.
    unfold Z.sub. rewrite Qpower_plus by discriminate.
    rewrite Qpower_opp.
    field. apply Qpower_not_0. discriminate.
Qed.

Lemma to_Q_canon s k j :
  digits k <= prec ->
  to_Q (canon s k j) == inject_Z (cond_Zopp s (Zpos k)) * (2 ^ j)%Q.
Proof.
  intros Hd. unfold canon. cbn [to_Q].
  set (a := prec - digits k) in *.
  assert (Ha : 0 <= a) by (unfold a; lia).
  rewrite canon_mantissa by assumption.
  rewrite cond_Zopp_mul, inject_Z_mult, Qpow2_nonneg by assumption.
  unfold Z.sub. rewrite Qpower_plus by discriminate.
  rewrite Qpower_opp.
  field. apply Qpower_not_0. discriminate.
Qed.

Lemma repr_exact x n j : repr x n j -> exact x (inject_Z n * (2 ^ j)%Q).
Proof.
  intros H. split; [ exact (repr_finite x n j H) | exact (repr_to_Q x n j H) ].
Qed.

Lemma sub_canon_normalize a b j :
  a <> 0 -> b <> 0 ->
  digits (Z.to_pos (Z.abs a)) <= prec -> digits (Z.to_pos (Z.abs b)) <= prec ->
  let ez := Z.min (j - (prec - digits (Z.to_pos (Z.abs a))))
                  (j - (prec - digits (Z.to_pos (Z.abs b)))) in
  sub (canon (a <? 0) (Z.to_pos (Z.abs a)) j) (canon (b <? 0) (Z.to_pos (Z.abs b)) j)
  = binary_normalize prec emax ((a - b) * 2 ^ (j - ez)) ez false.
Proof.
  intros Ha Hb Hda Hdb ez.
  unfold canon. rewrite sub_finite. fold ez.
  rewrite !canon_aligned by (try assumption; unfold ez; lia).
  rewrite <- Z.mul_sub_distr_r. reflexivity.
Qed.

(** The one value of 54 digits that is still a float: a difference of
    magnitude exactly 2^53. *)
Lemma sub_pow2 x y a b j :
  repr x a j -> repr y b j -> a <> 0 -> b <> 0 ->
  Z.abs (a - b) = 2 ^ prec -> -1000 <= j <= 900 ->
  exact (sub x y) (inject_Z (a - b) * (2 ^ j)%Q).
Proof.
  unfold repr. intros Hx Hy Ha Hb Hab Hj.
  destruct (Z.eqb_spec a 0) as [ | _ ]; [ contradiction | ].
  destruct (Z.eqb_spec b 0) as [ | _ ]; [ contradiction | ].
  destruct Hx as [[Hda Hra] ->]. destruct Hy as [[Hdb Hrb] ->].
  rewrite sub_canon_normalize by assumption.
  set (ez := Z.min _ _).
  assert (Ht : 0 <= j - ez) by (unfold ez; lia).
  pose proof (pow2_pos _ Ht) as Hp.
  assert (Hok : canon_ok 1 (ez + (prec + (j - ez)))).
  { unfold canon_ok, digits, prec, emax. simpl digits2_pos. lia. }
  rewrite (normalize_canon _ ez 1 (prec + (j - ez))).
  - split; [ reflexivity | ].
    rewrite to_Q_canon by (unfold digits, prec; simpl; lia).
    replace (ez + (prec + (j - ez))) with (prec + j) by lia.
    rewrite Qpower_plus by discriminate.
    assert (Hs : ((a - b) * 2 ^ (j - ez) <? 0) = (a - b <? 0)).
    { destruct (Z.ltb_spec ((a - b) * 2 ^ (j - ez)) 0), (Z.ltb_spec (a - b) 0);
        try reflexivity; nia. }
    rewrite Hs.
    assert (Hv : a - b = cond_Zopp (a - b <? 0) 1 * 2 ^ prec).
    { destruct (Z.ltb_spec (a - b) 0); cbn [cond_Zopp]; lia. }
    rewrite Hv at 2. rewrite inject_Z_mult, Qpow2_nonneg by (unfold prec; lia).
    ring.
  - unfold prec in *. lia.
  - rewrite Z.abs_mul, (Z.abs_eq (2 ^ (j - ez))), Hab by lia.
    rewrite Z.pow_add_r by (unfold prec; lia). lia.
  - exact Hok.
Qed.

Lemma exact_of_Z n : Z.abs n <= 2 ^ prec -> exact (of_Z n) (inject_Z n).
Proof.
  intros Hn.
  destruct (Z_lt_le_dec (Z.abs n) (2 ^ prec)) as [Hlt | Hge].
  - pose proof (repr_exact _ _ _ (repr_of_Z n Hlt)) as [Hf Hq].
    split; [ exact Hf | ]. rewrite Hq. change ((2 ^ 0)%Q) with 1%Q. ring.
  - assert (Hb : n = 2 ^ prec \/ n = - 2 ^ prec) by lia.
    destruct Hb as [-> | ->]; split; reflexivity.
Qed.

End F64Facts.


(** ** Regular expressions: the matcher decides the language *)

Module RegexpFacts.
Import Regexp.

Lemma append_eq_nil (a b : string) : a ++ b = EmptyString -> a = EmptyString /\ b = EmptyString.
Proof. destruct a; simpl; intros H; [ auto | discriminate ]. Qed.

Lemma concat_inv r1 r2 s :
  lang (Concat r1 r2) s -> exists s1 s2, s = s1 ++ s2 /\ lang r1 s1 /\ lang r2 s2.
Proof. intros H. inversion H; subst. eauto. Qed.

Lemma plus_inv r s :
  lang (Plus r) s -> exists s1 s2, s = s1 ++ s2 /\ lang r s1 /\ lang (Star r) s2.
Proof. intros H. inversion H; subst. eauto. Qed.

Lemma alt_inv r1 r2 s : lang (Alternate r1 r2) s -> lang r1 s \/ lang r2 s.
Proof. intros H. inversion H; subst; auto. Qed.

Lemma nullable_lang r : nullable r = true <-> lang r EmptyString.
Proof.
  induction r as [ | | c | | | r1 IH1 r2 IH2 | r1 IH1 r2 IH2 | r IH | r IH ];
    cbn [nullable]; split; intros H;
    try discriminate; try (inversion H; fail).
  - constructor.
  - reflexivity.
  - apply andb_true_iff in H as [H1 H2].
    change EmptyString with (EmptyString ++ EmptyString). constructor; [ apply IH1 | apply IH2 ]; assumption.
  - apply concat_inv in H as (s1 & s2 & E & L1 & L2).
    symmetry in E. apply append_eq_nil in E as [-> ->].
    apply andb_true_iff. split; [ apply IH1 | apply IH2 ]; assumption.
  - apply orb_true_iff in H as [H | H];
      [ apply L_AltL, IH1 | apply L_AltR, IH2 ]; assumption.
  - apply orb_true_iff. apply alt_inv in H as [H | H];
      [ left; apply IH1 | right; apply IH2 ]; assumption.
  - constructor.
  - reflexivity.
  - change EmptyString with (EmptyString ++ EmptyString). constructor; [ apply IH; assumption | constructor ].
  - apply plus_inv in H as (s1 & s2 & E & L1 & L2).
    symmetry in E. apply append_eq_nil in E as [-> ->]. apply IH. assumption.
Qed.

(** A non-empty word of a star starts with a non-empty word of its body. *)
Lemma star_cons_inv r c s :
  lang (Star r) (String c s) ->
  exists s1 s2, s = s1 ++ s2 /\ lang r (String c s1) /\ lang (Star r) s2.
Proof.
  intros H. remember (Star r) as r' eqn:Er. remember (String c s) as w eqn:Ew.
  revert c s Ew.
  induction H as [ | ? | ? ? | ? | ? ? ? ? ? ? ? ? | ? ? ? ? ? | ? ? ? ? ?
                 | ? | r0 s1 s2 L1 _ L2 IH2 | ? ? ? ? ? ? ? ];
    intros x t Ew; try discriminate.
  injection Er as ->.
  destruct s1 as [ | c1 s1 ].
  - simpl in Ew. apply IH2; [ reflexivity | assumption ].
  - simpl in Ew. injection Ew as Hc Ht. subst x t. exists s1, s2. auto.
Qed.

Lemma lang_cons_concat r1 r2 c s1 s2 :
  lang r1 (String c s1) -> lang r2 s2 -> lang (Concat r1 r2) (String c (s1 ++ s2)).
Proof.
  intros L1 L2. change (String c (s1 ++ s2)) with (String c s1 ++ s2).
  constructor; assumption.
Qed.

Lemma deriv_lang r c s : lang (deriv c r) s <-> lang r (String c s).
Proof.
  revert s.
  induction r as [ | | a | | | r1 IH1 r2 IH2 | r1 IH1 r2 IH2 | r IH | r IH ];
    intros s; cbn [deriv].
  - split; intros H; inversion H.
  - split; intros H; inversion H.
  - destruct (Ascii.eqb_spec a c) as [-> | Hne]; split; intros H.
    + inversion H; subst. constructor.
    + inversion H; subst. constructor.
    + inversion H.
    + inversion H; subst. contradiction.
  - destruct (Ascii.eqb_spec c newline) as [-> | Hne]; split; intros H.
    + inversion H.
    + inversion H; subst. contradiction.
    + inversion H; subst. constructor. assumption.
    + inversion H; subst. constructor.
  - split; intros H; inversion H; subst; constructor.
  - split.
    + intros H.
      assert (Hc : lang (Concat (deriv c r1) r2) s -> lang (Concat r1 r2) (String c s)).
      { intros Hd. apply concat_inv in Hd as (s1 & s2 & -> & L1 & L2).
        apply lang_cons_concat; [ apply IH1 | ]; assumption. }
      destruct (nullable r1) eqn:N; [ | auto ].
      apply alt_inv in H as [H | H]; [ auto | ].
      change (String c s) with (EmptyString ++ String c s).
      constructor; [ apply nullable_lang; assumption | apply IH2; assumption ].
    + intros H. apply concat_inv in H as (s1 & s2 & E & L1 & L2).
      destruct s1 as [ | c1 s1 ].
      * simpl in E. subst s2.
        apply nullable_lang in L1. rewrite L1.
        apply L_AltR, IH2. assumption.
      * simpl in E. injection E as -> ->.
        assert (Hd : lang (Concat (deriv c1 r1) r2) (s1 ++ s2))
          by (constructor; [ apply IH1 | ]; assumption).
        destruct (nullable r1); [ apply L_AltL | ]; assumption.
  - split; intros H; apply alt_inv in H as [H | H];
      solve [ apply L_AltL, IH1; assumption | apply L_AltR, IH2; assumption ].
  - split; intros H.
    + apply concat_inv in H as (s1 & s2 & -> & L1 & L2).
      change (String c (s1 ++ s2)) with (String c s1 ++ s2).
      constructor; [ apply IH | ]; assumption.
    + apply star_cons_inv in H as (s1 & s2 & -> & L1 & L2).
      constructor; [ apply IH | ]; assumption.
  - split; intros H.
    + apply concat_inv in H as (s1 & s2 & -> & L1 & L2).
      change (String c (s1 ++ s2)) with (String c s1 ++ s2).
      constructor; [ apply IH | ]; assumption.
    + apply plus_inv in H as (s1 & s2 & E & L1 & L2).
      destruct s1 as [ | c1 s1 ].
      * simpl in E. subst s2.
        apply star_cons_inv in L2 as (t1 & t2 & -> & M1 & M2).
        constructor; [ apply IH | ]; assumption.
      * simpl in E. injection E as -> ->.
        constructor; [ apply IH | ]; assumption.
Qed.

Lemma full_match_lang r s : full_match r s = true <-> lang r s.
Proof.
  revert r. induction s as [ | c s IH ]; intros r; cbn [full_match].
  - apply nullable_lang.
  - rewrite IH. apply deriv_lang.
Qed.

Lemma dots_lang s : lang (Star AnyCharNotNL) s <-> no_newline s = true.
Proof.
  induction s as [ | c s IH ]; cbn [no_newline].
  - split; intros _; [ reflexivity | constructor ].
  - split; intros H.
    + apply star_cons_inv in H as (s1 & s2 & -> & L1 & L2).
      inversion L1 as [ | | ? Hne | | | | | | | ]; subst.
      apply andb_true_iff. split.
      * destruct (Ascii.eqb_spec c newline); [ contradiction | reflexivity ].
      * apply IH. assumption.
    + apply andb_true_iff in H as [Hc Hs].
      change (String c s) with (String c EmptyString ++ s).
      constructor; [ constructor | apply IH; assumption ].
      intros ->. rewrite Ascii.eqb_refl in Hc. discriminate.
Qed.

Lemma literal_inv c s : lang (Literal c) s -> s = String c EmptyString.
Proof. intros H. inversion H; subst. reflexivity. Qed.

(** The words of [.*://.*]. *)
Lemma url_pattern_spec h :
  MatchString url_pattern h = true
  <-> exists a b,
        h = a ++ "://" ++ b /\ no_newline a = true /\ no_newline b = true.
Proof.
  unfold MatchString, url_pattern. cbn [begin_text end_text body].
  rewrite full_match_lang. split.
  - intros H.
    apply concat_inv in H as (a & r1 & -> & La & H).
    apply concat_inv in H as (x1 & r2 & -> & L1 & H).
    apply concat_inv in H as (x2 & r3 & -> & L2 & H).
    apply concat_inv in H as (x3 & b & -> & L3 & Lb).
    apply literal_inv in L1, L2, L3. subst x1 x2 x3.
    exists a, b. split; [ reflexivity | ].
    split; apply dots_lang; assumption.
  - intros (a & b & -> & Ha & Hb).
    constructor; [ apply dots_lang; assumption | ].
    change ("://" ++ b) with (String ":" EmptyString ++ (String "/" EmptyString ++ (String "/" EmptyString ++ b))).
    repeat (constructor; [ constructor | ]).
    apply dots_lang. assumption.
Qed.

Lemma length_append (a b : string) :
  String.length (a ++ b) = (String.length a + String.length b)%nat.
Proof. induction a as [ | c a IH ]; simpl; [ reflexivity | now rewrite IH ]. Qed.

Lemma wrapped_differs h : "https://" ++ h ++ "/sdk" <> h.
Proof.
  intros E. apply (f_equal String.length) in E.
  rewrite !length_append in E. simpl in E. lia.
Qed.

End RegexpFacts.

(** ** The three metrics as numbers *)

Module MetricFacts.
Import F64 F64Facts.

Lemma cpuStats_hardware h hw :
  Hardware (hs_Summary h) = Some hw ->
  cpuStats h
  = ret {| name := hs_Name h;
           stats :=
             {| total := mul (of_Z (CpuMhz hw)) (of_Z (NumCpuCores hw));
                free :=
                  sub (mul (of_Z (CpuMhz hw)) (of_Z (NumCpuCores hw)))
                      (of_Z (OverallCpuUsage (QuickStats (hs_Summary h)))) |} |}.
Proof. intros H. unfold cpuStats. rewrite H. reflexivity. Qed.

Lemma memStats_hardware h hw :
  Hardware (hs_Summary h) = Some hw ->
  memStats h
  = ret {| name := hs_Name h;
           stats :=
             {| total := div (div (of_Z (MemorySize hw)) (of_Z 1024)) (of_Z 1024);
                free :=
                  sub (div (div (of_Z (MemorySize hw)) (of_Z 1024)) (of_Z 1024))
                      (of_Z (OverallMemoryUsage (QuickStats (hs_Summary h)))) |} |}.
Proof. intros H. unfold memStats. rewrite H. reflexivity. Qed.

Lemma host_typed_hardware h hw :
  host_typed h -> Hardware (hs_Summary h) = Some hw ->
  hardware_typed hw
  /\ int32 (OverallCpuUsage (QuickStats (hs_Summary h)))
  /\ int32 (OverallMemoryUsage (QuickStats (hs_Summary h))).
Proof. unfold host_typed. intros H E. rewrite E in H. exact H. Qed.

Section Metrics.

Variable hw : HostHardwareSummary.
Variable qs : HostListSummaryQuickStats.
Hypothesis Hhw : hardware_typed hw.
Hypothesis Hcpu : int32 (OverallCpuUsage qs).
Hypothesis Hram : int32 (OverallMemoryUsage qs).

Lemma cpu_total_repr :
  repr (mul (of_Z (CpuMhz hw)) (of_Z (NumCpuCores hw)))
       (CpuMhz hw * NumCpuCores hw) 0.
Proof.
  destruct Hhw as (_ & Hmhz & Hcores).
  unfold int32, int16 in *.
  apply (repr_mul _ _ _ _ 0 0).
  - apply repr_of_Z. unfold prec. lia.
  - apply repr_of_Z. unfold prec. lia.
  - unfold prec. nia.
  - lia.
Qed.

Lemma cpu_free_repr :
  repr (sub (mul (of_Z (CpuMhz hw)) (of_Z (NumCpuCores hw)))
            (of_Z (OverallCpuUsage qs)))
       (CpuMhz hw * NumCpuCores hw - OverallCpuUsage qs) 0.
Proof.
  pose proof cpu_total_repr as Ht.
  destruct Hhw as (_ & Hmhz & Hcores). pose proof Hcpu as Hu.
  unfold int32, int16 in *.
  apply repr_sub.
  - exact Ht.
  - apply repr_of_Z. unfold prec. lia.
  - unfold prec. nia.
  - lia.
Qed.

Lemma mem_total_repr :
  Z.abs (MemorySize hw) < 2 ^ prec ->
  repr (div (div (of_Z (MemorySize hw)) (of_Z 1024)) (of_Z 1024))
       (MemorySize hw) (- 20).
Proof.
  intros Hm.
  change (- 20) with (0 - 10 - 10).
  apply repr_div_1024; [ apply repr_div_1024; [ apply repr_of_Z; exact Hm | ] | ]; lia.
Qed.

Lemma Q_mebi (n : Z) :
  inject_Z n * (2 ^ (- 20))%Q == inject_Z n / inject_Z (1024 * 1024).
Proof. unfold Qdiv. apply Qmult_comp; reflexivity. Qed.

Lemma mem_total_exact :
  Z.abs (MemorySize hw) <= 2 ^ prec ->
  exact (div (div (of_Z (MemorySize hw)) (of_Z 1024)) (of_Z 1024))
        (inject_Z (MemorySize hw) / inject_Z (1024 * 1024)).
Proof.
  intros Hm.
  destruct (Z_lt_le_dec (Z.abs (MemorySize hw)) (2 ^ prec)) as [Hlt | Hge].
  - pose proof (repr_exact _ _ _ (mem_total_repr Hlt)) as [Hf Hq].
    split; [ exact Hf | ]. rewrite Hq. apply Q_mebi.
  - assert (Hb : MemorySize hw = 2 ^ prec \/ MemorySize hw = - 2 ^ prec) by lia.
    destruct Hb as [-> | ->]; split; reflexivity.
Qed.

Lemma mem_free_exact :
  Z.abs (MemorySize hw) <= 2 ^ prec ->
  Z.abs (MemorySize hw - OverallMemoryUsage qs * 2 ^ 20) <= 2 ^ prec ->
  exact (sub (div (div (of_Z (MemorySize hw)) (of_Z 1024)) (of_Z 1024))
             (of_Z (OverallMemoryUsage qs)))
        (inject_Z (MemorySize hw) / inject_Z (1024 * 1024)
         - inject_Z (OverallMemoryUsage qs)).
Proof.
  intros Hm Hn.
  pose proof Hram as Hram'. unfold int32 in Hram'.
  set (u := OverallMemoryUsage qs) in *.
  assert (Hu : repr (of_Z u) u 0) by (apply repr_of_Z; unfold prec; lia).
  assert (Hval : forall n,
             inject_Z (n - u * 2 ^ 20) * (2 ^ (- 20))%Q
             == inject_Z n / inject_Z (1024 * 1024) - inject_Z u).
  { intros n. unfold Z.sub. rewrite inject_Z_plus, inject_Z_opp, inject_Z_mult.
    change (inject_Z (2 ^ 20)) with (inject_Z (1024 * 1024)).
    change ((2 ^ (- 20))%Q) with (/ inject_Z (1024 * 1024)).
    field. discriminate. }
  destruct (Z_lt_le_dec (Z.abs (MemorySize hw)) (2 ^ prec)) as [Hlt | Hge].
  - pose proof (mem_total_repr Hlt) as Hx.
    assert (Hy : repr (of_Z u) (u * 2 ^ 20) (- 20)).
    { change (- 20) with (0 - 20). apply repr_rescale; [ exact Hu | lia | ].
      unfold prec. lia. }
    destruct (Z_lt_le_dec (Z.abs (MemorySize hw - u * 2 ^ 20)) (2 ^ prec))
      as [Hnlt | Hnge].
    + pose proof (repr_exact _ _ _
                    (repr_sub _ _ _ _ _ Hx Hy Hnlt ltac:(lia))) as [Hf Hq].
      split; [ exact Hf | ]. rewrite Hq. apply Hval.
    + assert (Hne : Z.abs (MemorySize hw - u * 2 ^ 20) = 2 ^ prec) by lia.
      assert (Hm0 : MemorySize hw <> 0) by (unfold prec in *; lia).
      assert (Hu0 : u * 2 ^ 20 <> 0) by (unfold prec in *; lia).
      pose proof (sub_pow2 _ _ _ _ _ Hx Hy Hm0 Hu0 Hne ltac:(lia)) as [Hf Hq].
      split; [ exact Hf | ]. rewrite Hq. apply Hval.
  - assert (Hb : MemorySize hw = 2 ^ prec \/ MemorySize hw = - 2 ^ prec) by lia.
    assert (Hp : forall n, n = 2 ^ 33 \/ n = - 2 ^ 33 ->
               repr (div (div (of_Z (n * 2 ^ 20)) (of_Z 1024)) (of_Z 1024)) n 0).
    { intros n [-> | ->]; (split; [ | reflexivity ]);
        apply canon_ok_small; unfold prec; lia. }
    assert (Hfin : forall n, n = 2 ^ 33 \/ n = - 2 ^ 33 ->
               exact (sub (div (div (of_Z (n * 2 ^ 20)) (of_Z 1024)) (of_Z 1024))
                          (of_Z u))
                     (inject_Z (n * 2 ^ 20) / inject_Z (1024 * 1024) - inject_Z u)).
    { intros n Hn33.
      assert (Hfit : Z.abs (n - u) < 2 ^ prec) by (unfold prec; lia).
      pose proof (repr_exact _ _ _
                    (repr_sub _ _ _ _ _ (Hp n Hn33) Hu Hfit ltac:(lia))) as [Hf Hq].
      split; [ exact Hf | ]. rewrite Hq.
      unfold Z.sub. rewrite inject_Z_plus, inject_Z_opp, inject_Z_mult.
      change (inject_Z (2 ^ 20)) with (inject_Z (1024 * 1024)).
      change ((2 ^ 0)%Q) with 1%Q. field. discriminate. }
    destruct Hb as [-> | ->].
    + apply (Hfin (2 ^ 33)). left. reflexivity.
    + apply (Hfin (- 2 ^ 33)). right. reflexivity.
Qed.

End Metrics.

Lemma datastore_exact (d : Datastore) :
  (Z.abs (Capacity (ds_Summary d)) <= 2 ^ prec ->
   exact (total (stats (datastoreStats d))) (inject_Z (Capacity (ds_Summary d))))
  /\ (Z.abs (FreeSpace (ds_Summary d)) <= 2 ^ prec ->
      exact (free (stats (datastoreStats d)))
            (inject_Z (FreeSpace (ds_Summary d)))).
Proof. split; intros H; apply exact_of_Z; exact H. Qed.

End MetricFacts.

(** ** The process: loops and the way to the enumeration *)

Lemma bind_emit {B} (e : event) (k : M B) :
  (emit e ;; k) = (e :: fst k, snd k).
Proof. unfold bind, emit. destruct k as [t r]. reflexivity. Qed.

Lemma bind_ret {A B} (a : A) (f : A -> M B) : bind (ret a) f = f a.
Proof. unfold bind, ret. destruct (f a) as [t r]. reflexivity. Qed.

Lemma bind_value {A B} (t : list event) (a : A) (f : A -> M B) :
  bind (t, inl a) f = ((t ++ fst (f a))%list, snd (f a)).
Proof. unfold bind. destruct (f a) as [t' r]. reflexivity. Qed.

Lemma bind_halt {A B} (t : list event) (h : termination) (f : A -> M B) :
  bind (t, inr h) f = (t, inr h).
Proof. reflexivity. Qed.

Ltac run_steps :=
  cbn [fst snd ret app];
  repeat (first [ rewrite bind_ret | rewrite bind_emit
                | rewrite bind_value | rewrite bind_halt ];
          cbn [fst snd ret app]).

Lemma host_switch_hardware cmd e h :
  has_hardware h = true ->
  host_switch cmd e h = ret (value_or e (host_switch cmd e h)).
Proof.
  unfold has_hardware, host_switch, cpuStats, memStats. intros H.
  destruct (Hardware (hs_Summary h)) as [ hw | ]; [ | discriminate ].
  destruct (String.eqb cmd "CPU"); [ reflexivity | ].
  destruct (String.eqb cmd "MEM"); reflexivity.
Qed.

Lemma host_switch_nil cmd e h :
  cmd = "CPU" \/ cmd = "MEM" -> has_hardware h = false ->
  host_switch cmd e h = panic.
Proof.
  unfold has_hardware, host_switch, cpuStats, memStats. intros Hcmd H.
  destruct (Hardware (hs_Summary h)) as [ hw | ]; [ discriminate | ].
  destruct Hcmd as [-> | ->]; reflexivity.
Qed.

Lemma scan_hosts_eq cmd hss e :
  cmd = "CPU" \/ cmd = "MEM" ->
  scan_hosts cmd hss e
  = (map host_line (hosts_seen hss),
     if forallb has_hardware hss
     then inl (fold_left (fun e h => value_or e (host_switch cmd e h)) hss e)
     else inr Panicked).
Proof.
  intros Hcmd. revert e.
  induction hss as [ | h rest IH ]; intros e;
    cbn [scan_hosts hosts_seen forallb fold_left map].
  - reflexivity.
  - unfold Println. rewrite bind_emit.
    destruct (has_hardware h) eqn:Hh.
    + rewrite (host_switch_hardware cmd e h Hh), bind_ret, IH. reflexivity.
    + rewrite (host_switch_nil cmd e h Hcmd Hh). reflexivity.
Qed.

Lemma last_cons {A} (l : list A) (a d : A) : last (a :: l) d = last l a.
Proof.
  revert a d. induction l as [ | b l IH ]; intros a d.
  - reflexivity.
  - change (last (a :: b :: l) d) with (last (b :: l) d).
    rewrite !IH. reflexivity.
Qed.

Lemma final_in {A} (l : list A) (a : A) : final l = Some a -> In a l.
Proof.
  destruct l as [ | b l ]; [ discriminate | ].
  unfold final. intros H. injection H as <-.
  revert b. induction l as [ | c l IH ]; intros b.
  - left. reflexivity.
  - rewrite last_cons. right. apply IH.
Qed.

Lemma fold_left_last {A B} (f : A -> B -> A) (g : B -> A) l e :
  (forall a b, In b l -> f a b = g b) ->
  fold_left f l e = match final l with
                    | None => e
                    | Some b => g b
                    end.
Proof.
  revert e. induction l as [ | b l IH ]; intros e Hf.
  - reflexivity.
  - cbn [fold_left]. rewrite IH by (intros a c Hc; apply Hf; right; exact Hc).
    unfold final.
    destruct l as [ | b' l' ];
      [ apply Hf; left; reflexivity | rewrite last_cons; reflexivity ].
Qed.

Lemma scan_datastores_eq target ds e :
  scan_datastores target ds e
  = (map datastore_line (visited target ds),
     inl match find (name_is target) ds with
         | Some d => datastoreStats d
         | None => e
         end).
Proof.
  induction ds as [ | d rest IH ]; cbn [scan_datastores visited find].
  - reflexivity.
  - unfold Println. rewrite bind_emit. unfold name_is at 1.
    destruct (String.eqb target (ds_Name d)).
    + reflexivity.
    + rewrite IH. reflexivity.
Qed.

Lemma visited_first target pre d post :
  (forall x, In x pre -> ds_Name x <> target) -> ds_Name d = target ->
  visited target (pre ++ d :: post) = (pre ++ [d])%list
  /\ find (name_is target) (pre ++ d :: post) = Some d.
Proof.
  intros Hpre Hd. induction pre as [ | x pre IH ]; cbn [visited find app].
  - unfold name_is. rewrite Hd, String.eqb_refl. auto.
  - unfold name_is at 1.
    destruct (String.eqb_spec target (ds_Name x)) as [E | _].
    + exfalso. apply (Hpre x); [ left; reflexivity | auto ].
    + destruct IH as [-> ->]; [ | auto ].
      intros y Hy. apply Hpre. right. assumption.
Qed.

Lemma visited_none target ds :
  (forall x, In x ds -> ds_Name x <> target) ->
  visited target ds = ds /\ find (name_is target) ds = None.
Proof.
  intros H. induction ds as [ | x ds IH ]; cbn [visited find].
  - auto.
  - unfold name_is at 1.
    destruct (String.eqb_spec target (ds_Name x)) as [E | _].
    + exfalso. apply (H x); [ left; reflexivity | auto ].
    + destruct IH as [-> ->]; [ | auto ].
      intros y Hy. apply H. right. assumption.
Qed.

Lemma main_session w o kind v :
  checkRequiredOptions o = None ->
  lookup (command o) commandChoices = Some kind ->
  String.eqb (command o) "VMFS" && String.eqb (datastore o) EmptyString = false ->
  session_up w o kind v ->
  after_parse w o
  = ((preamble w o kind
        ++ fst (defer Destroy (e <- select w o kind v ;; report e)))%list,
     snd (defer Destroy (e <- select w o kind v ;; report e))).
Proof.
  intros Hc Hk Hv (u & c & Hu & Hn & Hcv).
  unfold after_parse. rewrite Hc. cbv iota. rewrite bind_ret, Hk. cbv iota.
  rewrite Hv. unfold after_echo, session, urlCheck, Println.
  run_steps. rewrite Hu. cbv iota. run_steps.
  rewrite Hn. cbv iota. run_steps. rewrite Hcv. cbv iota.
  unfold preamble. rewrite Hu. reflexivity.
Qed.

(** ** The statements of the specification *)

Import RegexpFacts MetricFacts.

Lemma lookup_hosts cmd :
  cmd = "CPU" \/ cmd = "MEM" ->
  lookup cmd commandChoices = Some "HostSystem"
  /\ String.eqb cmd "VMFS" = false.
Proof. intros [-> | ->]; split; reflexivity. Qed.

Lemma host_switch_recognised cmd :
  cmd = "CPU" \/ cmd = "MEM" ->
  forall e h, host_switch cmd e h
              = if String.eqb cmd "CPU" then cpuStats h else memStats h.
Proof. intros [-> | ->] e h; reflexivity. Qed.

Lemma all_hardware hss :
  (forall h, In h hss -> Hardware (hs_Summary h) <> None) ->
  forallb has_hardware hss = true /\ hosts_seen hss = hss.
Proof.
  intros H. induction hss as [ | h rest IH ]; cbn [forallb hosts_seen].
  - auto.
  - assert (Hh : has_hardware h = true).
    { unfold has_hardware. specialize (H h (or_introl eq_refl)).
      destruct (Hardware (hs_Summary h)); [ reflexivity | contradiction ]. }
    rewrite Hh. destruct IH as [-> ->]; [ | auto ].
    intros x Hx. apply H. right. exact Hx.
Qed.

Lemma first_without_hardware pre h post :
  (forall x, In x pre -> Hardware (hs_Summary x) <> None) ->
  Hardware (hs_Summary h) = None ->
  forallb has_hardware (pre ++ h :: post) = false
  /\ hosts_seen (pre ++ h :: post) = (pre ++ [h])%list.
Proof.
  intros Hpre Hh. induction pre as [ | x pre IH ]; cbn [forallb hosts_seen app].
  - unfold has_hardware. rewrite Hh. auto.
  - assert (Hx : has_hardware x = true).
    { unfold has_hardware. specialize (Hpre x (or_introl eq_refl)).
      destruct (Hardware (hs_Summary x)); [ reflexivity | contradiction ]. }
    rewrite Hx. destruct IH as [-> ->]; [ | auto ].
    intros y Hy. apply Hpre. right. exact Hy.
Qed.

(** With a hardware summary on every host, the loop leaves the metric of
    the last one. *)
Lemma last_host_value cmd hss :
  cmd = "CPU" \/ cmd = "MEM" ->
  forallb has_hardware hss = true ->
  last_host_resource cmd hss
  = ret (fold_left (fun e h => value_or e (host_switch cmd e h)) hss resource_zero).
Proof.
  intros Hcmd Hall.
  rewrite (fold_left_last _
             (fun h => value_or resource_zero (host_switch cmd resource_zero h))).
  - unfold last_host_resource.
    destruct (final hss) as [ h | ] eqn:E; [ | reflexivity ].
    rewrite <- (host_switch_recognised cmd Hcmd resource_zero h).
    apply host_switch_hardware.
    rewrite forallb_forall in Hall. apply Hall, final_in, E.
  - intros a b Hb. rewrite forallb_forall in Hall. specialize (Hall b Hb).
    unfold has_hardware in Hall. unfold host_switch, cpuStats, memStats.
    destruct (Hardware (hs_Summary b)); [ | discriminate ].
    destruct Hcmd as [-> | ->]; reflexivity.
Qed.

Lemma select_hosts w o v hss :
  command o = "CPU" \/ command o = "MEM" ->
  view_Retrieve_hosts w v ["HostSystem"] ["name"; "summary"] = inr hss ->
  select w o "HostSystem" v
  = (Retrieve ["HostSystem"] ["name"; "summary"]
       :: map host_line (hosts_seen hss),
     if forallb has_hardware hss
     then snd (last_host_resource (command o) hss)
     else inr Panicked).
Proof.
  intros Hcmd Hr. unfold select.
  destruct (lookup_hosts _ Hcmd) as [_ ->].
  rewrite bind_emit, Hr, (scan_hosts_eq _ _ _ Hcmd). cbn [fst snd].
  destruct (forallb has_hardware hss) eqn:Hall; [ | reflexivity ].
  rewrite (last_host_value _ _ Hcmd Hall). reflexivity.
Qed.

Lemma report_eq e :
  report e = ([Stdout (Fmt.println [name e]); Stdout (summary_line e)], inl tt).
Proof. reflexivity. Qed.

(** C2, as first stated, fails: a host that comes without a hardware
    summary stops the loop with a nil dereference, and the last host is
    never reached. *)
Lemma C2_counterexample :
  ~ (forall w o v hss,
        checkRequiredOptions o = None ->
        command o = "CPU" \/ command o = "MEM" ->
        session_up w o "HostSystem" v ->
        view_Retrieve_hosts w v ["HostSystem"] ["name"; "summary"] = inr hss ->
        hss <> [] ->
        exists e,
          snd (run w o) = Exited 0
          /\ In (Stdout (summary_line e)) (fst (run w o))).
Proof.
  intros H.
  destruct (H (example_world [host_bare; host_a] [])
              (example_options "CPU" EmptyString) tt [host_bare; host_a]
              eq_refl (or_introl eq_refl))
    as (e & Hend & _).
  - exists (urlCheck_value "esx1"), tt. repeat split.
  - reflexivity.
  - discriminate.
  - vm_compute in Hend. discriminate Hend.
Qed.

(** C2, as amended.  For the CPU and MEM commands only the resource of the
    last host survives the loop.  When the session comes up and returns the
    hosts [hss], each with its hardware summary, the process prints every
    host, then the name and the summary of the last host's metric, and ends
    with exit code 0; for no host at all it does the same with the zero
    resource (empty name, total 0, free 0).  A host without a hardware
    summary stops the loop: the process prints the hosts up to that one,
    runs the deferred [Destroy] and ends in a panic, with nothing
    reported. *)
Theorem C2_last_host_wins w o v hss :
  checkRequiredOptions o = None ->
  command o = "CPU" \/ command o = "MEM" ->
  session_up w o "HostSystem" v ->
  view_Retrieve_hosts w v ["HostSystem"] ["name"; "summary"] = inr hss ->
  ((forall h, In h hss -> Hardware (hs_Summary h) <> None) ->
   exists e,
     run w o
     = ((preamble w o "HostSystem"
           ++ Retrieve ["HostSystem"] ["name"; "summary"] :: map host_line hss
           ++ [Stdout (Fmt.println [name e]); Stdout (summary_line e);
               Destroy])%list,
        Exited 0)
     /\ (forall h rest, hss = (rest ++ [h])%list ->
         (if String.eqb (command o) "CPU" then cpuStats h else memStats h)
         = ret e)
     /\ (hss = [] ->
         e = {| name := EmptyString;
                stats := {| total := F64.zero; free := F64.zero |} |}))
  /\ (forall pre h post,
         hss = (pre ++ h :: post)%list ->
         (forall x, In x pre -> Hardware (hs_Summary x) <> None) ->
         Hardware (hs_Summary h) = None ->
         run w o
         = ((preamble w o "HostSystem"
               ++ Retrieve ["HostSystem"] ["name"; "summary"]
               :: map host_line (pre ++ [h]) ++ [Destroy])%list,
            Panicked)).
Proof.
  intros Hc Hcmd Hup Hr.
  destruct (lookup_hosts _ Hcmd) as [Hk Hv].
  assert (Hrun : run w o
                 = outcome
                     ((preamble w o "HostSystem"
                         ++ fst (defer Destroy
                                   (e <- select w o "HostSystem" v ;; report e)))%list,
                      snd (defer Destroy
                             (e <- select w o "HostSystem" v ;; report e)))).
  { unfold run.
    rewrite (main_session w o "HostSystem" v Hc Hk
               ltac:(rewrite Hv; reflexivity) Hup).
    reflexivity. }
  rewrite (select_hosts w o v hss Hcmd Hr) in Hrun.
  split.
  - intros Hall. destruct (all_hardware hss Hall) as [Hf Hs].
    rewrite Hf, Hs in Hrun.
    pose proof (last_host_value _ _ Hcmd Hf) as Hlast.
    set (e := fold_left (fun e h => value_or e (host_switch (command o) e h))
                        hss resource_zero) in *.
    exists e. split; [ | split ].
    + rewrite Hrun, Hlast. cbn [snd ret].
      rewrite bind_value, report_eq. cbn [fst snd defer outcome].
      rewrite <- app_assoc. reflexivity.
    + intros h rest E. rewrite <- Hlast. unfold last_host_resource.
      assert (Hfin : final hss = Some h).
      { rewrite E. unfold final.
        destruct rest as [ | x rest ]; [ reflexivity | ].
        cbn [app]. rewrite last_last. reflexivity. }
      rewrite Hfin. reflexivity.
    + intros E. unfold e. rewrite E. reflexivity.
  - intros pre h post E Hpre Hh.
    destruct (first_without_hardware pre h post Hpre Hh) as [Hf Hs].
    rewrite E, Hf, Hs in Hrun. rewrite Hrun.
    rewrite bind_halt. cbn [fst snd defer outcome].
    reflexivity.
Qed.

(** What the datastore branch does, by the outcome of the scan. *)
Lemma select_datastores w o v dss :
  command o = "VMFS" ->
  view_Retrieve_datastores w v ["Datastore"] ["name"; "summary"] = inr dss ->
  select w o "Datastore" v
  = let seen := Retrieve ["Datastore"] ["name"; "summary"]
                  :: map datastore_line (visited (datastore o) dss) in
    let e := match find (name_is (datastore o)) dss with
             | Some d => datastoreStats d
             | None => resource_zero
             end in
    if String.eqb (name e) EmptyString
    then ((seen ++ [not_found_line (datastore o)])%list, inr (Exited 1))
    else (seen, inl e).
Proof.
  intros Hcmd Hr. unfold select. rewrite Hcmd. cbn [String.eqb Ascii.eqb Bool.eqb].
  rewrite bind_emit, Hr, scan_datastores_eq, bind_value. cbn [fst snd].
  destruct (String.eqb (name _) EmptyString).
  - unfold Printf, not_found_line. rewrite bind_emit. reflexivity.
  - cbn [fst snd ret]. rewrite app_nil_r. reflexivity.
Qed.

Lemma main_datastores w o v :
  checkRequiredOptions o = None -> command o = "VMFS" -> datastore o <> EmptyString ->
  session_up w o "Datastore" v ->
  after_parse w o
  = ((preamble w o "Datastore"
        ++ fst (defer Destroy (e <- select w o "Datastore" v ;; report e)))%list,
     snd (defer Destroy (e <- select w o "Datastore" v ;; report e))).
Proof.
  intros Hc Hcmd Hds Hup.
  apply main_session; try assumption.
  - rewrite Hcmd. reflexivity.
  - rewrite Hcmd. cbn [String.eqb Ascii.eqb Bool.eqb andb].
    destruct (String.eqb_spec (datastore o) EmptyString); [ contradiction | reflexivity ].
Qed.

(** C5.  For the VMFS command the datastores are compared with the target
    by [Name], in order, and the loop stops at the first equal one: the later
    ones are neither printed nor looked at.  When none is equal the process
    prints that the datastore was not found and exits with code 1. *)
Theorem C5_datastore_scan w o v dss :
  checkRequiredOptions o = None -> command o = "VMFS" -> datastore o <> EmptyString ->
  session_up w o "Datastore" v ->
  view_Retrieve_datastores w v ["Datastore"] ["name"; "summary"] = inr dss ->
  (forall pre d post,
      dss = (pre ++ d :: post)%list ->
      (forall x, In x pre -> ds_Name x <> datastore o) ->
      ds_Name d = datastore o ->
      scan_datastores (datastore o) dss resource_zero
      = (map datastore_line (pre ++ [d]), inl (datastoreStats d)))
  /\ ((forall x, In x dss -> ds_Name x <> datastore o) ->
      run w o
      = ((preamble w o "Datastore"
            ++ Retrieve ["Datastore"] ["name"; "summary"]
            :: map datastore_line dss
            ++ [not_found_line (datastore o)])%list,
         Exited 1)).
Proof.
  intros Hc Hcmd Hds Hup Hr. split.
  - intros pre d post -> Hpre Hd.
    rewrite scan_datastores_eq.
    destruct (visited_first _ pre d post Hpre Hd) as [-> ->]. reflexivity.
  - intros Hnone. unfold run, outcome.
    rewrite (main_datastores w o v Hc Hcmd Hds Hup).
    rewrite (select_datastores w o v dss Hcmd Hr).
    destruct (visited_none _ dss Hnone) as [-> ->].
    cbn [resource_zero name String.eqb]. cbv zeta.
    rewrite bind_halt. cbn [defer fst snd]. reflexivity.
Qed.

(** C10.  The match is on [Name], the reported name is [Summary.Name], and
    "not found" is decided on the reported name.  So a datastore whose
    [Name] is the target and whose [Summary.Name] is empty ends the process
    with the not-found message and exit code 1; otherwise the line printed
    for the result is [Summary.Name], whatever [Name] was matched. *)
Theorem C10_summary_name w o v pre d post :
  checkRequiredOptions o = None -> command o = "VMFS" -> datastore o <> EmptyString ->
  session_up w o "Datastore" v ->
  view_Retrieve_datastores w v ["Datastore"] ["name"; "summary"]
  = inr (pre ++ d :: post)%list ->
  (forall x, In x pre -> ds_Name x <> datastore o) ->
  ds_Name d = datastore o ->
  let seen := (preamble w o "Datastore"
                 ++ Retrieve ["Datastore"] ["name"; "summary"]
                 :: map datastore_line (pre ++ [d]))%list in
  (dss_Name (ds_Summary d) = EmptyString ->
   run w o = ((seen ++ [not_found_line (datastore o)])%list, Exited 1))
  /\ (dss_Name (ds_Summary d) <> EmptyString ->
      run w o
      = ((seen ++ [Stdout (Fmt.println [dss_Name (ds_Summary d)]);
                   Stdout (summary_line (datastoreStats d)); Destroy])%list,
         Exited 0)).
Proof.
  intros Hc Hcmd Hds Hup Hr Hpre Hd seen.
  assert (Hrun : run w o
                 = if String.eqb (dss_Name (ds_Summary d)) EmptyString
                   then ((seen ++ [not_found_line (datastore o)])%list, Exited 1)
                   else ((seen ++ [Stdout (Fmt.println [dss_Name (ds_Summary d)]);
                                   Stdout (summary_line (datastoreStats d));
                                   Destroy])%list,
                         Exited 0)).
  { unfold run, outcome.
    rewrite (main_datastores w o v Hc Hcmd Hds Hup).
    rewrite (select_datastores w o v _ Hcmd Hr).
    destruct (visited_first _ pre d post Hpre Hd) as [-> ->].
    cbv zeta. cbn [datastoreStats name].
    destruct (String.eqb (dss_Name (ds_Summary d)) EmptyString).
    - rewrite bind_halt. cbn [defer fst snd]. unfold seen.
      rewrite <- app_assoc. reflexivity.
    - rewrite bind_value, report_eq. cbn [defer fst snd name datastoreStats].
      unfold seen. rewrite <- !app_assoc. reflexivity. }
  split; intros Hn; rewrite Hrun.
  - rewrite Hn. reflexivity.
  - destruct (String.eqb_spec (dss_Name (ds_Summary d)) EmptyString);
      [ contradiction | reflexivity ].
Qed.

Lemma lookup_unrecognised cmd :
  cmd <> "CPU" -> cmd <> "MEM" -> cmd <> "VMFS" ->
  lookup cmd commandChoices = None.
Proof.
  intros H1 H2 H3. cbn [lookup commandChoices].
  destruct (String.eqb_spec cmd "MEM"); [ contradiction | ].
  destruct (String.eqb_spec cmd "CPU"); [ contradiction | ].
  destruct (String.eqb_spec cmd "VMFS"); [ contradiction | reflexivity ].
Qed.

Lemma getKeys_perm w :
  Permutation (getKeys w commandChoices) ["CPU"; "MEM"; "VMFS"].
Proof.
  unfold getKeys.
  apply Permutation_trans with (map fst commandChoices).
  - apply Permutation_map, range_order_perm.
  - apply perm_swap.
Qed.

Lemma three_keys keys :
  Permutation keys ["CPU"; "MEM"; "VMFS"] ->
  In (Fmt.strings_v keys)
     ["[CPU MEM VMFS]"; "[CPU VMFS MEM]"; "[MEM CPU VMFS]";
      "[MEM VMFS CPU]"; "[VMFS CPU MEM]"; "[VMFS MEM CPU]"].
Proof.
  intros H.
  pose proof (Permutation_length H) as Hl.
  destruct keys as [ | x [ | y [ | z [ | ] ] ] ]; try discriminate Hl.
  assert (Hin : forall k, In k ["CPU"; "MEM"; "VMFS"] -> In k [x; y; z])
    by (intros k; apply Permutation_in, Permutation_sym, H).
  pose proof (Hin "CPU" ltac:(cbn; auto)) as Hc.
  pose proof (Hin "MEM" ltac:(cbn; auto)) as Hm.
  pose proof (Hin "VMFS" ltac:(cbn; auto)) as Hv.
  assert (Hx : In x ["CPU"; "MEM"; "VMFS"])
    by (apply (Permutation_in _ H); cbn; auto).
  assert (Hy : In y ["CPU"; "MEM"; "VMFS"])
    by (apply (Permutation_in _ H); cbn; auto).
  assert (Hz : In z ["CPU"; "MEM"; "VMFS"])
    by (apply (Permutation_in _ H); cbn; auto).
  clear H Hl Hin. cbn [In] in Hx, Hy, Hz.
  destruct Hx as [<- | [<- | [<- | []]]];
    destruct Hy as [<- | [<- | [<- | []]]];
    destruct Hz as [<- | [<- | [<- | []]]];
    first [ solve [ vm_compute; auto 10 ]
          | solve [ exfalso; cbn [In] in Hc, Hm, Hv; intuition discriminate ] ].
Qed.

(** C6.  Once the required options are present, a command that is none of
    CPU, MEM and VMFS makes the process print one line, "valid choices"
    followed by the three commands CPU, MEM and VMFS between brackets, in
    the order the map happens to yield them, and exit with code 2. *)
Theorem C6_unrecognised_command w o :
  checkRequiredOptions o = None ->
  command o <> "CPU" -> command o <> "MEM" -> command o <> "VMFS" ->
  exists choices,
    In choices
       ["[CPU MEM VMFS]"; "[CPU VMFS MEM]"; "[MEM CPU VMFS]";
        "[MEM VMFS CPU]"; "[VMFS CPU MEM]"; "[VMFS MEM CPU]"]
    /\ run w o = ([Stdout ("valid choices " ++ choices ++ Fmt.nl)], Exited 2)
    /\ existsb is_network (fst (run w o)) = false.
Proof.
  intros Hc H1 H2 H3. exists (Fmt.strings_v (getKeys w commandChoices)).
  assert (Hrun : run w o
                 = ([Stdout ("valid choices "
                               ++ Fmt.strings_v (getKeys w commandChoices)
                               ++ Fmt.nl)],
                    Exited 2)).
  { unfold run, outcome, after_parse.
    rewrite Hc, (lookup_unrecognised _ H1 H2 H3). reflexivity. }
  split; [ apply (three_keys _ (getKeys_perm w)) | ].
  split; [ exact Hrun | rewrite Hrun; reflexivity ].
Qed.

(** C7.  VMFS without a datastore name: no call into the management session
    is among the events of the process, and with the required options
    present it prints the hint and the usage and exits with code 2. *)
Theorem C7_missing_datastore_name w o :
  command o = "VMFS" -> datastore o = EmptyString ->
  existsb is_network (fst (run w o)) = false
  /\ (checkRequiredOptions o = None ->
      run w o
      = ([Stdout ("pass storage name for VMFS option using (-s | --datastore)"
                    ++ Fmt.nl);
          Usage],
         Exited 2)).
Proof.
  intros Hcmd Hds.
  assert (Hrun : run w o
                 = match checkRequiredOptions o with
                   | Some err => ([Usage; Stderr err], Exited 1)
                   | None =>
                       ([Stdout ("pass storage name for VMFS option using (-s | --datastore)"
                                   ++ Fmt.nl);
                         Usage],
                        Exited 2)
                   end).
  { unfold run, outcome, after_parse. rewrite Hcmd, Hds.
    destruct (checkRequiredOptions o) as [ err | ]; reflexivity. }
  rewrite Hrun. split.
  - destruct (checkRequiredOptions o); reflexivity.
  - intros ->. reflexivity.
Qed.

Lemma check_thresholds o w1 c1 w2 c2 :
  w1 <> 0 -> c1 <> 0 -> w2 <> 0 -> c2 <> 0 ->
  checkRequiredOptions (with_thresholds o w1 c1)
  = checkRequiredOptions (with_thresholds o w2 c2).
Proof.
  intros Hw1 Hc1 Hw2 Hc2. unfold checkRequiredOptions, with_thresholds.
  cbn [hostname username password command warning critical].
  apply Z.eqb_neq in Hw1, Hc1, Hw2, Hc2.
  rewrite Hw1, Hc1, Hw2, Hc2. reflexivity.
Qed.

Lemma after_echo_thresholds w o w1 c1 kind :
  after_echo w (with_thresholds o w1 c1) kind = after_echo w o kind.
Proof. reflexivity. Qed.

Lemma after_echo_prints w o kind :
  stdout (fst (after_echo w o kind)) <> [].
Proof.
  unfold after_echo, urlCheck, Println. run_steps. cbn [stdout]. discriminate.
Qed.

Lemma final_cons {A} (a : A) l : l <> [] -> final (a :: l) = final l.
Proof.
  intros Hl. destruct l as [ | b l ]; [ contradiction | ].
  unfold final. rewrite last_cons. reflexivity.
Qed.

(** C9.  The thresholds are never compared with anything.  Two runs on the
    same world whose options differ only in their non-zero thresholds end
    the same way, print the same last line, select the same resource, and
    their events differ at most in the line that echoes the options. *)
Theorem C9_thresholds_unused w o w1 c1 w2 c2 :
  w1 <> 0 -> c1 <> 0 -> w2 <> 0 -> c2 <> 0 ->
  let o1 := with_thresholds o w1 c1 in
  let o2 := with_thresholds o w2 c2 in
  snd (run w o1) = snd (run w o2)
  /\ final (stdout (fst (run w o1))) = final (stdout (fst (run w o2)))
  /\ (forall kind v, select w o1 kind v = select w o2 kind v)
  /\ (run w o1 = run w o2
      \/ exists t,
           fst (run w o1) = Stdout (echo_line o1) :: t
           /\ fst (run w o2) = Stdout (echo_line o2) :: t).
Proof.
  intros Hw1 Hc1 Hw2 Hc2 o1 o2.
  assert (Hshape :
            run w o1 = run w o2
            \/ exists t r,
                 stdout t <> []
                 /\ run w o1 = (Stdout (echo_line o1) :: t, r)
                 /\ run w o2 = (Stdout (echo_line o2) :: t, r)).
  { unfold run, outcome, after_parse, o1, o2.
    rewrite (check_thresholds o w1 c1 w2 c2 Hw1 Hc1 Hw2 Hc2).
    destruct (checkRequiredOptions (with_thresholds o w2 c2)) as [ err | ];
      [ left; reflexivity | ].
    rewrite !bind_ret.
    change (command (with_thresholds o w1 c1)) with (command o).
    change (command (with_thresholds o w2 c2)) with (command o).
    change (datastore (with_thresholds o w1 c1)) with (datastore o).
    change (datastore (with_thresholds o w2 c2)) with (datastore o).
    destruct (lookup (command o) commandChoices) as [ kind | ]; [ | left; reflexivity ].
    destruct (String.eqb (command o) "VMFS" && String.eqb (datastore o) EmptyString);
      [ left; reflexivity | ].
    right. rewrite !bind_ret, !bind_emit, !after_echo_thresholds.
    pose proof (after_echo_prints w o kind) as Hp.
    destruct (after_echo w o kind) as [t [ [] | h ]]; cbn [fst snd] in *.
    - exists t, (Exited 0). repeat split; assumption || reflexivity.
    - exists t, h. repeat split; assumption || reflexivity. }
  split; [ | split; [ | split ] ].
  - destruct Hshape as [-> | (t & r & _ & -> & ->)]; reflexivity.
  - destruct Hshape as [-> | (t & r & Ht & -> & ->)]; [ reflexivity | ].
    cbn [fst stdout]. rewrite !final_cons by assumption. reflexivity.
  - reflexivity.
  - destruct Hshape as [E | (t & r & _ & -> & ->)]; [ left; exact E | ].
    right. exists t. auto.
Qed.

Lemma check_is_first_missing o :
  checkRequiredOptions o
  = option_map error_of (find (missing o) required_order).
Proof.
  unfold checkRequiredOptions, required_order. cbn [find missing].
  destruct (String.eqb (hostname o) EmptyString); [ reflexivity | ].
  destruct (warning o =? 0); [ reflexivity | ].
  destruct (critical o =? 0); [ reflexivity | ].
  destruct (String.eqb (username o) EmptyString); [ reflexivity | ].
  destruct (String.eqb (password o) EmptyString); [ reflexivity | ].
  destruct (String.eqb (command o) EmptyString); reflexivity.
Qed.

(** C4, as first stated, fails: a threshold left out is not the same as
    one given as 0.  Left out, the warning threshold takes its default and
    the validation passes; given as 0, it is rejected. *)
Lemma C4_counterexample :
  ~ (forall a,
        checkRequiredOptions (parse (with_arg_warning a (Some 0)))
        = checkRequiredOptions (parse (with_arg_warning a None))).
Proof.
  intros H. specialize (H example_args). vm_compute in H. discriminate H.
Qed.

(** C4, as amended.  [checkRequiredOptions] reports the first missing field
    in the order hostname, warning, critical, username, password, command,
    by the error that names it.  A threshold given as 0 on the command line
    counts as missing and is rejected with the "Must supply" error of that
    threshold.  A threshold that is left out is not missing: it holds the
    default that [init] registers, 85 for warning and 90 for critical, and
    with both left out the validation depends on the four strings alone.
    When no field is missing there is no error. *)
Theorem C4_required_options (a : Args) (o : Options) :
  checkRequiredOptions o
  = option_map error_of (find (missing o) required_order)
  /\ (arg_warning a = Some 0 ->
      missing (parse a) FWarning = true
      /\ checkRequiredOptions (parse a) <> None
      /\ (missing (parse a) FHostname = false ->
          checkRequiredOptions (parse a)
          = Some "Must supply the warning percentage"))
  /\ (arg_critical a = Some 0 ->
      missing (parse a) FCritical = true
      /\ checkRequiredOptions (parse a) <> None
      /\ (missing (parse a) FHostname = false ->
          missing (parse a) FWarning = false ->
          checkRequiredOptions (parse a)
          = Some "Must supply the critical percentage"))
  /\ (arg_warning a = None ->
      warning (parse a) = 85 /\ missing (parse a) FWarning = false)
  /\ (arg_critical a = None ->
      critical (parse a) = 90 /\ missing (parse a) FCritical = false)
  /\ (arg_warning a = None -> arg_critical a = None ->
      checkRequiredOptions (parse a)
      = option_map error_of
          (find (missing (parse a)) [FHostname; FUsername; FPassword; FCommand]))
  /\ ((forall f, In f required_order -> missing o f = false) ->
      checkRequiredOptions o = None).
Proof.
  split; [ apply check_is_first_missing | ].
  split; [ | split; [ | split; [ | split; [ | split ] ] ] ].
  - intros Hw.
    assert (Hm : missing (parse a) FWarning = true).
    { unfold parse. cbn [missing warning]. rewrite Hw. reflexivity. }
    split; [ exact Hm | split ].
    + rewrite check_is_first_missing. unfold required_order. cbn [find].
      rewrite Hm. destruct (missing (parse a) FHostname); discriminate.
    + intros Hh. rewrite check_is_first_missing. unfold required_order.
      cbn [find]. rewrite Hh, Hm. reflexivity.
  - intros Hc.
    assert (Hm : missing (parse a) FCritical = true).
    { unfold parse. cbn [missing critical]. rewrite Hc. reflexivity. }
    split; [ exact Hm | split ].
    + rewrite check_is_first_missing. unfold required_order. cbn [find].
      rewrite Hm.
      destruct (missing (parse a) FHostname); [ discriminate | ].
      destruct (missing (parse a) FWarning); discriminate.
    + intros Hh Hw. rewrite check_is_first_missing. unfold required_order.
      cbn [find]. rewrite Hh, Hw, Hm. reflexivity.
  - intros Hw. unfold parse. cbn [missing warning]. rewrite Hw. split; reflexivity.
  - intros Hc. unfold parse. cbn [missing critical]. rewrite Hc. split; reflexivity.
  - intros Hw Hc. rewrite check_is_first_missing. unfold required_order.
    cbn [find]. unfold parse at 2 3. cbn [missing warning critical].
    rewrite Hw, Hc. cbn [or_default Z.eqb]. reflexivity.
  - intros Hall. rewrite check_is_first_missing.
    destruct (find (missing o) required_order) as [ f | ] eqn:E; [ | reflexivity ].
    apply find_some in E as [Hin Hm]. rewrite (Hall f Hin) in Hm. discriminate.
Qed.

(** C3, as first stated, fails: ["://"] comes back unchanged although it
    does not match [^.+://.+$]. *)
Lemma C3_counterexample :
  ~ (forall h, urlCheck_value h = h <-> Regexp.MatchString spec_pattern h = true).
Proof.
  intros H. destruct (H "://") as [H1 _].
  specialize (H1 eq_refl). discriminate H1.
Qed.

(** C3, as amended.  [urlCheck] returns its argument unchanged exactly when
    the argument matches [^.*://.*$], that is when it contains ["://"] and
    no newline; otherwise it returns ["https://" ++ h ++ "/sdk"].  It always
    returns, after printing the outcome of the match. *)
Theorem C3_urlCheck (h : string) :
  (urlCheck_value h = h <-> Regexp.MatchString url_pattern h = true)
  /\ (urlCheck_value h <> h -> urlCheck_value h = "https://" ++ h ++ "/sdk")
  /\ (Regexp.MatchString url_pattern h = true
      <-> exists a b,
            h = a ++ "://" ++ b
            /\ Regexp.no_newline a = true /\ Regexp.no_newline b = true)
  /\ urlCheck h
     = ([Stdout (Fmt.println
                   [Fmt.bool_v (Regexp.MatchString url_pattern h)])],
        inl (urlCheck_value h)).
Proof.
  split; [ | split; [ | split ] ].
  - unfold urlCheck_value.
    destruct (Regexp.MatchString url_pattern h); cbn [negb]; split; intros H.
    + reflexivity.
    + reflexivity.
    + exfalso. exact (wrapped_differs h H).
    + discriminate.
  - unfold urlCheck_value.
    destruct (Regexp.MatchString url_pattern h); cbn [negb]; intros H.
    + contradiction.
    + reflexivity.
  - apply url_pattern_spec.
  - reflexivity.
Qed.

Lemma C3_urlCheck_witness :
  urlCheck_value "esx1" = "https://esx1/sdk"
  /\ urlCheck_value "https://esx1/sdk" = "https://esx1/sdk"
  /\ urlCheck_value "://" = "://".
Proof.
  split; [ | split ].
  - apply (proj1 (proj2 (C3_urlCheck "esx1"))). discriminate.
  - apply (proj1 (C3_urlCheck "https://esx1/sdk")). reflexivity.
  - apply (proj1 (C3_urlCheck "://")). reflexivity.
Defined.

Lemma round_half_even_nearest n d :
  0 < d -> Z.abs (2 * (Fmt.round_half_even n d * d - n)) <= d.
Proof.
  intros Hd. unfold Fmt.round_half_even.
  pose proof (Z.div_mod n d ltac:(lia)) as Hdm.
  pose proof (Z.mod_pos_bound n d Hd) as Hr.
  destruct (Z.compare_spec (2 * (n mod d)) d) as [E | L | G];
    [ destruct (Z.even (n / d)) | | ]; nia.
Qed.

Lemma scaled_nearest p m e : nearest_scaled p m e (Fmt.scaled p m e).
Proof.
  unfold nearest_scaled, Fmt.scaled.
  destruct (Z.leb_spec 0 e) as [He | He].
  - left. auto.
  - right. split; [ assumption | ].
    apply round_half_even_nearest. apply Z.pow_pos_nonneg; lia.
Qed.

Lemma two_digits k :
  0 <= k < 100 ->
  Fmt.pad_left 2 (Fmt.itoa k)
  = String (digit (k / 10)) (String (digit (k mod 10)) EmptyString).
Proof.
  intros Hk.
  assert (Hall : forallb
                   (fun n =>
                      String.eqb
                        (Fmt.pad_left 2 (Fmt.itoa (Z.of_nat n)))
                        (String (digit (Z.of_nat n / 10))
                           (String (digit (Z.of_nat n mod 10)) EmptyString)))
                   (seq 0 100) = true) by (vm_compute; reflexivity).
  rewrite forallb_forall in Hall.
  specialize (Hall (Z.to_nat k)). rewrite Z2Nat.id in Hall by lia.
  apply String.eqb_eq, Hall, in_seq. lia.
Qed.

Lemma fixed_two neg n :
  Fmt.fixed 2 neg n
  = (if neg then "-" else EmptyString)
      ++ Fmt.itoa (n / 100) ++ "."
      ++ String (digit (n mod 100 / 10)) (String (digit (n mod 10)) EmptyString).
Proof.
  unfold Fmt.fixed. change (10 ^ Z.of_nat 2) with 100.
  rewrite two_digits by (apply Z.mod_pos_bound; lia).
  rewrite (Z.mod_mod_divide n 100 10) by (exists 10; reflexivity).
  reflexivity.
Qed.

Lemma percent_zero_total nm s' f :
  freePer {| name := nm; stats := {| total := S754_zero s'; free := f |} |}
  = match f with
    | S754_zero _ | S754_nan => "NaN"
    | S754_infinity s | S754_finite s _ _ => if xorb s s' then "-Inf" else "+Inf"
    end.
Proof.
  unfold freePer, percent. cbn [stats total free].
  destruct f as [ s | s | | s m e ]; try reflexivity;
    destruct s, s'; reflexivity.
Qed.

(** C8, as first stated, fails: with a zero total the text is ["NaN"]. *)
Lemma C8_counterexample :
  ~ (forall r, F64.is_zero (total (stats r)) = true ->
               freePer r <> "NaN" /\ freePer r <> "+Inf" /\ freePer r <> "-Inf").
Proof.
  intros H. destruct (H resource_zero eq_refl) as [Hn _].
  apply Hn. reflexivity.
Qed.

(** C8, as amended.  [freePer] is [free / total * 100] in float64, printed
    with two decimals: a finite value comes out as its nearest multiple of
    0.01, the sign, the integer part, a point and the two digits of the
    hundredths, and 250 of 1000 gives ["25.00"].  A zero total is not
    treated apart: the text is then ["NaN"] when free is zero (or not a
    number) and ["+Inf"] or ["-Inf"] otherwise.  Whatever resource the
    enumeration selects, the run ends by printing its name and, in the last
    line of the summary, this text as it is. *)
Theorem C8_free_percentage (r : resource) :
  freePer r = Fmt.float_f 2 (F64.mul (F64.div (free (stats r)) (total (stats r)))
                                     (F64.of_Z 100))
  /\ (forall s m e, percent r = S754_finite s m e ->
      exists N,
        nearest_scaled 2 m e N
        /\ freePer r
           = (if s then "-" else EmptyString)
               ++ Fmt.itoa (N / 100) ++ "."
               ++ String (digit (N mod 100 / 10))
                    (String (digit (N mod 10)) EmptyString))
  /\ (forall s, percent r = S754_zero s ->
      freePer r = (if s then "-" else EmptyString) ++ "0.00")
  /\ (forall s', total (stats r) = S754_zero s' ->
      freePer r
      = match free (stats r) with
        | S754_zero _ | S754_nan => "NaN"
        | S754_infinity s | S754_finite s _ _ =>
            if xorb s s' then "-Inf" else "+Inf"
        end)
  /\ freePer {| name := name r;
                stats := {| total := F64.of_Z 1000; free := F64.of_Z 250 |} |}
     = "25.00"
  /\ (forall w o kind v t,
         checkRequiredOptions o = None ->
         lookup (command o) commandChoices = Some kind ->
         String.eqb (command o) "VMFS" && String.eqb (datastore o) EmptyString
         = false ->
         session_up w o kind v ->
         select w o kind v = (t, inl r) ->
         run w o
         = ((preamble w o kind ++ t
               ++ [Stdout (Fmt.println [name r]);
                   Stdout ("total  " ++ Fmt.float_f 6 (total (stats r))
                             ++ " " ++ Fmt.nl
                             ++ " free " ++ Fmt.float_f 6 (free (stats r))
                             ++ " " ++ Fmt.nl
                             ++ " remaining " ++ freePer r ++ Fmt.nl);
                   Destroy])%list,
            Exited 0)).
Proof.
  split; [ reflexivity | split; [ | split; [ | split; [ | split ] ] ] ].
  - intros s m e Hp. unfold freePer. rewrite Hp. cbn [Fmt.float_f].
    exists (Fmt.scaled 2 m e).
    split; [ apply scaled_nearest | apply fixed_two ].
  - intros s Hp. unfold freePer. rewrite Hp. destruct s; reflexivity.
  - intros s' Ht. destruct r as [nm [t f]]. cbn [stats total free] in *.
    subst t. apply percent_zero_total.
  - reflexivity.
  - intros w o kind v t Hc Hk Hv Hup Hsel. unfold run.
    rewrite (main_session w o kind v Hc Hk Hv Hup), Hsel.
    rewrite bind_value, report_eq. cbn [fst snd defer outcome].
    rewrite <- !app_assoc. reflexivity.
Qed.

Lemma C8_free_percentage_witness :
  freePer {| name := "esx-off";
             stats := {| total := F64.zero; free := F64.zero |} |}
  = "NaN"
  /\ final (stdout (fst (run (example_world [host_off] [])
                             (example_options "CPU" EmptyString))))
     = Some ("total  0.000000 " ++ Fmt.nl ++ " free 0.000000 " ++ Fmt.nl
               ++ " remaining NaN" ++ Fmt.nl).
Proof.
  pose proof (C8_free_percentage
                {| name := "esx-off";
                   stats := {| total := F64.zero; free := F64.zero |} |})
    as (_ & _ & _ & Hzero & _ & Hrun).
  split.
  - exact (Hzero false eq_refl).
  - rewrite (Hrun (example_world [host_off] [])
               (example_options "CPU" EmptyString) "HostSystem" tt
               [Retrieve ["HostSystem"] ["name"; "summary"];
                Stdout (Fmt.println ["esx-off"])]
               eq_refl eq_refl eq_refl
               (ex_intro _ "https://esx1/sdk"
                  (ex_intro _ tt (conj eq_refl (conj eq_refl eq_refl))))
               eq_refl).
    reflexivity.
Defined.

(** C1, as first stated, fails: a capacity of 2^53 + 1 bytes is not a
    float64, the total is 2^53. *)
Lemma C1_counterexample :
  ~ (forall d, datastore_typed d ->
               F64.to_Q (total (stats (datastoreStats d)))
               == inject_Z (Capacity (ds_Summary d))).
Proof.
  intros H.
  specialize (H (example_datastore "big" "big" (2 ^ 53 + 1) 0)).
  assert (Ht : datastore_typed (example_datastore "big" "big" (2 ^ 53 + 1) 0)).
  { unfold datastore_typed, int64. cbn. lia. }
  specialize (H Ht). vm_compute in H. discriminate H.
Qed.

(** C1, as amended.  Each metric carries the name of its object ([Name] for
    a host, [Summary.Name] for a datastore) and two float64 numbers.  CPU:
    total is exactly clockMHz * coreCount and free is exactly total minus
    the usage, for every host (the numbers are those of its hardware
    summary).  MEM: total is exactly memoryBytes / 2^20 when memoryBytes is
    at most 2^53 in magnitude, and free is exactly total minus the usage
    when memoryBytes - usage * 2^20 is so too.  VMFS: total and free are
    exactly the capacity and the free space when these are at most 2^53 in
    magnitude. *)
Theorem C1_metrics (h : HostSystem) (hw : HostHardwareSummary) (d : Datastore) :
  host_typed h ->
  Hardware (hs_Summary h) = Some hw ->
  let qs := QuickStats (hs_Summary h) in
  let sm := ds_Summary d in
  (exists r,
      cpuStats h = ret r
      /\ name r = hs_Name h
      /\ F64.exact (total (stats r)) (inject_Z (CpuMhz hw * NumCpuCores hw))
      /\ F64.exact (free (stats r))
                   (inject_Z (CpuMhz hw * NumCpuCores hw - OverallCpuUsage qs)))
  /\ (exists r,
         memStats h = ret r
         /\ name r = hs_Name h
         /\ (Z.abs (MemorySize hw) <= 2 ^ 53 ->
             F64.exact (total (stats r))
                       (inject_Z (MemorySize hw) / inject_Z (1024 * 1024))
             /\ (Z.abs (MemorySize hw - OverallMemoryUsage qs * 2 ^ 20) <= 2 ^ 53 ->
                 F64.exact (free (stats r))
                           (inject_Z (MemorySize hw) / inject_Z (1024 * 1024)
                            - inject_Z (OverallMemoryUsage qs)))))
  /\ (name (datastoreStats d) = dss_Name sm
      /\ (Z.abs (Capacity sm) <= 2 ^ 53 ->
          F64.exact (total (stats (datastoreStats d))) (inject_Z (Capacity sm)))
      /\ (Z.abs (FreeSpace sm) <= 2 ^ 53 ->
          F64.exact (free (stats (datastoreStats d))) (inject_Z (FreeSpace sm)))).
Proof.
  intros Ht Hhw qs sm.
  destruct (host_typed_hardware h hw Ht Hhw) as (Thw & Tcpu & Tram).
  assert (Hz : forall x n, F64.repr x n 0 -> F64.exact x (inject_Z n)).
  { intros x n Hx. destruct (F64Facts.repr_exact _ _ _ Hx) as [Hf Hq].
    split; [ exact Hf | ]. rewrite Hq. change ((2 ^ 0)%Q) with 1%Q. ring. }
  split; [ | split ].
  - eexists. split; [ apply (cpuStats_hardware h hw Hhw) | ].
    cbn [name stats total free].
    split; [ reflexivity | split ]; apply Hz.
    + exact (cpu_total_repr hw Thw).
    + exact (cpu_free_repr hw qs Thw Tcpu).
  - eexists. split; [ apply (memStats_hardware h hw Hhw) | ].
    cbn [name stats total free].
    split; [ reflexivity | ]. intros Hm. split.
    + exact (mem_total_exact hw Hm).
    + intros Hn. exact (mem_free_exact hw qs Tram Hm Hn).
  - split; [ reflexivity | exact (datastore_exact d) ].
Qed.

Lemma C1_metrics_witness :
  exists r,
    cpuStats (example_host "h" (2 ^ 34) 2000 4 3000 1000) = ret r
    /\ name r = "h"
    /\ F64.exact (total (stats r)) (inject_Z 8000)
    /\ F64.exact (free (stats r)) (inject_Z 5000).
Proof.
  assert (Ht : host_typed (example_host "h" (2 ^ 34) 2000 4 3000 1000)).
  { unfold host_typed, hardware_typed, int16, int32, int64. cbn. lia. }
  exact (proj1 (C1_metrics _ _ (example_datastore "ds" "ds" 2000 500) Ht eq_refl)).
Defined.

Lemma example_session_up hss dss o kind :
  session_up (example_world hss dss) o kind tt.
Proof. exists (urlCheck_value (hostname o)), tt. repeat split. Qed.

Lemma C2_last_host_wins_witness :
  checkRequiredOptions (example_options "CPU" EmptyString) = None
  /\ (exists e,
        snd (run (example_world [host_a; host_b] [])
                 (example_options "CPU" EmptyString))
        = Exited 0
        /\ cpuStats host_b = ret e)
  /\ snd (run (example_world [host_a; host_bare; host_b] [])
              (example_options "CPU" EmptyString))
     = Panicked.
Proof.
  destruct (C2_last_host_wins (example_world [host_a; host_b] [])
              (example_options "CPU" EmptyString) tt [host_a; host_b]
              eq_refl (or_introl eq_refl)
              (example_session_up _ _ _ _) eq_refl) as [Hall _].
  destruct (C2_last_host_wins (example_world [host_a; host_bare; host_b] [])
              (example_options "CPU" EmptyString) tt [host_a; host_bare; host_b]
              eq_refl (or_introl eq_refl)
              (example_session_up _ _ _ _) eq_refl) as [_ Hnil].
  split; [ reflexivity | split ].
  - destruct Hall as (e & Hrun & Hlast & _).
    + intros h [<- | [<- | []]]; discriminate.
    + exists e. split.
      * rewrite Hrun. reflexivity.
      * exact (Hlast host_b [host_a] eq_refl).
  - rewrite (Hnil [host_a] host_bare [host_b] eq_refl); [ reflexivity | | reflexivity ].
    intros x [<- | []]. discriminate.
Defined.

Lemma C4_required_options_witness :
  checkRequiredOptions (parse (with_arg_warning example_args (Some 0)))
  = Some "Must supply the warning percentage"
  /\ warning (parse example_args) = 85
  /\ checkRequiredOptions (parse example_args) = None.
Proof.
  pose proof (C4_required_options (with_arg_warning example_args (Some 0))
                (parse example_args))
    as (_ & Hzero & _).
  pose proof (C4_required_options example_args (parse example_args))
    as (_ & _ & _ & Hdefault & _ & _ & Hnone).
  split; [ | split ].
  - exact (proj2 (proj2 (Hzero eq_refl)) eq_refl).
  - exact (proj1 (Hdefault eq_refl)).
  - apply Hnone. intros f Hf. destruct f; reflexivity.
Defined.

Lemma C5_datastore_scan_witness :
  scan_datastores "ds2" [store_a; store_b; store_d] resource_zero
  = ([datastore_line store_a; datastore_line store_b], inl (datastoreStats store_b))
  /\ snd (run (example_world [] [store_a]) (example_options "VMFS" "ds2"))
     = Exited 1.
Proof.
  destruct (C5_datastore_scan (example_world [] [store_a; store_b; store_d])
              (example_options "VMFS" "ds2") tt [store_a; store_b; store_d]
              eq_refl eq_refl ltac:(discriminate)
              (example_session_up _ _ _ _) eq_refl) as [Hstop _].
  destruct (C5_datastore_scan (example_world [] [store_a])
              (example_options "VMFS" "ds2") tt [store_a]
              eq_refl eq_refl ltac:(discriminate)
              (example_session_up _ _ _ _) eq_refl) as [_ Hnone].
  split.
  - apply (Hstop [store_a] store_b [store_d] eq_refl).
    + intros x [<- | []]. discriminate.
    + reflexivity.
  - rewrite Hnone; [ reflexivity | ].
    intros x [<- | []]. discriminate.
Defined.

Lemma C6_unrecognised_command_witness :
  snd (run (example_world [] []) (example_options "FOO" EmptyString)) = Exited 2
  /\ stdout (fst (run (example_world [] []) (example_options "FOO" EmptyString)))
     = ["valid choices [MEM CPU VMFS]" ++ Fmt.nl].
Proof.
  destruct (C6_unrecognised_command (example_world [] [])
              (example_options "FOO" EmptyString) eq_refl
              ltac:(discriminate) ltac:(discriminate) ltac:(discriminate))
    as (choices & _ & Hrun & _).
  split; [ rewrite Hrun; reflexivity | reflexivity ].
Defined.

Lemma C7_missing_datastore_name_witness :
  existsb is_network
    (fst (run (example_world [] [store_a]) (example_options "VMFS" EmptyString)))
  = false
  /\ snd (run (example_world [] [store_a]) (example_options "VMFS" EmptyString))
     = Exited 2.
Proof.
  destruct (C7_missing_datastore_name (example_world [] [store_a])
              (example_options "VMFS" EmptyString) eq_refl eq_refl)
    as [Hnet Hrun].
  split; [ exact Hnet | rewrite (Hrun eq_refl); reflexivity ].
Defined.

Lemma C9_thresholds_unused_witness :
  snd (run (example_world [host_a] [])
           (with_thresholds (example_options "CPU" EmptyString) 85 90))
  = snd (run (example_world [host_a] [])
             (with_thresholds (example_options "CPU" EmptyString) 1 2))
  /\ final (stdout (fst (run (example_world [host_a] [])
                             (with_thresholds (example_options "CPU" EmptyString) 85 90))))
     = final (stdout (fst (run (example_world [host_a] [])
                               (with_thresholds (example_options "CPU" EmptyString) 1 2)))).
Proof.
  destruct (C9_thresholds_unused (example_world [host_a] [])
              (example_options "CPU" EmptyString) 85 90 1 2
              ltac:(discriminate) ltac:(discriminate)
              ltac:(discriminate) ltac:(discriminate)) as [Hexit [Hlast _]].
  split; [ exact Hexit | exact Hlast ].
Defined.

Lemma C10_summary_name_witness :
  snd (run (example_world [] [store_a; store_c]) (example_options "VMFS" "ds2"))
  = Exited 1
  /\ stdout (fst (run (example_world [] [store_a; store_d])
                      (example_options "VMFS" "ds2")))
     = (stdout (preamble (example_world [] [store_a; store_d])
                         (example_options "VMFS" "ds2") "Datastore")
          ++ [Fmt.println ["ds1"]; Fmt.println ["ds2"]; Fmt.println ["ssd-tier"];
              summary_line (datastoreStats store_d)])%list.
Proof.
  assert (Hpre : forall x, In x [store_a] -> ds_Name x <> "ds2").
  { intros x [<- | []]. discriminate. }
  destruct (C10_summary_name (example_world [] [store_a; store_c])
              (example_options "VMFS" "ds2") tt [store_a] store_c []
              eq_refl eq_refl ltac:(discriminate)
              (example_session_up _ _ _ _) eq_refl Hpre eq_refl) as [Hempty _].
  destruct (C10_summary_name (example_world [] [store_a; store_d])
              (example_options "VMFS" "ds2") tt [store_a] store_d []
              eq_refl eq_refl ltac:(discriminate)
              (example_session_up _ _ _ _) eq_refl Hpre eq_refl) as [_ Hshown].
  split.
  - rewrite (Hempty eq_refl). reflexivity.
  - rewrite (Hshown ltac:(discriminate)). reflexivity.
Defined.

(** * Further properties of the code *)

(** ** The process and the session *)

Lemma network_app t1 t2 : network (t1 ++ t2) = (network t1 ++ network t2)%list.
Proof. apply filter_app. Qed.

Lemma network_host_lines hss : network (map host_line hss) = [].
Proof. induction hss as [ | h l IH ]; [ reflexivity | exact IH ]. Qed.

Lemma network_datastore_lines dss : network (map datastore_line dss) = [].
Proof. induction dss as [ | d l IH ]; [ reflexivity | exact IH ]. Qed.

Lemma host_switch_cases cmd e h :
  (exists e', host_switch cmd e h = ret e'
              /\ (cmd = "CPU" \/ cmd = "MEM" -> Hardware (hs_Summary h) <> None))
  \/ (host_switch cmd e h = panic
      /\ (cmd = "CPU" \/ cmd = "MEM") /\ Hardware (hs_Summary h) = None).
Proof.
  unfold host_switch, cpuStats, memStats.
  destruct (String.eqb_spec cmd "CPU") as [Hc | Hc];
    [ | destruct (String.eqb_spec cmd "MEM") as [Hm | Hm] ].
  - destruct (Hardware (hs_Summary h)) as [ hw | ].
    + left. eexists. split; [ reflexivity | discriminate ].
    + right. auto.
  - destruct (Hardware (hs_Summary h)) as [ hw | ].
    + left. eexists. split; [ reflexivity | discriminate ].
    + right. auto.
  - left. exists e. split; [ reflexivity | intros [E | E]; contradiction ].
Qed.

(** The loop over the hosts makes no call; it yields a resource or stops
    at a nil dereference. *)
Lemma scan_hosts_shape cmd hss e :
  exists rest r,
    scan_hosts cmd hss e = (rest, r)
    /\ network rest = []
    /\ (r = inr Panicked \/ exists e', r = inl e').
Proof.
  revert e. induction hss as [ | h hss IH ]; intros e; cbn [scan_hosts].
  - exists [], (inl e). repeat split. right. eauto.
  - unfold Println. rewrite bind_emit.
    destruct (host_switch_cases cmd e h) as [(e' & -> & _) | (-> & _)].
    + rewrite bind_ret.
      destruct (IH e') as (rest & r & -> & Hn & Hr).
      exists (Stdout (Fmt.println [hs_Name h]) :: rest), r.
      repeat split; assumption.
    + unfold panic. rewrite bind_halt.
      exists [Stdout (Fmt.println [hs_Name h])], (inr Panicked).
      repeat split. left. reflexivity.
Qed.


(** The enumeration yields a resource, ends the process with code 1 or
    stops at a nil dereference; [Retrieve] is its only call. *)
Lemma select_shape w o kind v :
  exists rest r,
    select w o kind v = (Retrieve [kind] ["name"; "summary"] :: rest, r)
    /\ network rest = []
    /\ (r = inr (Exited 1) \/ r = inr Panicked \/ exists e, r = inl e).
Proof.
  unfold select.
  destruct (String.eqb (command o) "VMFS").
  - rewrite bind_emit.
    destruct (view_Retrieve_datastores w v [kind] ["name"; "summary"])
      as [ err | dss ].
    + exists [Stderr err], (inr (Exited 1)). repeat split. left. reflexivity.
    + rewrite scan_datastores_eq, bind_value. cbn [fst snd].
      destruct (String.eqb (name _) EmptyString).
      * unfold Printf. rewrite bind_emit. cbn [fst snd os_Exit].
        eexists. exists (inr (Exited 1)).
        split; [ reflexivity | split; [ | left; reflexivity ] ].
        rewrite network_app, network_datastore_lines. reflexivity.
      * cbn [fst snd ret]. rewrite app_nil_r.
        eexists. eexists.
        split; [ reflexivity | split; [ | right; right; eexists; reflexivity ] ].
        apply network_datastore_lines.
  - rewrite bind_emit.
    destruct (view_Retrieve_hosts w v [kind] ["name"; "summary"])
      as [ err | hss ].
    + exists [Stderr err], (inr (Exited 1)). repeat split. left. reflexivity.
    + destruct (scan_hosts_shape (command o) hss resource_zero)
        as (rest & r & -> & Hn & Hr).
      exists rest, r. cbn [fst snd]. repeat split; [ exact Hn | ].
      right. exact Hr.
Qed.


(** How the part of [main] under the deferred [Destroy] ends. *)
Lemma body_snd (m : M resource) :
  snd (defer Destroy (e <- m ;; report e))
  = match snd m with
    | inl _ => inl tt
    | inr h => inr h
    end.
Proof. destruct m as [t [ e | [ c | ] ]]; reflexivity. Qed.

(** The part of [main] under the deferred [Destroy]. *)
Lemma body_shape w o kind v :
  let body := defer Destroy (e <- select w o kind v ;; report e) in
  (network (fst body) = [Retrieve [kind] ["name"; "summary"]]
   /\ snd body = inr (Exited 1))
  \/ (network (fst body) = [Retrieve [kind] ["name"; "summary"]; Destroy]
      /\ (snd body = inl tt \/ snd body = inr Panicked)).
Proof.
  destruct (select_shape w o kind v) as (rest & r & -> & Hn & [-> | [-> | [e ->]]]).
  - left. rewrite bind_halt. cbn [defer fst snd network filter is_network].
    fold (network rest). rewrite Hn. auto.
  - right. rewrite bind_halt. cbn [defer fst snd app network filter is_network].
    fold (network (rest ++ [Destroy])).
    rewrite network_app, Hn. auto.
  - right. rewrite bind_value, report_eq.
    cbn [defer fst snd app network filter is_network].
    fold (network ((rest ++ [Stdout (Fmt.println [name e]); Stdout (summary_line e)])
                     ++ [Destroy])).
    rewrite !network_app, Hn. auto.
Qed.

(** Every run is one of eight: its calls are an initial segment of the
    four of a session, and the way it ends goes with how far it came. *)
Lemma run_outcomes w o :
  let calls := session_calls (shown_url w o) (command_kind o) in
  In (session_outcome w o)
     [([], Exited 1); ([], Exited 2); ([], Panicked);
      (firstn 1 calls, Exited 1); (firstn 2 calls, Exited 1);
      (firstn 3 calls, Exited 1); (calls, Exited 0); (calls, Panicked)].
Proof.
  unfold session_outcome, run, outcome, after_parse, command_kind, shown_url.
  destruct (checkRequiredOptions o) as [ err | ].
  { left. reflexivity. }
  rewrite bind_ret.
  destruct (lookup (command o) commandChoices) as [ kind | ].
  2: { right. left. reflexivity. }
  destruct (String.eqb (command o) "VMFS" && String.eqb (datastore o) EmptyString).
  { right. left. reflexivity. }
  unfold after_echo, session, urlCheck, Println. run_steps.
  destruct (url_Parse w (urlCheck_value (hostname o))) as [ u | ].
  2: { right. right. left. reflexivity. }
  run_steps.
  destruct (govmomi_NewClient w _) as [ err | c ].
  { do 3 right. left. reflexivity. }
  run_steps.
  destruct (view_CreateContainerView w c [kind]) as [ err | v ].
  { do 4 right. left. reflexivity. }
  cbn [or_default session_calls firstn].
  destruct (body_shape w o kind v) as [[Hn Hs] | [Hn [Hs | Hs]]];
    cbv zeta in Hn, Hs; rewrite Hs;
    cbn [network filter is_network fst snd];
    fold (network (fst (defer Destroy (e <- select w o kind v;; report e))));
    rewrite Hn.
  - do 5 right. left. reflexivity.
  - do 6 right. left. reflexivity.
  - do 7 right. left. reflexivity.
Qed.

(** How a run ends, branch by branch; only the last branch depends on the
    enumeration. *)
Lemma run_end w o :
  snd (run w o)
  = match checkRequiredOptions o with
    | Some _ => Exited 1
    | None =>
        match lookup (command o) commandChoices with
        | None => Exited 2
        | Some kind =>
            if String.eqb (command o) "VMFS"
               && String.eqb (datastore o) EmptyString
            then Exited 2
            else
              match url_Parse w (urlCheck_value (hostname o)) with
              | None => Panicked
              | Some u =>
                  match govmomi_NewClient w
                          (url_UserPassword w u (username o) (password o)) with
                  | inl _ => Exited 1
                  | inr c =>
                      match view_CreateContainerView w c [kind] with
                      | inl _ => Exited 1
                      | inr v =>
                          match snd (select w o kind v) with
                          | inl _ => Exited 0
                          | inr h => h
                          end
                      end
                  end
              end
        end
    end.
Proof.
  unfold run, outcome, after_parse.
  destruct (checkRequiredOptions o) as [ err | ]; [ reflexivity | ].
  rewrite bind_ret.
  destruct (lookup (command o) commandChoices) as [ kind | ]; [ | reflexivity ].
  destruct (String.eqb (command o) "VMFS" && String.eqb (datastore o) EmptyString);
    [ reflexivity | ].
  unfold after_echo, session, urlCheck, Println. run_steps.
  destruct (url_Parse w (urlCheck_value (hostname o))) as [ u | ]; [ | reflexivity ].
  run_steps.
  destruct (govmomi_NewClient w _) as [ err | c ]; [ reflexivity | ].
  run_steps.
  destruct (view_CreateContainerView w c [kind]) as [ err | v ]; [ reflexivity | ].
  cbn [snd]. rewrite body_snd.
  destruct (snd (select w o kind v)) as [ e | h ]; reflexivity.
Qed.

Lemma run_ends w o :
  exists r,
    (r = Exited 0 \/ r = Exited 1 \/ r = Panicked)
    /\ snd (run w o)
       = match checkRequiredOptions o with
         | Some _ => Exited 1
         | None =>
             match lookup (command o) commandChoices with
             | None => Exited 2
             | Some _ =>
                 if String.eqb (command o) "VMFS"
                    && String.eqb (datastore o) EmptyString
                 then Exited 2
                 else match url_Parse w (urlCheck_value (hostname o)) with
                      | None => Panicked
                      | Some _ => r
                      end
             end
         end.
Proof.
  rewrite run_end.
  destruct (checkRequiredOptions o) as [ err | ]; [ exists (Exited 0); auto | ].
  destruct (lookup (command o) commandChoices) as [ kind | ];
    [ | exists (Exited 0); auto ].
  destruct (String.eqb (command o) "VMFS" && String.eqb (datastore o) EmptyString);
    [ exists (Exited 0); auto | ].
  destruct (url_Parse w (urlCheck_value (hostname o))) as [ u | ];
    [ | exists (Exited 0); auto ].
  destruct (govmomi_NewClient w _) as [ err | c ]; [ exists (Exited 1); auto | ].
  destruct (view_CreateContainerView w c [kind]) as [ err | v ];
    [ exists (Exited 1); auto | ].
  destruct (select_shape w o kind v) as (rest & r & -> & _ & [-> | [-> | [e ->]]]);
    cbn [snd]; eexists; (split; [ | reflexivity ]); auto.
Qed.

Lemma run_exit_codes w o :
  (snd (run w o) = Exited 0 \/ snd (run w o) = Exited 1
   \/ snd (run w o) = Exited 2 \/ snd (run w o) = Panicked)
  /\ (snd (run w o) = Exited 2
      <-> checkRequiredOptions o = None
          /\ (lookup (command o) commandChoices = None
              \/ (command o = "VMFS" /\ datastore o = EmptyString))).
Proof.
  destruct (run_ends w o) as (r & Hr & ->).
  destruct (checkRequiredOptions o) as [ err | ].
  { split; [ auto | ]. split; [ discriminate | intros [H _]; discriminate ]. }
  destruct (lookup (command o) commandChoices) as [ kind | ] eqn:Hk.
  2: { split; [ auto | ]. split; auto. }
  destruct (String.eqb_spec (command o) "VMFS") as [Hc | Hc];
    destruct (String.eqb_spec (datastore o) EmptyString) as [Hd | Hd];
    cbn [andb].
  1: { split; [ auto | ]. split; auto. }
  all: destruct (url_Parse w (urlCheck_value (hostname o)));
    [ destruct Hr as [-> | [-> | ->]] | ];
    (split; [ auto | ]);
    (split; [ discriminate | ]);
    intros [_ [H | [H1 H2]]]; congruence.
Qed.

(** X2.  Provided the calls into the session return, the process ends by
    returning from [main] (exit code 0), through [os.Exit] with code 0, 1 or
    2, or in a panic.  It ends through [os.Exit(2)] exactly when
    [pflag.Parse] refuses the arguments, or accepts them and, the required
    options being present, the command is not a key of [commandChoices] or
    is VMFS with an empty datastore name. *)
Theorem exit_codes w args :
  (snd (process w args) = Exited 0 \/ snd (process w args) = Exited 1
   \/ snd (process w args) = Exited 2 \/ snd (process w args) = Panicked)
  /\ (snd (process w args) = Exited 2
      <-> (exists printed, pflag_Parse w args = BadFlag printed)
          \/ exists a,
               pflag_Parse w args = Parsed a
               /\ checkRequiredOptions (parse a) = None
               /\ (lookup (command (parse a)) commandChoices = None
                   \/ (command (parse a) = "VMFS"
                       /\ datastore (parse a) = EmptyString))).
Proof.
  unfold process, main.
  destruct (pflag_Parse w args) as [ a | printed | printed ].
  - fold (run w (parse a)).
    destruct (run_exit_codes w (parse a)) as [Hcodes Htwo].
    split; [ exact Hcodes | ]. rewrite Htwo. split.
    + intros H. right. exists a. split; [ reflexivity | exact H ].
    + intros [(printed & H) | (a' & E & H)]; [ discriminate | ].
      injection E as <-. exact H.
  - cbn [outcome snd]. split; [ auto | ]. split; [ | reflexivity ].
    intros _. left. exists printed. reflexivity.
  - cbn [outcome snd]. split; [ auto | ].
    split; [ discriminate | ].
    intros [(p & H) | (a & H & _)]; discriminate.
Qed.








Lemma exit_is_2_without_calls w o :
  lookup (command o) commandChoices = None ->
  network (fst (run w o)) = [] /\ (checkRequiredOptions o = None -> snd (run w o) = Exited 2).
Proof.
  intros Hk. unfold run, outcome, after_parse. rewrite Hk.
  destruct (checkRequiredOptions o); split; try reflexivity; discriminate.
Qed.

(** X5.  The calls into the session are always an initial segment of
    NewClient, CreateContainerView, Retrieve, Destroy, each made once, on
    the URL that was printed; from the view on, the kind asked for is
    Datastore for VMFS and HostSystem otherwise. *)
Theorem session_calls_in_order w o :
  exists n,
    network (fst (run w o))
    = firstn n (session_calls (shown_url w o) (command_kind o))
    /\ ((2 <= n)%nat ->
        command_kind o = if String.eqb (command o) "VMFS"
                         then "Datastore" else "HostSystem").
Proof.
  pose proof (run_outcomes w o) as Ho. cbv zeta in Ho.
  unfold session_outcome in Ho.
  assert (Hkind : network (fst (run w o)) <> [] ->
                  command_kind o = if String.eqb (command o) "VMFS"
                                   then "Datastore" else "HostSystem").
  { intros Hne. unfold command_kind.
    destruct (lookup (command o) commandChoices) as [ kind | ] eqn:Hk.
    - cbn [lookup commandChoices] in Hk. cbn [or_default].
      destruct (String.eqb_spec (command o) "MEM") as [E | _];
        [ rewrite E; injection Hk as <-; reflexivity | ].
      destruct (String.eqb_spec (command o) "CPU") as [E | _];
        [ rewrite E; injection Hk as <-; reflexivity | ].
      destruct (String.eqb (command o) "VMFS"); congruence.
    - exfalso. apply Hne.
      destruct (exit_is_2_without_calls w o Hk) as [H _]. exact H. }
  cbn [In] in Ho.
  destruct Ho as [Ho | [Ho | [Ho | [Ho | [Ho | [Ho | [Ho | [Ho | []]]]]]]]];
    injection Ho as Hn _.
  - exists 0%nat. split; [ auto | lia ].
  - exists 0%nat. split; [ auto | lia ].
  - exists 0%nat. split; [ auto | lia ].
  - exists 1%nat. split; [ auto | lia ].
  - exists 2%nat. split; [ auto | ]. intros _. apply Hkind. rewrite <- Hn. discriminate.
  - exists 3%nat. split; [ auto | ]. intros _. apply Hkind. rewrite <- Hn. discriminate.
  - exists 4%nat. split; [ auto | ]. intros _. apply Hkind. rewrite <- Hn. discriminate.
  - exists 4%nat. split; [ auto | ]. intros _. apply Hkind. rewrite <- Hn. discriminate.
Qed.

Lemma run_stdout_empty w o :
  stdout (fst (run w o)) = [] <-> checkRequiredOptions o <> None.
Proof.
  unfold run, outcome, after_parse.
  destruct (checkRequiredOptions o) as [ err | ].
  { split; [ discriminate | reflexivity ]. }
  rewrite bind_ret.
  split; [ | intros H; contradiction ].
  destruct (lookup (command o) commandChoices) as [ kind | ];
    [ | discriminate ].
  destruct (String.eqb (command o) "VMFS" && String.eqb (datastore o) EmptyString);
    [ discriminate | ].
  rewrite bind_ret, bind_emit.
  destruct (after_echo w o kind) as [t [ [] | h ]]; discriminate.
Qed.

(** X1.  How the process ends before it prints anything of its own.  When
    [pflag.Parse] refuses the arguments the process ends inside it, with
    what pflag printed and code 2 (code 0 for [--help]), and
    [checkRequiredOptions] is never reached.  When it returns and a
    required option is missing, the process consists of the usage, the
    error on standard error and exit code 1; and among the runs in which
    [pflag.Parse] returns, standard output stays empty in exactly these. *)
Theorem missing_option_run w args :
  match pflag_Parse w args with
  | Parsed a =>
      (forall err, checkRequiredOptions (parse a) = Some err ->
                   process w args = ([Usage; Stderr err], Exited 1))
      /\ (stdout (fst (process w args)) = []
          <-> checkRequiredOptions (parse a) <> None)
  | BadFlag printed => process w args = (printed, Exited 2)
  | HelpRequested printed => process w args = (printed, Exited 0)
  end.
Proof.
  unfold process, main.
  destruct (pflag_Parse w args) as [ a | printed | printed ];
    [ | reflexivity | reflexivity ].
  fold (run w (parse a)). split.
  - intros err Hc. unfold run, outcome, after_parse. rewrite Hc. reflexivity.
  - apply run_stdout_empty.
Qed.

(** X6.  When [govmomi.NewClient] fails, the run ends right after that
    call with its error and exit code 1; when the client is there and
    [CreateContainerView] fails, right after that call, likewise. *)
Theorem connection_errors_are_fatal w o kind u :
  checkRequiredOptions o = None ->
  lookup (command o) commandChoices = Some kind ->
  String.eqb (command o) "VMFS" && String.eqb (datastore o) EmptyString = false ->
  url_Parse w (urlCheck_value (hostname o)) = Some u ->
  (forall err,
      govmomi_NewClient w (url_UserPassword w u (username o) (password o))
      = inl err ->
      run w o = ((until_connect w o ++ [Stderr err])%list, Exited 1))
  /\ (forall c err,
         govmomi_NewClient w (url_UserPassword w u (username o) (password o))
         = inr c ->
         view_CreateContainerView w c [kind] = inl err ->
         run w o
         = ((until_connect w o ++ [CreateContainerView [kind]; Stderr err])%list,
            Exited 1)).
Proof.
  intros Hc Hk Hv Hu.
  assert (Hhead : until_connect w o
                  = firstn 6 (preamble w o kind)).
  { unfold until_connect, command_kind. rewrite Hk. reflexivity. }
  split.
  - intros err Hn. unfold run, outcome, after_parse.
    rewrite Hc, bind_ret, Hk, Hv.
    unfold after_echo, session, urlCheck, Println. run_steps.
    rewrite Hu. run_steps. rewrite Hn. run_steps.
    rewrite Hhead. unfold preamble. rewrite Hu. reflexivity.
  - intros c err Hn Hcv. unfold run, outcome, after_parse.
    rewrite Hc, bind_ret, Hk, Hv.
    unfold after_echo, session, urlCheck, Println. run_steps.
    rewrite Hu. run_steps. rewrite Hn. run_steps. rewrite Hcv. run_steps.
    rewrite Hhead. unfold preamble. rewrite Hu. reflexivity.
Qed.

(** X7.  When [Retrieve] fails, for either kind of object, the run ends
    with its error and exit code 1 after the events that lead to the
    enumeration: no object and no summary is printed. *)
Theorem retrieve_errors_are_fatal w o kind v err :
  checkRequiredOptions o = None ->
  lookup (command o) commandChoices = Some kind ->
  String.eqb (command o) "VMFS" && String.eqb (datastore o) EmptyString = false ->
  session_up w o kind v ->
  (if String.eqb (command o) "VMFS"
   then view_Retrieve_datastores w v [kind] ["name"; "summary"] = inl err
   else view_Retrieve_hosts w v [kind] ["name"; "summary"] = inl err) ->
  run w o
  = ((preamble w o kind
        ++ [Retrieve [kind] ["name"; "summary"]; Stderr err])%list,
     Exited 1)
  /\ stdout (fst (run w o)) = stdout (preamble w o kind).
Proof.
  intros Hc Hk Hv Hup Hr.
  assert (Hsel : select w o kind v
                 = ([Retrieve [kind] ["name"; "summary"]; Stderr err],
                    inr (Exited 1))).
  { unfold select. destruct (String.eqb (command o) "VMFS");
      rewrite bind_emit, Hr; reflexivity. }
  assert (Hrun : run w o
                 = ((preamble w o kind
                       ++ [Retrieve [kind] ["name"; "summary"]; Stderr err])%list,
                    Exited 1)).
  { unfold run, outcome. rewrite (main_session w o kind v Hc Hk Hv Hup), Hsel.
    reflexivity. }
  split; [ exact Hrun | ].
  rewrite Hrun. cbn [fst]. unfold preamble. reflexivity.
Qed.

Lemma string_app_assoc (a b c : string) : (a ++ b) ++ c = a ++ (b ++ c).
Proof. induction a as [ | x a IH ]; simpl; [ reflexivity | now rewrite IH ]. Qed.

Lemma echo_line_contains_password o : contains (password o) (echo_line o).
Proof.
  exists (hostname o ++ " " ++ username o ++ " "),
         (" " ++ command o ++ " " ++ Fmt.itoa (warning o) ++ " "
              ++ Fmt.itoa (critical o) ++ " " ++ datastore o ++ Fmt.nl).
  unfold echo_line, Fmt.println. cbn [String.concat].
  rewrite !string_app_assoc. reflexivity.
Qed.

(** X8.  Every run that gets past the option checks starts by writing a
    line to standard output that contains the password, which is not
    empty there. *)
Theorem password_is_echoed w o :
  checkRequiredOptions o = None ->
  lookup (command o) commandChoices <> None ->
  (command o = "VMFS" -> datastore o <> EmptyString) ->
  exists line t,
    fst (run w o) = Stdout line :: t /\ contains (password o) line
    /\ password o <> EmptyString.
Proof.
  intros Hc Hk Hv.
  exists (echo_line o).
  assert (Hp : password o <> EmptyString).
  { unfold checkRequiredOptions in Hc.
    destruct (String.eqb (hostname o) EmptyString); [ discriminate | ].
    destruct (warning o =? 0); [ discriminate | ].
    destruct (critical o =? 0); [ discriminate | ].
    destruct (String.eqb (username o) EmptyString); [ discriminate | ].
    destruct (String.eqb_spec (password o) EmptyString); [ discriminate | assumption ]. }
  unfold run, outcome, after_parse. rewrite Hc, bind_ret.
  destruct (lookup (command o) commandChoices) as [ kind | ]; [ | contradiction ].
  assert (Hv' : String.eqb (command o) "VMFS"
                && String.eqb (datastore o) EmptyString = false).
  { destruct (String.eqb_spec (command o) "VMFS") as [E | _]; [ | reflexivity ].
    destruct (String.eqb_spec (datastore o) EmptyString) as [E' | _];
      [ exfalso; exact (Hv E E') | reflexivity ]. }
  rewrite Hv', bind_ret, bind_emit.
  destruct (after_echo w o kind) as [t [ [] | h ]]; cbn [fst snd];
    exists t; (split; [ reflexivity | split; [ apply echo_line_contains_password | exact Hp ] ]).
Qed.

Lemma select_without_datastore w o s kind v :
  String.eqb (command o) "VMFS" = false ->
  select w (with_datastore o s) kind v = select w o kind v.
Proof.
  intros Hc. unfold select. cbn [command with_datastore]. rewrite Hc. reflexivity.
Qed.

Lemma after_echo_without_datastore w o s kind :
  String.eqb (command o) "VMFS" = false ->
  after_echo w (with_datastore o s) kind = after_echo w o kind.
Proof.
  intros Hc. unfold after_echo, session, urlCheck, Println.
  cbn [hostname username password with_datastore]. run_steps.
  destruct (url_Parse w (urlCheck_value (hostname o))) as [ u | ]; [ | reflexivity ].
  run_steps.
  destruct (govmomi_NewClient w _) as [ err | c ]; [ reflexivity | ].
  run_steps.
  destruct (view_CreateContainerView w c [kind]) as [ err | v ]; [ reflexivity | ].
  rewrite (select_without_datastore w o s kind v Hc). reflexivity.
Qed.

(** X9.  For the CPU and MEM commands the datastore name is not used: two
    runs that differ only in it end the same way and have the same events,
    but for the line that echoes the options. *)
Theorem datastore_flag_ignored_for_hosts w o s1 s2 :
  command o = "CPU" \/ command o = "MEM" ->
  let o1 := with_datastore o s1 in
  let o2 := with_datastore o s2 in
  snd (run w o1) = snd (run w o2)
  /\ (run w o1 = run w o2
      \/ exists t,
           fst (run w o1) = Stdout (echo_line o1) :: t
           /\ fst (run w o2) = Stdout (echo_line o2) :: t).
Proof.
  intros Hcmd o1 o2.
  destruct (lookup_hosts _ Hcmd) as [Hk Hv].
  assert (Hshape : forall s,
             run w (with_datastore o s)
             = match checkRequiredOptions o with
               | Some err => ([Usage; Stderr err], Exited 1)
               | None =>
                   (Stdout (echo_line (with_datastore o s))
                      :: fst (after_echo w o "HostSystem"),
                    match snd (after_echo w o "HostSystem") with
                    | inl _ => Exited 0
                    | inr h => h
                    end)
               end).
  { intros s. unfold run, outcome, after_parse.
    change (checkRequiredOptions (with_datastore o s))
      with (checkRequiredOptions o).
    destruct (checkRequiredOptions o) as [ err | ]; [ reflexivity | ].
    rewrite bind_ret.
    change (command (with_datastore o s)) with (command o).
    rewrite Hk, Hv. cbn [andb]. rewrite bind_ret, bind_emit.
    rewrite (after_echo_without_datastore w o s _ Hv).
    destruct (after_echo w o "HostSystem") as [t [ [] | h ]]; reflexivity. }
  unfold o1, o2. rewrite !Hshape.
  destruct (checkRequiredOptions o) as [ err | ].
  - split; [ reflexivity | left; reflexivity ].
  - split; [ reflexivity | right ]. eexists. split; reflexivity.
Qed.

Lemma no_newline_app a b :
  Regexp.no_newline (a ++ b) = Regexp.no_newline a && Regexp.no_newline b.
Proof.
  induction a as [ | c a IH ]; cbn [append Regexp.no_newline].
  - reflexivity.
  - rewrite IH. apply andb_assoc.
Qed.

Lemma match_needs_no_newline h :
  Regexp.MatchString url_pattern h = true -> Regexp.no_newline h = true.
Proof.
  intros H. apply url_pattern_spec in H as (a & b & -> & Ha & Hb).
  rewrite !no_newline_app, Ha, Hb. reflexivity.
Qed.

Lemma wrapped_matches h :
  Regexp.no_newline h = true ->
  Regexp.MatchString url_pattern ("https://" ++ h ++ "/sdk") = true.
Proof.
  intros Hh. apply url_pattern_spec.
  exists "https", (h ++ "/sdk"). split; [ reflexivity | ].
  split; [ reflexivity | ]. rewrite no_newline_app, Hh. reflexivity.
Qed.

(** X10.  On a string without a newline the result of [urlCheck] matches
    its pattern, so a second [urlCheck] changes nothing. *)
Theorem urlCheck_settles h :
  Regexp.no_newline h = true ->
  Regexp.MatchString url_pattern (urlCheck_value h) = true
  /\ urlCheck_value (urlCheck_value h) = urlCheck_value h.
Proof.
  intros Hh.
  assert (Hm : Regexp.MatchString url_pattern (urlCheck_value h) = true).
  { unfold urlCheck_value.
    destruct (Regexp.MatchString url_pattern h) eqn:E; cbn [negb].
    - exact E.
    - apply wrapped_matches. exact Hh. }
  split; [ exact Hm | ].
  unfold urlCheck_value at 1. rewrite Hm. reflexivity.
Qed.

(** X11.  A string with a newline in it never matches, scheme or not: it
    is wrapped, the result has the newline still, and every further
    [urlCheck] wraps again. *)
Theorem urlCheck_newline_never_settles h :
  Regexp.no_newline h = false ->
  urlCheck_value h = "https://" ++ h ++ "/sdk"
  /\ Regexp.no_newline (urlCheck_value h) = false
  /\ urlCheck_value (urlCheck_value h) <> urlCheck_value h.
Proof.
  intros Hh.
  assert (Hno : forall s, Regexp.no_newline s = false ->
                          urlCheck_value s = "https://" ++ s ++ "/sdk").
  { intros s Hs. unfold urlCheck_value.
    destruct (Regexp.MatchString url_pattern s) eqn:E; [ | reflexivity ].
    apply match_needs_no_newline in E. congruence. }
  assert (Hw : Regexp.no_newline ("https://" ++ h ++ "/sdk") = false).
  { rewrite !no_newline_app, Hh. reflexivity. }
  rewrite (Hno h Hh). split; [ reflexivity | split; [ exact Hw | ] ].
  rewrite (Hno _ Hw). apply wrapped_differs.
Qed.

Lemma lookup_in_keys k m : lookup k m <> None <-> In k (map fst m).
Proof.
  induction m as [ | [k' v] m IH ]; cbn [lookup map fst In].
  - split; [ intros H; contradiction | intros [] ].
  - destruct (String.eqb_spec k k') as [-> | Hne].
    + split; [ auto | discriminate ].
    + rewrite IH. split; [ auto | intros [E | H]; [ congruence | exact H ] ].
Qed.

(** X12.  [getKeys] returns the keys of the map and nothing else: a string
    is among them exactly when looking it up succeeds, there are as many as
    entries, and none is repeated when the map has no repeated key. *)
Theorem getKeys_are_the_keys w m :
  (forall k, In k (getKeys w m) <-> lookup k m <> None)
  /\ List.length (getKeys w m) = List.length m
  /\ (NoDup (map fst m) -> NoDup (getKeys w m)).
Proof.
  assert (Hp : Permutation (getKeys w m) (map fst m))
    by (apply Permutation_map, range_order_perm).
  split; [ | split ].
  - intros k. rewrite lookup_in_keys. split; apply Permutation_in.
    + exact Hp.
    + apply Permutation_sym. exact Hp.
  - rewrite (Permutation_length Hp). apply length_map.
  - intros Hn. apply (Permutation_NoDup (Permutation_sym Hp) Hn).
Qed.

Lemma or_default_given x :
  String.eqb (or_default EmptyString x) EmptyString = false <-> given x.
Proof.
  unfold given. destruct x as [ s | ]; cbn [or_default].
  - destruct (String.eqb_spec s EmptyString) as [-> | Hne].
    + split; [ discriminate | intros (s' & E & Hs); congruence ].
    + split; [ intros _; exists s; auto | reflexivity ].
  - split; [ discriminate | intros (s & E & _); discriminate ].
Qed.

Lemma or_default_nonzero d x :
  d <> 0 -> (or_default d x =? 0) = false <-> x <> Some 0.
Proof.
  intros Hd. destruct x as [ n | ]; cbn [or_default].
  - rewrite Z.eqb_neq. split; congruence.
  - apply Z.eqb_neq in Hd. rewrite Hd. split; [ discriminate | reflexivity ].
Qed.

Lemma parse_accepted a :
  checkRequiredOptions (parse a) = None
  <-> given (arg_hostname a) /\ given (arg_username a)
      /\ given (arg_password a) /\ given (arg_command a)
      /\ arg_warning a <> Some 0 /\ arg_critical a <> Some 0.
Proof.
  rewrite <- !or_default_given.
  rewrite <- (or_default_nonzero 85 (arg_warning a)) by discriminate.
  rewrite <- (or_default_nonzero 90 (arg_critical a)) by discriminate.
  unfold checkRequiredOptions, parse.
  cbn [hostname username password command warning critical].
  destruct (String.eqb (or_default EmptyString (arg_hostname a)) EmptyString);
    [ split; [ discriminate | intros (H & _); discriminate ] | ].
  destruct (or_default 85 (arg_warning a) =? 0);
    [ split; [ discriminate | intros (_ & _ & _ & _ & H & _); discriminate ] | ].
  destruct (or_default 90 (arg_critical a) =? 0);
    [ split; [ discriminate | intros (_ & _ & _ & _ & _ & H); discriminate ] | ].
  destruct (String.eqb (or_default EmptyString (arg_username a)) EmptyString);
    [ split; [ discriminate | intros (_ & H & _); discriminate ] | ].
  destruct (String.eqb (or_default EmptyString (arg_password a)) EmptyString);
    [ split; [ discriminate | intros (_ & _ & H & _); discriminate ] | ].
  destruct (String.eqb (or_default EmptyString (arg_command a)) EmptyString);
    [ split; [ discriminate | intros (_ & _ & _ & H & _); discriminate ] | ].
  split; [ auto 10 | reflexivity ].
Qed.

(** X13.  The arguments of the process get past [pflag.Parse] and
    [checkRequiredOptions] exactly when pflag accepts them and, among the
    flags it found, hostname, username, password and command are given and
    not empty and neither threshold is given as 0.  A threshold that is
    given is stored as it is; one that is left out holds the default of
    [init], 85 for warning and 90 for critical, and so passes. *)
Theorem accepted_command_lines w args :
  ((exists a, pflag_Parse w args = Parsed a
              /\ checkRequiredOptions (parse a) = None)
   <-> exists a, pflag_Parse w args = Parsed a
                 /\ given (arg_hostname a) /\ given (arg_username a)
                 /\ given (arg_password a) /\ given (arg_command a)
                 /\ arg_warning a <> Some 0 /\ arg_critical a <> Some 0)
  /\ (forall a, pflag_Parse w args = Parsed a ->
         (arg_warning a = None -> warning (parse a) = 85)
         /\ (arg_critical a = None -> critical (parse a) = 90)
         /\ (forall n, arg_warning a = Some n -> warning (parse a) = n)
         /\ (forall n, arg_critical a = Some n -> critical (parse a) = n)).
Proof.
  split.
  - split; intros (a & Hp & H); exists a; (split; [ exact Hp | ]);
      apply parse_accepted; exact H.
  - intros a _. unfold parse. cbn [warning critical].
    repeat split; intros; subst; try reflexivity;
      match goal with H : _ = _ |- _ => rewrite H; reflexivity end.
Qed.

(** X19.  With the session up and the datastores enumerated, a VMFS run
    ends with code 1 exactly when no [Name] equals the target or the first
    that does has an empty [Summary.Name], and with code 0 exactly when the
    first that does has a [Summary.Name]. *)
Theorem not_found_iff w o v dss :
  checkRequiredOptions o = None -> command o = "VMFS" ->
  datastore o <> EmptyString ->
  session_up w o "Datastore" v ->
  view_Retrieve_datastores w v ["Datastore"] ["name"; "summary"] = inr dss ->
  (snd (run w o) = Exited 1
   <-> match find (name_is (datastore o)) dss with
       | Some d => dss_Name (ds_Summary d) = EmptyString
       | None => True
       end)
  /\ (snd (run w o) = Exited 0
      <-> exists d,
            find (name_is (datastore o)) dss = Some d
            /\ dss_Name (ds_Summary d) <> EmptyString).
Proof.
  intros Hc Hcmd Hds Hup Hr.
  unfold run, outcome.
  rewrite (main_datastores w o v Hc Hcmd Hds Hup).
  rewrite (select_datastores w o v dss Hcmd Hr). cbv zeta.
  destruct (find (name_is (datastore o)) dss) as [ d | ].
  - cbn [datastoreStats name].
    destruct (String.eqb_spec (dss_Name (ds_Summary d)) EmptyString) as [E | E].
    + rewrite bind_halt. cbn [defer snd]. split.
      * split; [ intros _; exact E | reflexivity ].
      * split; [ discriminate | intros (d' & Hd & Hn); congruence ].
    + rewrite bind_value, report_eq. cbn [defer snd]. split.
      * split; [ discriminate | intros H; contradiction ].
      * split; [ intros _; exists d; auto | reflexivity ].
  - cbn [resource_zero name String.eqb].
    rewrite bind_halt. cbn [defer snd]. split.
    + split; [ auto | reflexivity ].
    + split; [ discriminate | intros (d' & Hd & _); discriminate ].
Qed.

(** ** The percentage at the edges *)

Module PercentFacts.
Import F64 F64Facts MetricFacts.

Lemma div_self s m e :
  div (S754_finite s m e) (S754_finite s m e)
  = S754_finite false 4503599627370496 (- 52).
Proof.
  unfold div. cbn [SFdiv]. unfold SFdiv_core_binary.
  replace (Zdigits2 (Zpos m) + e - (Zdigits2 (Zpos m) + e)) with 0 by lia.
  replace (e - e) with 0 by lia.
  change (Z.min (fexp prec emax 0) 0) with (- 53).
  change (0 - - 53) with 53.
  rewrite Z.shiftl_mul_pow2 by lia.
  destruct (Z.div_eucl (Zpos m * 2 ^ 53) (Zpos m)) as [q r] eqn:E.
  assert (Hq : q = 2 ^ 53).
  { change q with (fst (q, r)). rewrite <- E.
    change (fst (Z.div_eucl ?a ?b)) with (a / b).
    rewrite Z.mul_comm. apply Z.div_mul. lia. }
  assert (Hr : r = 0).
  { change r with (snd (q, r)). rewrite <- E.
    change (snd (Z.div_eucl ?a ?b)) with (a mod b).
    rewrite Z.mul_comm. apply Z.mod_mul. lia. }
  subst q r. rewrite xorb_nilpotent.
  assert (Hl : new_location (Zpos m) 0 = loc_Exact).
  { unfold new_location. destruct (Z.even (Zpos m)); reflexivity. }
  rewrite Hl. reflexivity.
Qed.

Lemma freePer_equal nm s m e :
  freePer {| name := nm;
             stats := {| total := S754_finite s m e; free := S754_finite s m e |} |}
  = "100.00".
Proof.
  unfold freePer, percent. cbn [stats total free]. rewrite div_self. reflexivity.
Qed.

Lemma repr_nonzero_finite x n j :
  repr x n j -> n <> 0 -> exists m e, x = S754_finite (n <? 0) m e.
Proof.
  unfold repr. intros H Hn.
  destruct (Z.eqb_spec n 0) as [ | _ ]; [ contradiction | ].
  destruct H as [_ ->]. unfold canon. eauto.
Qed.

Lemma repr_zero x j : repr x 0 j -> exists s, x = S754_zero s.
Proof.
  unfold repr. cbn [Z.eqb]. destruct x; try discriminate. eauto.
Qed.

Lemma sub_zero_r x : is_finite x = true -> is_zero x = false -> sub x (of_Z 0) = x.
Proof. destruct x; try discriminate; reflexivity. Qed.

(** X14.  A host with capacity and with no usage reported prints
    ["100.00"], for CPU and for memory. *)
Theorem idle_host_reports_100 h hw :
  host_typed h ->
  Hardware (hs_Summary h) = Some hw ->
  let qs := QuickStats (hs_Summary h) in
  (CpuMhz hw * NumCpuCores hw <> 0 -> OverallCpuUsage qs = 0 ->
   exists r, cpuStats h = ret r /\ freePer r = "100.00")
  /\ (MemorySize hw <> 0 -> Z.abs (MemorySize hw) < 2 ^ 53 ->
      OverallMemoryUsage qs = 0 ->
      exists r, memStats h = ret r /\ freePer r = "100.00").
Proof.
  intros Ht Hhw qs.
  destruct (host_typed_hardware h hw Ht Hhw) as (Thw & _).
  split.
  - intros Hcap Hu.
    eexists. split; [ apply (cpuStats_hardware h hw Hhw) | ].
    destruct (repr_nonzero_finite _ _ _ (cpu_total_repr hw Thw) Hcap)
      as (m & e & Hm).
    unfold freePer, percent. cbn [stats total free]. fold qs.
    rewrite Hu, Hm. rewrite sub_zero_r by reflexivity.
    rewrite div_self. reflexivity.
  - intros Hmem Hfit Hu.
    eexists. split; [ apply (memStats_hardware h hw Hhw) | ].
    destruct (repr_nonzero_finite _ _ _ (mem_total_repr hw Hfit) Hmem)
      as (m & e & Hm).
    unfold freePer, percent. cbn [stats total free]. fold qs.
    rewrite Hu, Hm. rewrite sub_zero_r by reflexivity.
    rewrite div_self. reflexivity.
Qed.

Lemma repr_canon x n j :
  repr x n j -> n <> 0 ->
  digits (Z.to_pos (Z.abs n)) <= prec
  /\ x = canon (n <? 0) (Z.to_pos (Z.abs n)) j.
Proof.
  unfold repr. intros H Hn.
  destruct (Z.eqb_spec n 0) as [ | _ ]; [ contradiction | ].
  destruct H as [[Hd _] ->]. auto.
Qed.

Lemma sub_same x y n j :
  repr x n j -> repr y n j -> n <> 0 -> sub x y = S754_zero false.
Proof.
  intros Hx Hy Hn.
  destruct (repr_canon _ _ _ Hx Hn) as [Hd ->].
  destruct (repr_canon _ _ _ Hy Hn) as [_ ->].
  rewrite sub_canon_normalize by assumption.
  rewrite Z.sub_diag, Z.mul_0_l. reflexivity.
Qed.

(** X15.  A host whose CPU usage equals its capacity, and a datastore with
    no free space, print ["0.00"]. *)
Theorem nothing_free_reports_0 h hw d :
  host_typed h ->
  Hardware (hs_Summary h) = Some hw ->
  let qs := QuickStats (hs_Summary h) in
  (0 < CpuMhz hw * NumCpuCores hw ->
   OverallCpuUsage qs = CpuMhz hw * NumCpuCores hw ->
   exists r, cpuStats h = ret r /\ freePer r = "0.00")
  /\ (0 < Capacity (ds_Summary d) < 2 ^ 53 -> FreeSpace (ds_Summary d) = 0 ->
      freePer (datastoreStats d) = "0.00").
Proof.
  intros Ht Hhw qs.
  destruct (host_typed_hardware h hw Ht Hhw) as (Thw & Tcpu & _).
  split.
  - intros Hcap Hu.
    eexists. split; [ apply (cpuStats_hardware h hw Hhw) | ].
    pose proof (cpu_total_repr hw Thw) as Hx.
    assert (Hy : repr (of_Z (OverallCpuUsage qs)) (CpuMhz hw * NumCpuCores hw) 0).
    { rewrite Hu. apply repr_of_Z. fold qs in Tcpu.
      unfold int32, prec in *. lia. }
    destruct (repr_nonzero_finite _ _ _ Hx ltac:(lia)) as (m & e & Hm).
    unfold freePer, percent. cbn [stats total free]. fold qs.
    rewrite (sub_same _ _ _ _ Hx Hy ltac:(lia)), Hm.
    replace (CpuMhz hw * NumCpuCores hw <? 0) with false
      by (symmetry; apply Z.ltb_ge; lia).
    reflexivity.
  - intros Hcap Hfree.
    assert (Hx : repr (of_Z (Capacity (ds_Summary d))) (Capacity (ds_Summary d)) 0)
      by (apply repr_of_Z; unfold prec; lia).
    destruct (repr_nonzero_finite _ _ _ Hx ltac:(lia)) as (m & e & Hm).
    unfold freePer, percent. cbn [datastoreStats stats total free].
    rewrite Hfree, Hm.
    replace (Capacity (ds_Summary d) <? 0) with false
      by (symmetry; apply Z.ltb_ge; lia).
    reflexivity.
Qed.

(** X16.  A host with no CPU capacity (zero MHz or zero cores) prints
    ["NaN"] when it reports no usage and ["-Inf"] when it reports some. *)
Theorem powerless_host_reports_no_number h hw :
  host_typed h ->
  Hardware (hs_Summary h) = Some hw ->
  let qs := QuickStats (hs_Summary h) in
  0 <= CpuMhz hw -> 0 <= NumCpuCores hw -> CpuMhz hw * NumCpuCores hw = 0 ->
  0 <= OverallCpuUsage qs ->
  exists r,
    cpuStats h = ret r
    /\ freePer r = if OverallCpuUsage qs =? 0 then "NaN" else "-Inf".
Proof.
  intros Ht Hhw qs Hmhz Hcores Hcap Hu.
  destruct (host_typed_hardware h hw Ht Hhw) as ((_ & Tmhz & Tcores) & Tcpu & _).
  fold qs in Tcpu. unfold int32, int16 in *.
  eexists. split; [ apply (cpuStats_hardware h hw Hhw) | ].
  assert (Hpos : forall n, 0 <= n -> Z.abs n < 2 ^ prec ->
                   of_Z n = S754_zero false
                   \/ exists m e, of_Z n = S754_finite false m e).
  { intros n Hn Hfit. destruct (Z.eq_dec n 0) as [-> | Hne].
    - left. reflexivity.
    - right.
      destruct (repr_nonzero_finite _ _ _ (repr_of_Z n Hfit) Hne) as (m & e & Hm).
      replace (n <? 0) with false in Hm by (symmetry; apply Z.ltb_ge; lia).
      eauto. }
  assert (Htot : mul (of_Z (CpuMhz hw)) (of_Z (NumCpuCores hw)) = S754_zero false).
  { assert (Hz : CpuMhz hw = 0 \/ NumCpuCores hw = 0) by lia.
    destruct (Hpos (CpuMhz hw) Hmhz ltac:(unfold prec; lia))
      as [-> | (m1 & e1 & Hm1)];
      destruct (Hpos (NumCpuCores hw) Hcores ltac:(unfold prec; lia))
        as [-> | (m2 & e2 & Hm2)];
      try reflexivity.
    - rewrite Hm2. reflexivity.
    - rewrite Hm1. reflexivity.
    - exfalso. destruct Hz as [Hz | Hz]; rewrite Hz in *; discriminate. }
  unfold freePer, percent. cbn [stats total free]. fold qs.
  rewrite Htot.
  destruct (Hpos (OverallCpuUsage qs) Hu ltac:(unfold prec; lia))
    as [Hz | (m & e & Hm)].
  - rewrite Hz.
    destruct (Z.eqb_spec (OverallCpuUsage qs) 0) as [ | Hne]; [ reflexivity | ].
    exfalso.
    destruct (repr_nonzero_finite _ _ _
                (repr_of_Z (OverallCpuUsage qs) ltac:(unfold prec; lia)) Hne)
      as (m & e & Hm).
    congruence.
  - rewrite Hm.
    destruct (Z.eqb_spec (OverallCpuUsage qs) 0) as [E | _]; [ | reflexivity ].
    rewrite E in Hm. discriminate.
Qed.

Lemma shr_1_nonneg mrs : 0 <= shr_m mrs -> 0 <= shr_m (shr_1 mrs).
Proof.
  destruct mrs as [m r s]. cbn [shr_m]. intros Hm.
  destruct m as [ | p | p ]; [ | destruct p | lia ]; cbn; lia.
Qed.

Lemma iter_shr_nonneg n mrs :
  0 <= shr_m mrs -> 0 <= shr_m (iter_pos shr_1 n mrs).
Proof.
  revert mrs. induction n as [ n IH | n IH | ]; intros mrs Hm; cbn [iter_pos].
  - apply IH, IH, shr_1_nonneg, Hm.
  - apply IH, IH, Hm.
  - apply shr_1_nonneg, Hm.
Qed.

Lemma shr_fexp_nonneg m e l :
  0 <= m -> 0 <= shr_m (fst (shr_fexp prec emax m e l)).
Proof.
  intros Hm. unfold shr_fexp, shr.
  assert (H0 : 0 <= shr_m (shr_record_of_loc m l))
    by (destruct l as [ | [ | | ] ]; exact Hm).
  destruct (fexp prec emax (Zdigits2 m + e) - e); cbn [fst];
    [ exact H0 | apply iter_shr_nonneg; exact H0 | exact H0 ].
Qed.

Lemma round_nearest_even_nonneg m l : 0 <= m -> 0 <= round_nearest_even m l.
Proof.
  intros Hm. unfold round_nearest_even.
  destruct l as [ | [ | | ] ]; try lia. destruct (Z.even m); lia.
Qed.

Lemma binary_round_aux_sign s m e l :
  0 <= m -> has_sign s (binary_round_aux prec emax s m e l).
Proof.
  intros Hm. unfold binary_round_aux.
  pose proof (shr_fexp_nonneg m e l Hm) as H1.
  destruct (shr_fexp prec emax m e l) as [mrs' e']. cbn [fst] in H1.
  pose proof (shr_fexp_nonneg _ e' loc_Exact
                (round_nearest_even_nonneg _ (loc_of_shr_record mrs') H1)) as H2.
  destruct (shr_fexp prec emax _ e' loc_Exact) as [mrs'' e'']. cbn [fst] in H2.
  destruct (shr_m mrs'') as [ | p | p ]; [ reflexivity | | lia ].
  destruct (e'' <=? emax - prec); reflexivity.
Qed.

Lemma mul_sign s1 m1 e1 s2 m2 e2 :
  has_sign (xorb s1 s2) (mul (S754_finite s1 m1 e1) (S754_finite s2 m2 e2)).
Proof. unfold mul. cbn [SFmul]. apply binary_round_aux_sign. lia. Qed.

Lemma div_sign s1 m1 e1 s2 m2 e2 :
  has_sign (xorb s1 s2) (div (S754_finite s1 m1 e1) (S754_finite s2 m2 e2)).
Proof.
  unfold div. cbn [SFdiv]. unfold SFdiv_core_binary.
  set (m' := match _ - _ - _ with Z0 => _ | Zpos _ => _ | Zneg _ => _ end).
  assert (Hm' : 0 <= m').
  { unfold m'. destruct (_ - _ - _); [ lia | | lia ].
    rewrite Z.shiftl_mul_pow2 by lia.
    apply Z.mul_nonneg_nonneg; [ lia | apply Z.pow_nonneg; lia ]. }
  destruct (Z.div_eucl m' (Zpos m2)) as [q r] eqn:E.
  apply binary_round_aux_sign.
  change q with (fst (q, r)). rewrite <- E.
  change (fst (Z.div_eucl ?a ?b)) with (a / b).
  apply Z.div_pos; lia.
Qed.

Lemma percent_sign nm s1 m1 e1 s2 m2 e2 :
  has_sign (xorb s1 s2)
    (percent {| name := nm;
                stats := {| total := S754_finite s2 m2 e2;
                            free := S754_finite s1 m1 e1 |} |}).
Proof.
  unfold percent. cbn [stats total free].
  pose proof (div_sign s1 m1 e1 s2 m2 e2) as Hd.
  change (of_Z 100) with (S754_finite false 7036874417766400 (- 46)).
  destruct (div _ _) as [ s | s | | s m e ]; cbn [has_sign] in Hd;
    try contradiction; subst s.
  - cbn. apply xorb_false_r.
  - cbn. apply xorb_false_r.
  - rewrite <- (xorb_false_r (xorb s1 s2)) at 1. apply mul_sign.
Qed.

Lemma float_f_minus p x :
  has_sign true x -> exists rest, Fmt.float_f p x = String "-" rest.
Proof.
  destruct x as [ s | s | | s m e ]; cbn [has_sign]; intros H;
    try contradiction; subst s; cbn [Fmt.float_f Fmt.fixed append];
    eexists; reflexivity.
Qed.

(** X17.  Nothing is clamped: when the CPU usage is above the capacity,
    free is a negative number and the percentage is printed with a minus
    sign. *)
Theorem overcommitted_host_goes_negative h hw :
  host_typed h ->
  Hardware (hs_Summary h) = Some hw ->
  let qs := QuickStats (hs_Summary h) in
  0 < CpuMhz hw * NumCpuCores hw < OverallCpuUsage qs ->
  exists r,
    cpuStats h = ret r
    /\ (to_Q (free (stats r)) < 0)%Q
    /\ exists rest, freePer r = String "-" rest.
Proof.
  intros Ht Hhw qs Hover.
  destruct (host_typed_hardware h hw Ht Hhw) as (Thw & Tcpu & _).
  pose proof (cpu_total_repr hw Thw) as Hx.
  pose proof (cpu_free_repr hw qs Thw Tcpu) as Hy.
  eexists. split; [ apply (cpuStats_hardware h hw Hhw) | ].
  cbn [stats free]. fold qs.
  split.
  - rewrite (repr_to_Q _ _ _ Hy). change ((2 ^ 0)%Q) with 1%Q.
    rewrite Qmult_1_r. change 0%Q with (inject_Z 0).
    rewrite <- Zlt_Qlt. lia.
  - destruct (repr_nonzero_finite _ _ _ Hx ltac:(lia)) as (m2 & e2 & Hm2).
    destruct (repr_nonzero_finite _ _ _ Hy ltac:(lia)) as (m1 & e1 & Hm1).
    replace (_ <? 0) with false in Hm2 by (symmetry; apply Z.ltb_ge; lia).
    replace (_ <? 0) with true in Hm1 by (symmetry; apply Z.ltb_lt; lia).
    unfold freePer. apply float_f_minus.
    rewrite Hm1, Hm2. apply (percent_sign (hs_Name h) true m1 e1 false m2 e2).
Qed.

Lemma itoa_nonneg_head n :
  0 <= n -> exists c rest, Fmt.itoa n = String c rest /\ c <> "-"%char.
Proof.
  intros Hn. unfold Fmt.itoa.
  destruct n as [ | p | p ]; [ | | lia ].
  - exists "0"%char, EmptyString. split; [ reflexivity | discriminate ].
  - unfold Z.to_int, NilZero.string_of_int, NilZero.string_of_uint.
    destruct (Pos.to_uint p); cbn [NilEmpty.string_of_uint];
      eexists; eexists; (split; [ reflexivity | discriminate ]).
Qed.

Lemma scaled_nonneg p m e : 0 <= Fmt.scaled p m e.
Proof.
  unfold Fmt.scaled. destruct (0 <=? e) eqn:He.
  - apply Z.leb_le in He.
    apply Z.mul_nonneg_nonneg; [ apply Z.mul_nonneg_nonneg | ];
      try lia; apply Z.pow_nonneg; lia.
  - unfold Fmt.round_half_even.
    assert (Hq : 0 <= Zpos m * 10 ^ Z.of_nat p / 2 ^ (- e)).
    { apply Z.div_pos.
      - apply Z.mul_nonneg_nonneg; [ lia | apply Z.pow_nonneg; lia ].
      - apply Z.pow_pos_nonneg; lia. }
    destruct (_ ?= _); [ destruct (Z.even _) | | ]; lia.
Qed.

Lemma float_f_plain p x :
  has_sign false x ->
  exists c rest, Fmt.float_f p x = String c rest /\ c <> "-"%char.
Proof.
  destruct x as [ s | s | | s m e ]; cbn [has_sign]; intros H;
    try contradiction; subst s; cbn [Fmt.float_f].
  - unfold Fmt.fixed. cbn [append].
    destruct (itoa_nonneg_head (0 / 10 ^ Z.of_nat p)) as (c & rest & -> & Hc).
    { apply Z.div_pos; [ lia | apply Z.pow_pos_nonneg; lia ]. }
    cbn [append]. eauto.
  - exists "+"%char, "Inf". split; [ reflexivity | discriminate ].
  - unfold Fmt.fixed. cbn [append].
    destruct (itoa_nonneg_head (Fmt.scaled p m e / 10 ^ Z.of_nat p))
      as (c & rest & -> & Hc).
    { apply Z.div_pos; [ apply scaled_nonneg | apply Z.pow_pos_nonneg; lia ]. }
    cbn [append]. eauto.
Qed.

(** X18.  For free and total both finite and not zero, the text that
    [freePer] returns starts with a minus sign exactly when the two have
    different signs. *)
Theorem freePer_minus_iff nm s1 m1 e1 s2 m2 e2 :
  (exists rest,
      freePer {| name := nm;
                 stats := {| total := S754_finite s2 m2 e2;
                             free := S754_finite s1 m1 e1 |} |}
      = String "-" rest)
  <-> s1 <> s2.
Proof.
  pose proof (percent_sign nm s1 m1 e1 s2 m2 e2) as Hs.
  unfold freePer. split.
  - intros [rest Hr] E. subst s2. rewrite xorb_nilpotent in Hs.
    destruct (float_f_plain 2 _ Hs) as (c & rest' & Hf & Hc).
    rewrite Hf in Hr. injection Hr as Hc' _. contradiction.
  - intros Hne. apply float_f_minus.
    replace (xorb s1 s2) with true in Hs; [ exact Hs | ].
    destruct s1, s2; try reflexivity; contradiction.
Qed.

End PercentFacts.

(** ** Instances *)

Lemma missing_option_run_witness :
  process (example_world [] []) ["-h"; "esx1"; "-u"; "root"; "-p"; "secret"]
  = ([Usage; Stderr "Must supply the command"], Exited 1)
  /\ process (example_world [] []) ["--warning"; "high"]
     = ([Stderr "unknown flag: --warning"; Usage], Exited 2)
  /\ process (example_world [] []) ["--help"] = ([Usage], Exited 0).
Proof.
  pose proof (missing_option_run (example_world [] [])
                ["-h"; "esx1"; "-u"; "root"; "-p"; "secret"]) as Hmissing.
  hnf in Hmissing.
  split; [ | split ].
  - exact (proj1 Hmissing _ eq_refl).
  - exact (missing_option_run (example_world [] []) ["--warning"; "high"]).
  - exact (missing_option_run (example_world [] []) ["--help"]).
Defined.

Lemma exit_codes_witness :
  snd (process (example_world [] [])
         ["-h"; "esx1"; "-u"; "root"; "-p"; "secret"; "-l"; "FOO"])
  = Exited 2
  /\ snd (process (example_world [] []) ["--warning"; "high"]) = Exited 2.
Proof.
  split.
  - apply (proj2 (exit_codes (example_world [] [])
                    ["-h"; "esx1"; "-u"; "root"; "-p"; "secret"; "-l"; "FOO"])).
    right. eexists. split; [ reflexivity | ].
    split; [ reflexivity | left; reflexivity ].
  - apply (proj2 (exit_codes (example_world [] []) ["--warning"; "high"])).
    left. eexists. reflexivity.
Defined.



Lemma session_calls_in_order_witness :
  exists n,
    network (fst (run (failing_world true true false true)
                      (example_options "MEM" EmptyString)))
    = firstn n (session_calls "https://esx1/sdk" "HostSystem").
Proof.
  destruct (session_calls_in_order (failing_world true true false true)
              (example_options "MEM" EmptyString)) as [n [Hn _]].
  exists n. exact Hn.
Defined.

Lemma connection_errors_are_fatal_witness :
  snd (run (failing_world true false true true) (example_options "CPU" EmptyString))
  = Exited 1
  /\ In (Stderr "connection refused")
        (fst (run (failing_world true false true true)
                  (example_options "CPU" EmptyString))).
Proof.
  rewrite (proj1 (connection_errors_are_fatal (failing_world true false true true)
                    (example_options "CPU" EmptyString) "HostSystem"
                    "https://esx1/sdk" eq_refl eq_refl eq_refl eq_refl)
             "connection refused" eq_refl).
  split; [ reflexivity | ]. apply in_or_app. right. left. reflexivity.
Defined.

Lemma retrieve_errors_are_fatal_witness :
  snd (run (failing_world true true true false) (example_options "VMFS" "ds1"))
  = Exited 1.
Proof.
  rewrite (proj1 (retrieve_errors_are_fatal (failing_world true true true false)
                    (example_options "VMFS" "ds1") "Datastore" tt "session expired"
                    eq_refl eq_refl eq_refl
                    (ex_intro _ "https://esx1/sdk"
                       (ex_intro _ tt (conj eq_refl (conj eq_refl eq_refl))))
                    eq_refl)).
  reflexivity.
Defined.

Lemma password_is_echoed_witness :
  exists line t,
    fst (run (failing_world true false true true) (example_options "CPU" EmptyString))
    = Stdout line :: t
    /\ contains "secret" line.
Proof.
  destruct (password_is_echoed (failing_world true false true true)
              (example_options "CPU" EmptyString) eq_refl
              ltac:(discriminate) ltac:(discriminate))
    as (line & t & Hrun & Hc & _).
  exists line, t. split; [ exact Hrun | exact Hc ].
Defined.

Lemma datastore_flag_ignored_for_hosts_witness :
  snd (run (example_world [host_a] [])
           (with_datastore (example_options "CPU" EmptyString) "ds1"))
  = snd (run (example_world [host_a] [])
             (with_datastore (example_options "CPU" EmptyString) "ds2")).
Proof.
  exact (proj1 (datastore_flag_ignored_for_hosts (example_world [host_a] [])
                  (example_options "CPU" EmptyString) "ds1" "ds2"
                  (or_introl eq_refl))).
Defined.

Lemma urlCheck_settles_witness :
  urlCheck_value (urlCheck_value "esx1") = urlCheck_value "esx1".
Proof. exact (proj2 (urlCheck_settles "esx1" eq_refl)). Defined.

Lemma urlCheck_newline_never_settles_witness :
  urlCheck_value ("http://esx1" ++ Fmt.nl) = "https://http://esx1" ++ Fmt.nl ++ "/sdk".
Proof.
  exact (proj1 (urlCheck_newline_never_settles ("http://esx1" ++ Fmt.nl) eq_refl)).
Defined.

Lemma getKeys_are_the_keys_witness :
  In "VMFS" (getKeys (example_world [] []) commandChoices).
Proof.
  apply (proj1 (getKeys_are_the_keys (example_world [] []) commandChoices) "VMFS").
  discriminate.
Defined.

Lemma accepted_command_lines_witness :
  exists a,
    pflag_Parse (example_world [] [])
      ["-h"; "esx1"; "-u"; "root"; "-p"; "secret"; "-l"; "CPU"]
    = Parsed a
    /\ checkRequiredOptions (parse a) = None
    /\ warning (parse a) = 85 /\ critical (parse a) = 90.
Proof.
  destruct (accepted_command_lines (example_world [] [])
              ["-h"; "esx1"; "-u"; "root"; "-p"; "secret"; "-l"; "CPU"])
    as [Hiff Hdefaults].
  destruct (proj2 Hiff) as (a & Hp & Hc).
  - exists example_args.
    split; [ reflexivity | ].
    repeat split; try discriminate;
      eexists; (split; [ reflexivity | discriminate ]).
  - exists a. split; [ exact Hp | split; [ exact Hc | ] ].
    destruct (Hdefaults a Hp) as (Hw & Hcr & _).
    assert (Ea : a = example_args) by (injection Hp as <-; reflexivity).
    split; [ apply Hw | apply Hcr ]; rewrite Ea; reflexivity.
Defined.

Lemma idle_host_reports_100_witness :
  (exists r, cpuStats host_idle = ret r /\ freePer r = "100.00")
  /\ (exists r, memStats host_idle = ret r /\ freePer r = "100.00").
Proof.
  assert (Ht : host_typed host_idle)
    by (unfold host_idle, host_typed, hardware_typed, int16, int32, int64;
        cbn; lia).
  destruct (PercentFacts.idle_host_reports_100 host_idle _ Ht eq_refl)
    as [Hcpu Hmem].
  split.
  - apply Hcpu; [ discriminate | reflexivity ].
  - apply Hmem; [ discriminate | reflexivity | reflexivity ].
Defined.

Lemma nothing_free_reports_0_witness :
  (exists r, cpuStats host_busy = ret r /\ freePer r = "0.00")
  /\ freePer (datastoreStats store_full) = "0.00".
Proof.
  assert (Ht : host_typed host_busy)
    by (unfold host_busy, host_typed, hardware_typed, int16, int32, int64;
        cbn; lia).
  destruct (PercentFacts.nothing_free_reports_0 host_busy _ store_full Ht eq_refl)
    as [Hcpu Hds].
  split.
  - apply Hcpu; reflexivity.
  - apply Hds; [ split; reflexivity | reflexivity ].
Defined.

Lemma powerless_host_reports_no_number_witness :
  exists r, cpuStats host_off = ret r /\ freePer r = "NaN".
Proof.
  assert (Ht : host_typed host_off)
    by (unfold host_off, host_typed, hardware_typed, int16, int32, int64;
        cbn; lia).
  apply (PercentFacts.powerless_host_reports_no_number host_off _ Ht eq_refl);
    [ discriminate | discriminate | reflexivity | discriminate ].
Defined.

Lemma overcommitted_host_goes_negative_witness :
  exists r,
    cpuStats host_over = ret r
    /\ (F64.to_Q (free (stats r)) < 0)%Q
    /\ exists rest, freePer r = String "-" rest.
Proof.
  assert (Ht : host_typed host_over)
    by (unfold host_over, host_typed, hardware_typed, int16, int32, int64;
        cbn; lia).
  apply (PercentFacts.overcommitted_host_goes_negative host_over _ Ht eq_refl).
  split; reflexivity.
Defined.

Lemma not_found_iff_witness :
  snd (run (example_world [] [store_a; store_b]) (example_options "VMFS" "ds2"))
  = Exited 0.
Proof.
  apply (proj2 (not_found_iff (example_world [] [store_a; store_b])
                  (example_options "VMFS" "ds2") tt [store_a; store_b]
                  eq_refl eq_refl ltac:(discriminate)
                  (example_session_up _ _ _ _) eq_refl)).
  exists store_b. split; [ reflexivity | discriminate ].
Defined.

Lemma freePer_minus_iff_witness :
  exists rest,
    freePer {| name := "x";
               stats := {| total := S754_finite false 3 0;
                           free := S754_finite true 1 0 |} |}
    = String "-" rest.
Proof.
  apply (proj2 (PercentFacts.freePer_minus_iff "x" true 1 0 false 3 0)).
  discriminate.
Defined.
